(** * Challenge-response authentication of psz-sketch: a shallow embedding

    The development follows the TypeScript sources:

    - [src/lib/keyManager.ts]       client key store, fingerprint derivation
    - authService ([authenticate])  client side of the two-step exchange
    - [src/lib/serverCrypto.ts]     fingerprint check, signature check, JWT
    - [src/mod/serverStorage.ts]    users and challenges stores, in its two
                                    revisions
    - sessionManager                sessions: create, read, destroy
    - [src/pages/api/challenge.ts]  the handlers of [POST /api/challenge]
                                    and [POST /api/authenticate]
    - [src/pages/api/logout.ts]     [POST /api/logout]
    - authService (token)           [setJwt], [getJwt], [clearJwt],
                                    [authenticatedFetch]
    - characterConfig               races, classes and texture names
    - assetCache                    [loadGLB], [loadTexture], [clearCache]
    - mongodb, [src/mod/collections.ts]
                                    connection cache and initialization
    - [src/pages/api/characters]    GET, POST and DELETE of characters

    Platform functions the sources call (base64 of [btoa] and of Node's
    [Buffer], SHA-256 of [subtle.digest], HS256 of [jsonwebtoken]) are
    written out so that every definition computes; ECDSA and the public-key
    encoding stay an interface ([WebCrypto]).

    JavaScript strings are modelled as [string] (sequences of 8-bit code
    units), buffers as [list byte], numbers that hold integers as [Z].
    Every reading of the clock and every draw of randomness is an argument
    of the function that makes it. A handler runs from its request to its
    response in one step; runs of two handlers that interleave at their
    [await]s are not modelled. *)

From Stdlib Require Import ZArith Ascii String List Lia DecimalString Sorted.
From Stdlib.Strings Require Import Byte.
From stdpp Require Import gmap strings list.

Local Open Scope Z_scope.

(* ===================================================================== *)
(** ** Results of operations that may throw *)
(* ===================================================================== *)

(** The errors a platform call can raise in this code base. *)
Inductive js_error : Type :=
  | SyntaxError        (* request.json() on a body that is not JSON *)
  | TypeError          (* property access on null / undefined *)
  | DataError          (* subtle.importKey on bytes that are no SPKI key *)
  | OperationError     (* any other WebCrypto failure *)
  | IDBError           (* an IndexedDB request or open that fails *)
  | MongoError         (* the MongoDB driver cannot serve the call *)
  | JsonWebTokenError  (* jwt.verify: bad signature or algorithm *)
  | TokenExpiredError  (* jwt.verify: exp reached *)
  | FetchError (status : Z). (* authService: response not ok *)

Inductive result (A : Type) : Type :=
  | Ok (a : A)
  | Throw (e : js_error).
Arguments Ok {A} a.
Arguments Throw {A} e.

Definition bind {A B} (r : result A) (k : A -> result B) : result B :=
  match r with
  | Ok a => k a
  | Throw e => Throw e
  end.

(** [try { body } catch (error) { handler }] *)
Definition try_catch {A} (body : result A) (handler : js_error -> result A) : result A :=
  match body with
  | Ok a => Ok a
  | Throw e => handler e
  end.

(** JavaScript truthiness of a value that is a string or absent. *)
Definition truthy (v : option string) : bool :=
  match v with
  | Some (String _ _) => true
  | _ => false
  end.

(* ===================================================================== *)
(** ** Base64: [btoa], [Buffer.toString('base64')], [Buffer.from(s,'base64')] *)
(* ===================================================================== *)

Module Base64.

(** A sextet, most significant bit first. *)
Definition sextet : Type := (bool * bool * bool * bool * bool * bool)%type.

Definition sextet_index (s : sextet) : N :=
  let '(s5, s4, s3, s2, s1, s0) := s in
  Byte.to_N (Byte.of_bits (s0, (s1, (s2, (s3, (s4, (s5, (false, false)))))))).

Definition sextet_of_index (n : N) : option sextet :=
  match Byte.of_N n with
  | Some b =>
      match Byte.to_bits b with
      | (s0, (s1, (s2, (s3, (s4, (s5, (false, false))))))) =>
          Some (s5, s4, s3, s2, s1, s0)
      | _ => None
      end
  | None => None
  end.

Definition alphabet : list ascii :=
  list_ascii_of_string
    "ABCDEFGHIJKLMNOPQRSTUVWXYZabcdefghijklmnopqrstuvwxyz0123456789+/".

Definition b64char (s : sextet) : ascii :=
  nth (N.to_nat (sextet_index s)) alphabet "A"%char.

(** Value of a character in the standard or the URL-safe alphabet, as
    Node's decoder reads it; [None] for every other character. *)
Definition unbase64 (c : ascii) : option sextet :=
  let n := N_of_ascii c in
  if ((65 <=? n) && (n <=? 90))%N then sextet_of_index (n - 65)
  else if ((97 <=? n) && (n <=? 122))%N then sextet_of_index (n - 71)
  else if ((48 <=? n) && (n <=? 57))%N then sextet_of_index (n + 4)
  else if ((n =? 43) || (n =? 45))%N then sextet_of_index 62
  else if ((n =? 47) || (n =? 95))%N then sextet_of_index 63
  else None.

Definition pad : ascii := "="%char.

(** Three bytes give four sextets. *)
Definition split3 (a b c : byte) : sextet * sextet * sextet * sextet :=
  let '(a0, (a1, (a2, (a3, (a4, (a5, (a6, a7))))))) := Byte.to_bits a in
  let '(b0, (b1, (b2, (b3, (b4, (b5, (b6, b7))))))) := Byte.to_bits b in
  let '(c0, (c1, (c2, (c3, (c4, (c5, (c6, c7))))))) := Byte.to_bits c in
  ((a7, a6, a5, a4, a3, a2), (a1, a0, b7, b6, b5, b4),
   (b3, b2, b1, b0, c7, c6), (c5, c4, c3, c2, c1, c0)).

Definition join1 (s1 s2 : sextet) : byte :=
  let '(a7, a6, a5, a4, a3, a2) := s1 in
  let '(a1, a0, _, _, _, _) := s2 in
  Byte.of_bits (a0, (a1, (a2, (a3, (a4, (a5, (a6, a7))))))).

Definition join2 (s2 s3 : sextet) : byte :=
  let '(_, _, b7, b6, b5, b4) := s2 in
  let '(b3, b2, b1, b0, _, _) := s3 in
  Byte.of_bits (b0, (b1, (b2, (b3, (b4, (b5, (b6, b7))))))).

Definition join3 (s3 s4 : sextet) : byte :=
  let '(_, _, _, _, c7, c6) := s3 in
  let '(c5, c4, c3, c2, c1, c0) := s4 in
  Byte.of_bits (c0, (c1, (c2, (c3, (c4, (c5, (c6, c7))))))).

(** Standard base64 with padding: what [btoa] does on a binary string and
    [Buffer.toString('base64')] on a buffer. *)
Fixpoint encode (bs : list byte) : string :=
  match bs with
  | [] => EmptyString
  | [a] =>
      let '(s1, s2, _, _) := split3 a x00 x00 in
      String (b64char s1) (String (b64char s2) (String pad (String pad EmptyString)))
  | [a; b] =>
      let '(s1, s2, s3, _) := split3 a b x00 in
      String (b64char s1) (String (b64char s2) (String (b64char s3) (String pad EmptyString)))
  | a :: b :: c :: rest =>
      let '(s1, s2, s3, s4) := split3 a b c in
      String (b64char s1) (String (b64char s2)
        (String (b64char s3) (String (b64char s4) (encode rest))))
  end.

(** Node's lenient reader: characters outside the alphabets are skipped,
    the first [=] ends the input. *)
Fixpoint sextets_of_string (s : string) : list sextet :=
  match s with
  | EmptyString => []
  | String c r =>
      if Ascii.eqb c pad then []
      else match unbase64 c with
           | Some v => v :: sextets_of_string r
           | None => sextets_of_string r
           end
  end.

Fixpoint bytes_of_sextets (l : list sextet) : list byte :=
  match l with
  | s1 :: s2 :: s3 :: s4 :: rest =>
      join1 s1 s2 :: join2 s2 s3 :: join3 s3 s4 :: bytes_of_sextets rest
  | [s1; s2; s3] => [join1 s1 s2; join2 s2 s3]
  | [s1; s2] => [join1 s1 s2]
  | _ => []
  end.

(** [Buffer.from(s, 'base64')] *)
Definition decode (s : string) : list byte :=
  bytes_of_sextets (sextets_of_string s).

End Base64.

(** [btoa(binary)] of the browser. *)
Definition btoa (binary : string) : string :=
  Base64.encode (map byte_of_ascii (list_ascii_of_string binary)).

(** [Buffer.from(bytes).toString('base64')] of Node. *)
Definition Buffer_toString_base64 (bytes : list byte) : string :=
  Base64.encode bytes.

(** [Buffer.from(s, 'base64').toString('binary')] of Node: one character per
    decoded byte. *)
Definition Buffer_from_base64_toString_binary (s : string) : string :=
  string_of_list_ascii (map ascii_of_byte (Base64.decode s)).

(** [Buffer.from(s, 'utf-8')] and [TextEncoder.encode] on a string of
    8-bit code units: a unit below 128 is one byte, a unit from 128 to 255
    the two bytes [110000xx 10xxxxxx]. *)
Definition utf8_unit (c : ascii) : list byte :=
  match c with
  | Ascii b0 b1 b2 b3 b4 b5 b6 false => [byte_of_ascii c]
  | Ascii b0 b1 b2 b3 b4 b5 b6 true =>
      [Byte.of_bits (b6, (true, (false, (false, (false, (false, (true, true)))))));
       Byte.of_bits (b0, (b1, (b2, (b3, (b4, (b5, (false, true)))))))]
  end.

Definition utf8_bytes (s : string) : list byte :=
  flat_map utf8_unit (list_ascii_of_string s).

(* ===================================================================== *)
(** ** SHA-256 ([subtle.digest('SHA-256', _)]), FIPS 180-4 *)
(* ===================================================================== *)

Module SHA256.

Definition wrap32 (x : Z) : Z := x mod 4294967296.
Definition add32 (x y : Z) : Z := wrap32 (x + y).
Definition rotr (n x : Z) : Z :=
  Z.lor (Z.shiftr x n) (wrap32 (Z.shiftl x (32 - n))).
Definition not32 (x : Z) : Z := 4294967295 - x.

Definition Ch (x y z : Z) : Z := Z.lxor (Z.land x y) (Z.land (not32 x) z).
Definition Maj (x y z : Z) : Z :=
  Z.lxor (Z.lxor (Z.land x y) (Z.land x z)) (Z.land y z).
Definition bsig0 (x : Z) : Z := Z.lxor (Z.lxor (rotr 2 x) (rotr 13 x)) (rotr 22 x).
Definition bsig1 (x : Z) : Z := Z.lxor (Z.lxor (rotr 6 x) (rotr 11 x)) (rotr 25 x).
Definition ssig0 (x : Z) : Z := Z.lxor (Z.lxor (rotr 7 x) (rotr 18 x)) (Z.shiftr x 3).
Definition ssig1 (x : Z) : Z := Z.lxor (Z.lxor (rotr 17 x) (rotr 19 x)) (Z.shiftr x 10).

(** Value of a hexadecimal digit, and the 32-bit words a string of such
    digits spells, eight digits a word. *)
Definition hex_value (c : ascii) : Z :=
  let n := Z.of_N (N_of_ascii c) in
  if n <? 58 then n - 48 else n - 87.

Fixpoint words_of_hex (s : string) : list Z :=
  match s with
  | String c7 (String c6 (String c5 (String c4
      (String c3 (String c2 (String c1 (String c0 rest))))))) =>
      fold_left (fun acc c => acc * 16 + hex_value c) [c7; c6; c5; c4; c3; c2; c1; c0] 0
      :: words_of_hex rest
  | _ => []
  end.

(** K: the fractional parts of the cube roots of the first 64 primes. *)
Definition round_constants : list Z :=
  Eval vm_compute in
    words_of_hex
      (String.concat ""
      ["428a2f9871374491b5c0fbcfe9b5dba53956c25b59f111f1923f82a4ab1c5ed5";
       "d807aa9812835b01243185be550c7dc372be5d7480deb1fe9bdc06a7c19bf174";
       "e49b69c1efbe47860fc19dc6240ca1cc2de92c6f4a7484aa5cb0a9dc76f988da";
       "983e5152a831c66db00327c8bf597fc7c6e00bf3d5a7914706ca635114292967";
       "27b70a852e1b21384d2c6dfc53380d13650a7354766a0abb81c2c92e92722c85";
       "a2bfe8a1a81a664bc24b8b70c76c51a3d192e819d6990624f40e3585106aa070";
       "19a4c1161e376c082748774c34b0bcb5391c0cb34ed8aa4a5b9cca4f682e6ff3";
       "748f82ee78a5636f84c878148cc7020890befffaa4506cebbef9a3f7c67178f2"]).

(** The eight working words. *)
Record state : Type := mkState {
  wa : Z; wb : Z; wc : Z; wd : Z; we : Z; wf : Z; wg : Z; wh : Z }.

(** H(0): the fractional parts of the square roots of the first 8 primes. *)
Definition initial : state :=
  Eval vm_compute in
    match words_of_hex "6a09e667bb67ae853c6ef372a54ff53a510e527f9b05688c1f83d9ab5be0cd19" with
    | [a; b; c; d; e; f; g; h] => mkState a b c d e f g h
    | _ => mkState 0 0 0 0 0 0 0 0
    end.

Definition byteZ (b : byte) : Z := Z.of_N (Byte.to_N b).
Definition Zbyte (z : Z) : byte :=
  match Byte.of_N (Z.to_N (z mod 256)) with
  | Some b => b
  | None => x00
  end.

(** Big-endian words of a block of bytes. *)
Fixpoint words_of_bytes (bs : list Z) : list Z :=
  match bs with
  | b3 :: b2 :: b1 :: b0 :: rest =>
      (((b3 * 256 + b2) * 256 + b1) * 256 + b0) :: words_of_bytes rest
  | _ => []
  end.

Definition bytes_of_word (w : Z) : list byte :=
  [Zbyte (Z.shiftr w 24); Zbyte (Z.shiftr w 16); Zbyte (Z.shiftr w 8); Zbyte w].

(** Message schedule, newest word first: [recent] holds W[t-1] .. W[t-16]. *)
Fixpoint schedule (n : nat) (recent : list Z) : list Z :=
  match n with
  | O => recent
  | S n' =>
      let w := add32 (add32 (ssig1 (nth 1 recent 0)) (nth 6 recent 0))
                     (add32 (ssig0 (nth 14 recent 0)) (nth 15 recent 0)) in
      schedule n' (w :: recent)
  end.

Definition round (s : state) (kw : Z * Z) : state :=
  let '(k, w) := kw in
  let t1 := add32 (add32 (add32 (wh s) (bsig1 (we s)))
                         (add32 (Ch (we s) (wf s) (wg s)) k)) w in
  let t2 := add32 (bsig0 (wa s)) (Maj (wa s) (wb s) (wc s)) in
  mkState (add32 t1 t2) (wa s) (wb s) (wc s) (add32 (wd s) t1) (we s) (wf s) (wg s).

Definition compress (h : state) (block : list Z) : state :=
  let w := rev (schedule 48 (rev (words_of_bytes block))) in
  let s := fold_left round (combine round_constants w) h in
  mkState (add32 (wa h) (wa s)) (add32 (wb h) (wb s))
          (add32 (wc h) (wc s)) (add32 (wd h) (wd s))
          (add32 (we h) (we s)) (add32 (wf h) (wf s))
          (add32 (wg h) (wg s)) (add32 (wh h) (wh s)).

(** Padding: a one bit, zeros, and the bit length on 64 bits. *)
Definition padding (len : Z) : list Z :=
  let zeros := (55 - len) mod 64 in
  let bits := len * 8 in
  128 :: repeat 0 (Z.to_nat zeros)
    ++ map (fun i => Z.shiftr bits (8 * i) mod 256) [7; 6; 5; 4; 3; 2; 1; 0].

Fixpoint absorb (fuel : nat) (h : state) (bs : list Z) : state :=
  match fuel, bs with
  | S fuel', _ :: _ => absorb fuel' (compress h (firstn 64 bs)) (skipn 64 bs)
  | _, _ => h
  end.

Definition digest_of_state (s : state) : list byte :=
  bytes_of_word (wa s) ++ bytes_of_word (wb s) ++ bytes_of_word (wc s)
  ++ bytes_of_word (wd s) ++ bytes_of_word (we s) ++ bytes_of_word (wf s)
  ++ bytes_of_word (wg s) ++ bytes_of_word (wh s).

Definition digest (msg : list byte) : list byte :=
  let bs := map byteZ msg in
  let padded := bs ++ padding (Z.of_nat (length bs)) in
  digest_of_state (absorb (length padded) initial padded).

Definition hex_digit (n : Z) : ascii :=
  nth (Z.to_nat n) (list_ascii_of_string "0123456789abcdef") "0"%char.

Definition hex (bs : list byte) : string :=
  string_of_list_ascii
    (flat_map (fun b => [hex_digit (byteZ b / 16); hex_digit (byteZ b mod 16)]) bs).

End SHA256.


(* ===================================================================== *)
(** ** HMAC-SHA256 and the HS256 tokens of [jsonwebtoken] *)
(* ===================================================================== *)

Module HMAC.

Definition block_size : nat := 64.

Definition xor_byte (m : Z) (b : byte) : byte :=
  SHA256.Zbyte (Z.lxor m (SHA256.byteZ b)).

(** RFC 2104: a key longer than a block is hashed, then zero-padded. *)
Definition block_key (key : list byte) : list byte :=
  let k := if (block_size <? length key)%nat then SHA256.digest key else key in
  k ++ repeat x00 (block_size - length k).

Definition hmac_sha256 (key msg : list byte) : list byte :=
  let k := block_key key in
  SHA256.digest (map (xor_byte 0x5c) k
                 ++ SHA256.digest (map (xor_byte 0x36) k ++ msg)).

End HMAC.

Fixpoint bytes_eqb (a b : list byte) : bool :=
  match a, b with
  | [], [] => true
  | x :: a', y :: b' => Byte.eqb x y && bytes_eqb a' b'
  | _, _ => false
  end.

(** The payload [generateJWT] builds. *)
Record JwtPayload : Type := mkJwtPayload {
  sub : string;
  iat : Z;
  exp : Z }.

Module JWT.

(** A compact token [header.payload.signature], kept as its three decoded
    segments. *)
Record token : Type := mkToken {
  alg : string;
  claims : JwtPayload;
  signature : list byte }.

Definition decimal (z : Z) : string := NilZero.string_of_int (Z.to_int z).

(** [JSON.stringify] of a string: quotes and backslashes escaped, control
    characters by their short or [u00XX] escape. *)
Fixpoint json_escape (s : string) : string :=
  match s with
  | EmptyString => EmptyString
  | String c r =>
      let n := Z.of_N (N_of_ascii c) in
      if (n =? 34) || (n =? 92) then String "\"%char (String c (json_escape r))
      else if n =? 8 then String.append "\b" (json_escape r)
      else if n =? 9 then String.append "\t" (json_escape r)
      else if n =? 10 then String.append "\n" (json_escape r)
      else if n =? 12 then String.append "\f" (json_escape r)
      else if n =? 13 then String.append "\r" (json_escape r)
      else if n <? 32 then
        String.append "\u00"
          (String (SHA256.hex_digit (n / 16))
             (String (SHA256.hex_digit (n mod 16)) (json_escape r)))
      else String c (json_escape r)
  end.

Definition quote : string := String (ascii_of_N 34) EmptyString.

Definition json_string (s : string) : string :=
  String.append quote (String.append (json_escape s) quote).

Definition json_key (k : string) : string :=
  String.append (json_string k) ":".

Definition header_json : string :=
  String.concat ""
    ["{"; json_key "alg"; json_string "HS256"; ",";
     json_key "typ"; json_string "JWT"; "}"].

Definition payload_json (p : JwtPayload) : string :=
  String.concat ""
    ["{"; json_key "sub"; json_string (sub p); ",";
     json_key "iat"; decimal (iat p); ",";
     json_key "exp"; decimal (exp p); "}"].

(** base64url without padding. *)
Fixpoint url_safe (s : string) : string :=
  match s with
  | EmptyString => EmptyString
  | String c r =>
      if Ascii.eqb c "+" then String "-"%char (url_safe r)
      else if Ascii.eqb c "/" then String "_"%char (url_safe r)
      else if Ascii.eqb c Base64.pad then url_safe r
      else String c (url_safe r)
  end.

Definition base64url (bs : list byte) : string := url_safe (Base64.encode bs).

Definition signing_input (p : JwtPayload) : list byte :=
  utf8_bytes
    (String.concat "."
       [base64url (utf8_bytes header_json); base64url (utf8_bytes (payload_json p))]).

(** [jwt.sign(payload, secret)]: HS256 by default; the [iat] and [exp] of
    the payload are kept as given. *)
Definition sign (p : JwtPayload) (secret : string) : token :=
  mkToken "HS256" p (HMAC.hmac_sha256 (utf8_bytes secret) (signing_input p)).

(** [jwt.verify(token, secret)] at clock reading [now] (milliseconds):
    the signature is recomputed, then [exp] is compared with the clock in
    seconds. *)
Definition verify (now : Z) (t : token) (secret : string) : result JwtPayload :=
  if negb (String.eqb (alg t) "HS256") then Throw JsonWebTokenError
  else if negb (bytes_eqb (signature t)
                  (HMAC.hmac_sha256 (utf8_bytes secret) (signing_input (claims t))))
  then Throw JsonWebTokenError
  else if exp (claims t) <=? now / 1000 then Throw TokenExpiredError
  else Ok (claims t).

End JWT.

(* ===================================================================== *)
(** ** The WebCrypto interface (ECDSA P-256, SPKI) *)
(* ===================================================================== *)

(** What the sources use of [crypto.subtle] besides [digest]. Key
    generation and signing draw randomness, passed in as [entropy]. *)
Record WebCrypto : Type := mkWebCrypto {
  PublicKey : Type;
  PrivateKey : Type;
  generateKey : list byte -> PublicKey * PrivateKey;
  exportKey_spki : PublicKey -> list byte;
  importKey_spki : list byte -> result PublicKey;
  subtle_sign : PrivateKey -> list byte -> list byte -> list byte;
      (* key, entropy, data *)
  subtle_verify : PublicKey -> list byte -> list byte -> result bool
      (* key, signature, data *) }.

(** A [CryptoKeyPair] over the key types of an implementation. *)
Record CryptoKeyPair (PK SK : Type) : Type := mkCryptoKeyPair {
  publicKey : PK;
  privateKey : SK }.
Arguments mkCryptoKeyPair {PK SK} _ _.
Arguments publicKey {PK SK} _.
Arguments privateKey {PK SK} _.

Abbreviation KeyPair wc := (CryptoKeyPair (PublicKey wc) (PrivateKey wc)).

(* ===================================================================== *)
(** ** src/lib/serverCrypto.ts *)
(* ===================================================================== *)

(** Process environment read at module load. *)
Record Env : Type := mkEnv {
  env_JWT_SECRET : option string;
  env_MONGODB_URI : option string }.

(** [process.env.JWT_SECRET || 'demo-secret-key-change-in-production'] *)
Definition JWT_SECRET (env : Env) : string :=
  match env_JWT_SECRET env with
  | Some (String c r) => String c r
  | _ => "demo-secret-key-change-in-production"
  end.

Definition base64ToArrayBuffer (base64 : string) : list byte :=
  let binaryString := Buffer_from_base64_toString_binary base64 in
  (* bytes[i] = binaryString.charCodeAt(i) for every i *)
  map byte_of_ascii (list_ascii_of_string binaryString).

Definition verifyFingerprint (fingerprint fullPublicKey : string) : result bool :=
  try_catch
    (let publicKeyBuffer := base64ToArrayBuffer fullPublicKey in
     let hashBuffer := SHA256.digest publicKeyBuffer in
     let fingerprintBytes := firstn 30 hashBuffer in
     let calculatedFingerprint := Buffer_toString_base64 fingerprintBytes in
     Ok (String.eqb calculatedFingerprint fingerprint))
    (fun _ => Ok false).

Definition verifySignature (wc : WebCrypto)
    (fullPublicKey challenge signature : string) : result bool :=
  try_catch
    (let publicKeyBuffer := base64ToArrayBuffer fullPublicKey in
     bind (importKey_spki wc publicKeyBuffer) (fun publicKey =>
     let challengeBuffer := utf8_bytes challenge in
     let signatureBuffer := base64ToArrayBuffer signature in
     bind (subtle_verify wc publicKey signatureBuffer challengeBuffer) (fun isValid =>
     Ok isValid)))
    (fun _ => Ok false).

(** [generateJWT] reads the clock once for [iat] and once more for [exp]:
    [now_iat] and [now_exp] are those two readings of [Date.now()]. *)
Definition generateJWT_payload (now_iat now_exp : Z) (fingerprint : string) : JwtPayload :=
  {| sub := fingerprint;
     iat := now_iat / 1000;
     exp := now_exp / 1000 + 3600 |}.

Definition generateJWT (env : Env) (now_iat now_exp : Z) (fingerprint : string) : JWT.token :=
  JWT.sign (generateJWT_payload now_iat now_exp fingerprint) (JWT_SECRET env).

Definition verifyJWT (env : Env) (now : Z) (token : JWT.token) : option JwtPayload :=
  match JWT.verify now token (JWT_SECRET env) with
  | Ok payload => Some payload
  | Throw _ => None
  end.

(* ===================================================================== *)
(** ** src/lib/keyManager.ts: fingerprint derivation and signing *)
(* ===================================================================== *)

Definition arrayBufferToBase64 (buffer : list byte) : string :=
  (* binary += String.fromCharCode(bytes[i]) for every i *)
  let binary := string_of_list_ascii (map ascii_of_byte buffer) in
  btoa binary.

Record PublicKeyDetails : Type := mkPublicKeyDetails {
  pkd_fingerprint : string;
  pkd_fullPublicKey : string }.

Definition getPublicKeyDetails (wc : WebCrypto) (pk : PublicKey wc) : PublicKeyDetails :=
  let publicKeyBuffer := exportKey_spki wc pk in
  let hashBuffer := SHA256.digest publicKeyBuffer in
  let fingerprintBytes := firstn 30 hashBuffer in
  let fingerprint := arrayBufferToBase64 fingerprintBytes in
  let fullPublicKey := arrayBufferToBase64 publicKeyBuffer in
  {| pkd_fingerprint := fingerprint; pkd_fullPublicKey := fullPublicKey |}.

Definition signData (wc : WebCrypto) (sk : PrivateKey wc)
    (entropy : list byte) (data : string) : string :=
  let dataBuffer := utf8_bytes data in
  let signature := subtle_sign wc sk entropy dataBuffer in
  arrayBufferToBase64 signature.


(* ===================================================================== *)
(** ** Stateful code: state passing with exceptions *)
(* ===================================================================== *)

(** A computation over a store [S] that returns or throws; the store keeps
    every write made before a throw. *)
Definition M (S A : Type) : Type := S -> result A * S.

Definition ret {S A} (a : A) : M S A := fun s => (Ok a, s).
Definition lift {S A} (r : result A) : M S A := fun s => (r, s).

Definition mbind {S A B} (m : M S A) (k : A -> M S B) : M S B :=
  fun s =>
    match m s with
    | (Ok a, s') => k a s'
    | (Throw e, s') => (Throw e, s')
    end.

Definition catch {S A} (m : M S A) (handler : js_error -> M S A) : M S A :=
  fun s =>
    match m s with
    | (Ok a, s') => (Ok a, s')
    | (Throw e, s') => handler e s'
    end.

Notation "x <~ m ;; k" := (mbind m (fun x => k))
  (at level 100, m at next level, right associativity).
Notation "m ;;; k" := (mbind m (fun _ => k))
  (at level 100, right associativity).

(* ===================================================================== *)
(** ** src/mod/serverStorage.ts *)
(* ===================================================================== *)

Record User : Type := mkUser {
  user_fingerprint : string;
  user_publicKey : string;
  user_createdAt : Z (* the instant rendered by [toISOString] *) }.

Record ChallengeData : Type := mkChallengeData {
  cd_fingerprint : string;
  cd_challenge : string;
  cd_timestamp : Z;
  cd_expiresIn : Z }.

(** [UserSession] of sessionManager.ts *)
Record UserSession : Type := mkUserSession {
  us_fingerprint : string;
  authenticatedAt : Z;
  expiresAt : Z }.

(** Everything the two endpoints read or write. The MongoDB collections are
    maps keyed by [fingerprint]; the driver fails every call while
    [mongo_reachable] is false. [timers] are the callbacks registered with
    [setTimeout] and not run yet (delay, fingerprint). [astro_session] is the
    session object of the request being served, absent when the adapter
    provides none. *)
Record Server : Type := mkServer {
  mongo_reachable : bool;
  mongo_users : gmap string User;
  mongo_challenges : gmap string ChallengeData;
  inMemoryUsers : gmap string User;
  inMemoryChallenges : gmap string ChallengeData;
  timers : list (Z * string);
  astro_session : option (gmap string UserSession) }.

Definition set_mongo_users (f : gmap string User -> gmap string User) (s : Server) : Server :=
  mkServer (mongo_reachable s) (f (mongo_users s)) (mongo_challenges s)
           (inMemoryUsers s) (inMemoryChallenges s) (timers s) (astro_session s).
Definition set_mongo_challenges
    (f : gmap string ChallengeData -> gmap string ChallengeData) (s : Server) : Server :=
  mkServer (mongo_reachable s) (mongo_users s) (f (mongo_challenges s))
           (inMemoryUsers s) (inMemoryChallenges s) (timers s) (astro_session s).
Definition set_inMemoryUsers (f : gmap string User -> gmap string User) (s : Server) : Server :=
  mkServer (mongo_reachable s) (mongo_users s) (mongo_challenges s)
           (f (inMemoryUsers s)) (inMemoryChallenges s) (timers s) (astro_session s).
Definition set_inMemoryChallenges
    (f : gmap string ChallengeData -> gmap string ChallengeData) (s : Server) : Server :=
  mkServer (mongo_reachable s) (mongo_users s) (mongo_challenges s)
           (inMemoryUsers s) (f (inMemoryChallenges s)) (timers s) (astro_session s).
Definition set_timers (f : list (Z * string) -> list (Z * string)) (s : Server) : Server :=
  mkServer (mongo_reachable s) (mongo_users s) (mongo_challenges s)
           (inMemoryUsers s) (inMemoryChallenges s) (f (timers s)) (astro_session s).
Definition set_astro_session (v : option (gmap string UserSession)) (s : Server) : Server :=
  mkServer (mongo_reachable s) (mongo_users s) (mongo_challenges s)
           (inMemoryUsers s) (inMemoryChallenges s) (timers s) v.

(** [const USE_MONGODB = !!process.env.MONGODB_URI] *)
Definition USE_MONGODB (env : Env) : bool := truthy (env_MONGODB_URI env).

(** [await getCollection(name)] followed by one driver call. *)
Definition mongo {A} (op : Server -> A * Server) : M Server A :=
  fun s => if mongo_reachable s then let '(a, s') := op s in (Ok a, s')
           else (Throw MongoError, s).

Module users.

Definition get (env : Env) (fingerprint : string) : M Server (option User) :=
  if USE_MONGODB env then
    (* collection.findOne({ fingerprint }); return user || undefined *)
    mongo (fun s => (mongo_users s !! fingerprint, s))
  else
    fun s => (Ok (inMemoryUsers s !! fingerprint), s).

Definition set (env : Env) (fingerprint : string) (user : User) : M Server unit :=
  if USE_MONGODB env then
    (* collection.updateOne({ fingerprint }, { $set: user }, { upsert: true }) *)
    mongo (fun s => (tt, set_mongo_users (insert fingerprint user) s))
  else
    fun s => (Ok tt, set_inMemoryUsers (insert fingerprint user) s).

Definition has (env : Env) (fingerprint : string) : M Server bool :=
  if USE_MONGODB env then
    mongo (fun s => (bool_decide (is_Some (mongo_users s !! fingerprint)), s))
  else
    fun s => (Ok (bool_decide (is_Some (inMemoryUsers s !! fingerprint))), s).

End users.

(** The three operations the endpoints call on [challenges]; [get] takes the
    reading of [Date.now()] it makes, if it makes one. *)
Record ChallengesApi : Type := mkChallengesApi {
  challenges_get : Z -> string -> M Server (option ChallengeData);
  challenges_set : string -> ChallengeData -> M Server unit;
  challenges_delete : string -> M Server unit }.

(** The challenges store that is always in memory, expires entries on read
    and schedules their removal. *)
Module challenges.

Definition get (now : Z) (fingerprint : string) : M Server (option ChallengeData) :=
  fun s =>
    let data := inMemoryChallenges s !! fingerprint in
    match data with
    | Some d =>
        let expiresAt := cd_timestamp d + cd_expiresIn d in
        if expiresAt <? now then
          (* Expired, delete and return undefined *)
          (Ok None, set_inMemoryChallenges (base.delete fingerprint) s)
        else (Ok data, s)
    | None => (Ok data, s)
    end.

Definition set (fingerprint : string) (data : ChallengeData) : M Server unit :=
  fun s =>
    let s1 := set_inMemoryChallenges (insert fingerprint data) s in
    (* setTimeout(() => inMemoryChallenges.delete(fingerprint), data.expiresIn) *)
    (Ok tt, set_timers (fun ts => ts ++ [(cd_expiresIn data, fingerprint)]) s1).

Definition delete (fingerprint : string) : M Server unit :=
  fun s => (Ok tt, set_inMemoryChallenges (base.delete fingerprint) s).

Definition api : ChallengesApi := mkChallengesApi get set delete.

(** The event loop runs the [i]-th pending timer callback. *)
Definition run_timer (i : nat) (s : Server) : Server :=
  match timers s !! i with
  | Some (_, fingerprint) =>
      set_timers (fun ts => firstn i ts ++ skipn (S i) ts)
        (set_inMemoryChallenges (base.delete fingerprint) s)
  | None => s
  end.

End challenges.

(** The earlier challenges store: a MongoDB collection when configured, a
    plain map otherwise; no expiry on read. *)
Module challenges_collection.

Definition get (env : Env) (_ : Z) (fingerprint : string)
    : M Server (option ChallengeData) :=
  if USE_MONGODB env then
    mongo (fun s => (mongo_challenges s !! fingerprint, s))
  else
    fun s => (Ok (inMemoryChallenges s !! fingerprint), s).

Definition set (env : Env) (fingerprint : string) (data : ChallengeData) : M Server unit :=
  if USE_MONGODB env then
    mongo (fun s => (tt, set_mongo_challenges (insert fingerprint data) s))
  else
    fun s => (Ok tt, set_inMemoryChallenges (insert fingerprint data) s).

Definition delete (env : Env) (fingerprint : string) : M Server unit :=
  if USE_MONGODB env then
    mongo (fun s => (tt, set_mongo_challenges (base.delete fingerprint) s))
  else
    fun s => (Ok tt, set_inMemoryChallenges (base.delete fingerprint) s).

Definition api (env : Env) : ChallengesApi :=
  mkChallengesApi (get env) (set env) (delete env).

End challenges_collection.

(* ===================================================================== *)
(** ** sessionManager.ts *)
(* ===================================================================== *)

Definition createUserSession (now : Z) (fingerprint : string)
    (expiresInSeconds : Z) : M Server unit :=
  fun s =>
    let sessionData :=
      {| us_fingerprint := fingerprint;
         authenticatedAt := now;
         expiresAt := now + expiresInSeconds * 1000 |} in
    match astro_session s with
    | Some data => (Ok tt, set_astro_session (Some (<["user" := sessionData]> data)) s)
    | None => (Throw TypeError, s)
    end.

(* ===================================================================== *)
(** ** Requests and responses *)
(* ===================================================================== *)

(** What [await request.json()] yields: the parsed body, whose properties
    are strings here, or [null]. A body that is no JSON makes it throw. *)
Inductive Json : Type :=
  | JsonNull
  | JsonObject (fields : gmap string string).

(** [const { a, b } = body] *)
Definition destructure (body : Json) (a b : string)
    : result (option string * option string) :=
  match body with
  | JsonNull => Throw TypeError
  | JsonObject fields => Ok (fields !! a, fields !! b)
  end.

Inductive ResponseBody : Type :=
  | ErrorJson (error : string)
  | ChallengeJson (challenge : string)
  | JwtJson (jwt : JWT.token).

Record Response : Type := mkResponse {
  status : Z;
  body : ResponseBody }.

(** The error taxonomy of the protocol, as the responses that carry it. *)
Definition MissingChallengeFields : Response :=
  mkResponse 400 (ErrorJson "Missing fingerprint or fullPublicKey").
Definition IdentityMismatch : Response :=
  mkResponse 400 (ErrorJson "Fingerprint does not match public key").
Definition MissingAuthFields : Response :=
  mkResponse 400 (ErrorJson "Missing fingerprint or signature").
Definition UserNotFound : Response :=
  mkResponse 401 (ErrorJson "User not found").
Definition NoChallenge : Response :=
  mkResponse 401 (ErrorJson "No challenge found").
Definition ChallengeExpired : Response :=
  mkResponse 401 (ErrorJson "Challenge expired").
Definition InvalidSignature : Response :=
  mkResponse 401 (ErrorJson "Invalid signature").
Definition InternalServerError : Response :=
  mkResponse 500 (ErrorJson "Internal server error").

(** A handler never throws: its [catch] turns every error into a 500. *)
Definition run_handler (h : M Server Response) (s : Server) : Response * Server :=
  match catch h (fun _ => ret InternalServerError) s with
  | (Ok r, s') => (r, s')
  | (Throw _, s') => (InternalServerError, s')
  end.

(* ===================================================================== *)
(** ** src/pages/api/challenge.ts, first handler: POST /api/challenge *)
(* ===================================================================== *)

(** Clock readings of one challenge request, in call order. *)
Record ChallengeClock : Type := mkChallengeClock {
  now_createdAt : Z;   (* new Date() of the registration record *)
  now_timestamp : Z    (* Date.now() of the challenge *) }.

Section Endpoints.

Variable wc : WebCrypto.
Variable env : Env.
(** The [challenges] object imported from serverStorage. *)
Variable store : ChallengesApi.

(** [random32] is the result of [randomBytes(32)]. *)
Definition challenge_POST (random32 : list byte) (clk : ChallengeClock)
    (request_json : result Json) : Server -> Response * Server :=
  run_handler (
    body <~ lift request_json ;;
    fields <~ lift (destructure body "fingerprint" "fullPublicKey") ;;
    let '(fingerprint, fullPublicKey) := fields in
    if negb (truthy fingerprint) || negb (truthy fullPublicKey) then
      ret MissingChallengeFields
    else
      let fingerprint := default EmptyString fingerprint in
      let fullPublicKey := default EmptyString fullPublicKey in
      isValid <~ lift (verifyFingerprint fingerprint fullPublicKey) ;;
      if negb isValid then ret IdentityMismatch
      else
        user <~ users.get env fingerprint ;;
        (match user with
         | Some _ => ret tt
         | None =>
             users.set env fingerprint
               {| user_fingerprint := fingerprint;
                  user_publicKey := fullPublicKey;
                  user_createdAt := now_createdAt clk |}
         end) ;;;
        let challengeBytes := random32 in
        let challenge := Buffer_toString_base64 challengeBytes in
        challenges_set store fingerprint
          {| cd_fingerprint := fingerprint;
             cd_challenge := challenge;
             cd_timestamp := now_timestamp clk;
             cd_expiresIn := 120000 |} ;;;
        ret (mkResponse 200 (ChallengeJson challenge))).

(* ===================================================================== *)
(** ** src/pages/api/challenge.ts, second handler: POST /api/authenticate *)
(* ===================================================================== *)

(** Clock readings of one authenticate request, in call order. *)
Record AuthClock : Type := mkAuthClock {
  now_get : Z;      (* Date.now() inside challenges.get *)
  now_check : Z;    (* Date.now() of the handler's expiry check *)
  now_iat : Z;      (* Date.now() of generateJWT's iat *)
  now_exp : Z;      (* Date.now() of generateJWT's exp *)
  now_session : Z   (* Date.now() of createUserSession *) }.

Definition authenticate_POST (clk : AuthClock)
    (request_json : result Json) : Server -> Response * Server :=
  run_handler (
    body <~ lift request_json ;;
    fields <~ lift (destructure body "fingerprint" "signature") ;;
    let '(fingerprint, signature) := fields in
    if negb (truthy fingerprint) || negb (truthy signature) then
      ret MissingAuthFields
    else
      let fingerprint := default EmptyString fingerprint in
      let signature := default EmptyString signature in
      user <~ users.get env fingerprint ;;
      match user with
      | None => ret UserNotFound
      | Some user =>
          challengeData <~ challenges_get store (now_get clk) fingerprint ;;
          match challengeData with
          | None => ret NoChallenge
          | Some challengeData =>
              let now := now_check clk in
              if cd_expiresIn challengeData <? now - cd_timestamp challengeData then
                challenges_delete store fingerprint ;;;
                ret ChallengeExpired
              else
                let challenge := cd_challenge challengeData in
                challenges_delete store fingerprint ;;;
                isValid <~ lift (verifySignature wc (user_publicKey user) challenge signature) ;;
                if negb isValid then ret InvalidSignature
                else
                  let jwt := generateJWT env (now_iat clk) (now_exp clk) fingerprint in
                  createUserSession (now_session clk) fingerprint 3600 ;;;
                  ret (mkResponse 200 (JwtJson jwt))
          end
      end).

End Endpoints.

(* ===================================================================== *)
(** ** src/lib/keyManager.ts: the key pair in IndexedDB *)
(* ===================================================================== *)

(** The browser side: the value stored under [KEY_ID] in the object store
    [STORE_NAME] of database [DB_NAME], and the outcome of each coming
    IndexedDB request in order ([true]: [onsuccess], [false]: [onerror]);
    requests beyond the list succeed. *)
Record Browser (PK SK : Type) : Type := mkBrowser {
  idb_slot : option (CryptoKeyPair PK SK);
  idb_outcomes : list bool }.
Arguments mkBrowser {PK SK} _ _.
Arguments idb_slot {PK SK} _.
Arguments idb_outcomes {PK SK} _.

Abbreviation BrowserOf wc := (Browser (PublicKey wc) (PrivateKey wc)).

Section KeyStore.

Variable wc : WebCrypto.

(** One IndexedDB request: it consumes its outcome. *)
Definition idb_request : M (BrowserOf wc) unit :=
  fun b =>
    match idb_outcomes b with
    | [] => (Ok tt, b)
    | ok :: rest =>
        (if ok then Ok tt else Throw IDBError, mkBrowser (idb_slot b) rest)
    end.

(** [indexedDB.open(DB_NAME, 1)] *)
Definition openDatabase : M (BrowserOf wc) unit := idb_request.

Definition createAndStoreKey (entropy : list byte) : M (BrowserOf wc) (KeyPair wc) :=
  let '(pk, sk) := generateKey wc entropy in
  let keyPair := mkCryptoKeyPair pk sk in
  openDatabase ;;;
  (* store.put(keyPair, KEY_ID) *)
  idb_request ;;;
  (fun b => (Ok tt, mkBrowser (Some keyPair) (idb_outcomes b))) ;;;
  ret keyPair.

Definition getStoredKey : M (BrowserOf wc) (option (KeyPair wc)) :=
  catch
    (openDatabase ;;;
     (* store.get(KEY_ID); resolve(request.result || null) *)
     idb_request ;;;
     keyPair <~ (fun b => (Ok (idb_slot b), b)) ;;
     ret keyPair)
    (fun _ => ret None).

Definition getOrCreateKey (entropy : list byte) : M (BrowserOf wc) (KeyPair wc) :=
  existingKey <~ getStoredKey ;;
  match existingKey with
  | Some existingKey => ret existingKey
  | None => createAndStoreKey entropy
  end.

(** The store is accessible: no coming request fails. *)
Definition accessible (b : BrowserOf wc) : Prop :=
  Forall (fun ok => ok = true) (idb_outcomes b).

(** The next transaction fails: its open does, or its request ([get] for
    [getStoredKey], [put] for [createAndStoreKey]). *)
Definition transaction_fails (b : BrowserOf wc) : bool :=
  match idb_outcomes b with
  | false :: _ => true
  | true :: false :: _ => true
  | _ => false
  end.

(** Successive calls of [getOrCreateKey], one per entropy. *)
Fixpoint getOrCreateKey_calls (entropies : list (list byte)) (b : BrowserOf wc)
    : list (result (KeyPair wc)) * BrowserOf wc :=
  match entropies with
  | [] => ([], b)
  | e :: rest =>
      let '(r, b1) := getOrCreateKey e b in
      let '(rs, b2) := getOrCreateKey_calls rest b1 in
      (r :: rs, b2)
  end.

End KeyStore.

(* ===================================================================== *)
(** ** authService.ts *)
(* ===================================================================== *)

Section AuthService.

Variable wc : WebCrypto.
Variable env : Env.
Variable store : ChallengesApi.

(** Randomness and clock readings of one run of the flow. *)
Record FlowInputs : Type := mkFlowInputs {
  key_entropy : list byte;      (* generateKey, if a key is created *)
  nonce_bytes : list byte;      (* the server's randomBytes(32) *)
  sign_entropy : list byte;     (* subtle.sign *)
  challenge_clock : ChallengeClock;
  auth_clock : AuthClock }.

(** [response.ok] *)
Definition response_ok (r : Response) : bool :=
  (200 <=? status r) && (status r <=? 299).

(** The client's [authenticate]: each [fetch] is served by the endpoint it
    addresses. An answer with [response.ok] always carries the property the
    client reads from it (lemmas [challenge_POST_ok_body] and
    [authenticate_POST_ok_body]), so the two [TypeError] branches only make
    the matches complete. *)
Definition authenticate (inp : FlowInputs)
    : M (BrowserOf wc * Server) JWT.token :=
  fun w =>
    let '(browser, server) := w in
    match getOrCreateKey wc (key_entropy inp) browser with
    | (Throw e, browser1) => (Throw e, (browser1, server))
    | (Ok keyPair, browser1) =>
        let details := getPublicKeyDetails wc (publicKey keyPair) in
        let fingerprint := pkd_fingerprint details in
        let fullPublicKey := pkd_fullPublicKey details in
        let '(challengeResponse, server1) :=
          challenge_POST env store (nonce_bytes inp) (challenge_clock inp)
            (Ok (JsonObject
               (<["fingerprint" := fingerprint]>
                  (<["fullPublicKey" := fullPublicKey]> ∅))))
            server in
        if negb (response_ok challengeResponse) then
          (Throw (FetchError (status challengeResponse)), (browser1, server1))
        else
          match body challengeResponse with
          | ChallengeJson challenge =>
              let signature :=
                signData wc (privateKey keyPair) (sign_entropy inp) challenge in
              let '(authResponse, server2) :=
                authenticate_POST wc env store (auth_clock inp)
                  (Ok (JsonObject
                     (<["fingerprint" := fingerprint]>
                        (<["signature" := signature]> ∅))))
                  server1 in
              if negb (response_ok authResponse) then
                (Throw (FetchError (status authResponse)), (browser1, server2))
              else
                match body authResponse with
                | JwtJson jwt => (Ok jwt, (browser1, server2))
                | _ => (Throw TypeError, (browser1, server2))
                end
          | _ => (Throw TypeError, (browser1, server1))
          end
    end.

End AuthService.

(* ===================================================================== *)
(** ** Runs of the server *)
(* ===================================================================== *)

(** What happens at the server between two challenge requests: an
    authenticate request is served, or a pending timer runs. *)
Inductive event : Type :=
  | AuthRequest (clk : AuthClock) (fields : gmap string string)
  | TimerRuns (i : nat).

Section Runs.

Variable wc : WebCrypto.
Variable env : Env.

(** The requests served along a run, each with its response. *)
Fixpoint run (events : list event) (s : Server)
    : list (gmap string string * Response) * Server :=
  match events with
  | [] => ([], s)
  | AuthRequest clk fields :: rest =>
      let '(r, s1) := authenticate_POST wc env challenges.api clk (Ok (JsonObject fields)) s in
      let '(served, s2) := run rest s1 in
      ((fields, r) :: served, s2)
  | TimerRuns i :: rest => run rest (challenges.run_timer i s)
  end.

(** The request got as far as signature verification for [identifier]. *)
Definition verified_for (identifier : string) (served : gmap string string * Response) : bool :=
  bool_decide (fst served !! "fingerprint" = Some identifier)
  && ((status (snd served) =? 200)
      || match body (snd served) with
         | ErrorJson e => String.eqb e "Invalid signature"
         | _ => false
         end).

End Runs.

(* ===================================================================== *)
(** ** The derivation as the specification words it *)
(* ===================================================================== *)

(** Hash the canonical encoding with SHA-256, keep the first 30 bytes,
    text-encode them in base64. *)
Definition spec_derive (canonical : list byte) : string :=
  Base64.encode (firstn 30 (SHA256.digest canonical)).

(* ===================================================================== *)
(** ** Concrete data for examples *)
(* ===================================================================== *)

(** A stand-in for the platform's signature scheme, with the shape of the
    [WebCrypto] calls: a key pair is twice a 32-byte secret, its encoding
    the secret, a signature the HMAC-SHA256 of the data. An encoding of any
    other length is rejected at import. *)
Definition mac_crypto : WebCrypto :=
  {| PublicKey := list byte;
     PrivateKey := list byte;
     generateKey := fun entropy => (SHA256.digest entropy, SHA256.digest entropy);
     exportKey_spki := fun pk => pk;
     importKey_spki := fun encoded =>
       if (length encoded =? 32)%nat then Ok encoded else Throw DataError;
     subtle_sign := fun sk _ data => HMAC.hmac_sha256 sk data;
     subtle_verify := fun pk sig data =>
       Ok (bytes_eqb sig (HMAC.hmac_sha256 pk data)) |}.

(** A development server: no environment variables, nothing stored, a
    session object at hand. *)
Definition dev_env : Env := mkEnv None None.

Definition fresh_server : Server :=
  mkServer false ∅ ∅ ∅ ∅ [] (Some ∅).

(** One run of the protocol on that server: the client of a new browser
    profile creates its key, asks for a challenge at instant 1000 and
    answers it two seconds later. *)
Definition demo_inputs : FlowInputs :=
  mkFlowInputs (utf8_bytes "entropy for the key")
    (utf8_bytes "0123456789abcdef0123456789abcdef")
    (utf8_bytes "entropy for the signature")
    (mkChallengeClock 1000 1000)
    (mkAuthClock 3000 3000 3000 3000 3000).

Definition demo_keyPair : KeyPair mac_crypto :=
  let '(pk, sk) := generateKey mac_crypto (key_entropy demo_inputs) in
  mkCryptoKeyPair pk sk.

Definition demo_details : PublicKeyDetails :=
  getPublicKeyDetails mac_crypto (publicKey demo_keyPair).

Definition demo_challenge_request : gmap string string :=
  <["fingerprint" := pkd_fingerprint demo_details]>
    (<["fullPublicKey" := pkd_fullPublicKey demo_details]> ∅).

(** The server once the challenge request is served. *)
Definition demo_issued : Server :=
  snd (challenge_POST dev_env challenges.api (nonce_bytes demo_inputs)
         (challenge_clock demo_inputs) (Ok (JsonObject demo_challenge_request))
         fresh_server).

Definition demo_challenge : string := Base64.encode (nonce_bytes demo_inputs).

(** The authenticate request of the honest client, and one whose signature
    is not the client's. *)
Definition demo_auth_request : gmap string string :=
  <["fingerprint" := pkd_fingerprint demo_details]>
    (<["signature" := signData mac_crypto (privateKey demo_keyPair)
                        (sign_entropy demo_inputs) demo_challenge]> ∅).

Definition demo_forged_request : gmap string string :=
  <["fingerprint" := pkd_fingerprint demo_details]>
    (<["signature" := "AAAA"]> ∅).


(** Readings of a clock one millisecond past the challenge's time to live. *)
Definition demo_late_clock : AuthClock :=
  mkAuthClock 121001 121001 121001 121001 121001.

(** A request that claims another identifier for the client's key. *)
Definition demo_spoof_request : gmap string string :=
  <["fingerprint" := "AAAAAAAAAAAAAAAAAAAAAAAAAAAAAAAAAAAAAAAA"]>
    (<["fullPublicKey" := pkd_fullPublicKey demo_details]> ∅).


(** The pair [generateKey] makes from other entropy. *)
Definition demo_new_keyPair : KeyPair mac_crypto :=
  let '(pk, sk) := generateKey mac_crypto (utf8_bytes "more entropy") in
  mkCryptoKeyPair pk sk.

(** Browsers that hold the client's pair: one whose next transaction fails
    at its request while later ones succeed, one whose next two
    transactions fail at their open, one where nothing fails. *)
Definition demo_browser_read_fails : BrowserOf mac_crypto :=
  mkBrowser (Some demo_keyPair) [true; false].
Definition demo_browser_down : BrowserOf mac_crypto :=
  mkBrowser (Some demo_keyPair) [false; false].
Definition demo_browser_up : BrowserOf mac_crypto :=
  mkBrowser (Some demo_keyPair) [true; true; true; true].

(* ===================================================================== *)
(** ** Runs of both endpoints *)
(* ===================================================================== *)

(** What the server does, one item at a time: it serves a challenge request
    or an authenticate request, or runs a pending timer callback. *)
Inductive request : Type :=
  | ChallengeRequest (random32 : list byte) (clk : ChallengeClock)
      (request_json : result Json)
  | AuthenticateRequest (clk : AuthClock) (request_json : result Json)
  | TimerCallback (i : nat).

Definition serve (wc : WebCrypto) (env : Env) (r : request) (s : Server) : Server :=
  match r with
  | ChallengeRequest random32 clk request_json =>
      snd (challenge_POST env challenges.api random32 clk request_json s)
  | AuthenticateRequest clk request_json =>
      snd (authenticate_POST wc env challenges.api clk request_json s)
  | TimerCallback i => challenges.run_timer i s
  end.

Definition serve_all (wc : WebCrypto) (env : Env) (rs : list request) (s : Server) : Server :=
  fold_left (fun s r => serve wc env r s) rs s.

(** The registration record of an identifier, in the users store in use. *)
Definition registered (env : Env) (s : Server) (fingerprint : string) : option User :=
  if USE_MONGODB env then mongo_users s !! fingerprint
  else inMemoryUsers s !! fingerprint.

(** A record is bound to its identifier: it carries it, and the identifier
    is the fingerprint of the record's public key. *)
Definition bound (fingerprint : string) (user : User) : Prop :=
  user_fingerprint user = fingerprint
  /\ fingerprint = spec_derive (Base64.decode (user_publicKey user)).

Definition users_bound (env : Env) (s : Server) : Prop :=
  forall fingerprint user, registered env s fingerprint = Some user -> bound fingerprint user.

(** What a challenge request does to the server, whatever its body: nothing,
    or it stores a challenge for the identifier it names, after registering
    it when it was unknown. *)
Inductive challenge_effect (env : Env) (s s' : Server) : Prop :=
  | challenge_refused : s' = s -> challenge_effect env s s'
  | challenge_stored (fingerprint : string) (data : ChallengeData) (newUser : User) :
      bound fingerprint newUser ->
      (forall other,
          registered env s' other = registered env s other
          \/ (other = fingerprint /\ registered env s other = None
              /\ registered env s' other = Some newUser)) ->
      inMemoryChallenges s' = <[fingerprint := data]> (inMemoryChallenges s) ->
      astro_session s' = astro_session s ->
      challenge_effect env s s'.

(** The record the demo challenge request registers, and a run served
    afterwards: a forged answer, the removal timer, a second challenge
    request. *)
Definition demo_user : User :=
  mkUser (pkd_fingerprint demo_details) (pkd_fullPublicKey demo_details) 1000.

Definition demo_requests : list request :=
  [AuthenticateRequest (auth_clock demo_inputs) (Ok (JsonObject demo_forged_request));
   TimerCallback 0;
   ChallengeRequest (utf8_bytes "another nonce of thirty-two byte") (mkChallengeClock 5000 5000)
     (Ok (JsonObject demo_challenge_request))].


(** A server that holds one challenge, issued at instant 1000. *)
Definition demo_pending : Server :=
  mkServer false ∅ ∅ ∅ {["visitor" := mkChallengeData "visitor" "bm9uY2U=" 1000 120000]}
    [(120000, "visitor")] None.

(* ===================================================================== *)
(** ** sessionManager.ts: reading and ending a session *)
(* ===================================================================== *)

(** [session.destroy()]: the session keeps no data. *)
Definition session_destroy : M Server unit :=
  fun s =>
    match astro_session s with
    | Some _ => (Ok tt, set_astro_session (Some ∅) s)
    | None => (Throw TypeError, s)
    end.

(** [now] is the reading of [Date.now()], made only when the session has a
    [user] entry. *)
Definition getUserSession (now : Z) : M Server (option UserSession) :=
  fun s =>
    match astro_session s with
    | None => (Throw TypeError, s)
    | Some data =>
        match data !! "user" with
        | None => (Ok None, s)
        | Some userData =>
            if expiresAt userData <? now then
              (session_destroy ;;; ret None) s
            else (Ok (Some userData), s)
        end
    end.

Definition destroyUserSession : M Server unit := session_destroy.

Definition isAuthenticated (now : Z) : M Server bool :=
  userData <~ getUserSession now ;;
  ret (match userData with Some _ => true | None => false end).

(* ===================================================================== *)
(** ** src/pages/api/logout.ts: POST /api/logout *)
(* ===================================================================== *)

(** Bodies of the endpoints that answer with a message. *)
Inductive MessageBody : Type :=
  | MessageJson (message : string)
  | MessageErrorJson (error : string).

Record MessageResponse : Type := mkMessageResponse {
  message_status : Z;
  message_body : MessageBody }.

Definition logout_POST (s : Server) : MessageResponse * Server :=
  match destroyUserSession s with
  | (Ok _, s') => (mkMessageResponse 200 (MessageJson "Logged out successfully"), s')
  | (Throw _, s') => (mkMessageResponse 500 (MessageErrorJson "Internal server error"), s')
  end.

(* ===================================================================== *)
(** ** authService.ts: the token kept by the client *)
(* ===================================================================== *)

(** What the client's token and asset functions can throw. *)
Inductive client_error : Type :=
  | QuotaExceededError   (* sessionStorage.setItem *)
  | NoTokenError         (* 'No JWT token available. Please authenticate first.' *)
  | HeadersTypeError     (* new Headers / Headers.set *)
  | NetworkError         (* fetch, response.blob *)
  | CacheError           (* a rejected localforage call *)
  | HttpError (url statusText : string).   (* 'Failed to fetch url: statusText' *)

(** [sessionStorage]: its items, and whether the next write exceeds the
    quota. *)
Record WebStorage : Type := mkWebStorage {
  items : gmap string string;
  quota_exceeded : bool }.

(** The module variable [currentJwt] ([None] is null) and the page's
    [sessionStorage], undefined outside a browser. *)
Record TokenStore : Type := mkTokenStore {
  currentJwt : option string;
  sessionStorage : option WebStorage }.

Definition setJwt (jwt : string) (st : TokenStore) : (client_error + unit) * TokenStore :=
  let st1 := mkTokenStore (Some jwt) (sessionStorage st) in
  match sessionStorage st with
  | Some storage =>
      if quota_exceeded storage then (inl QuotaExceededError, st1)
      else (inr tt,
            mkTokenStore (Some jwt)
              (Some (mkWebStorage (<["jwt" := jwt]> (items storage))
                      (quota_exceeded storage))))
  | None => (inr tt, st1)
  end.

Definition getJwt (st : TokenStore) : option string * TokenStore :=
  if truthy (currentJwt st) then (currentJwt st, st)
  else
    match sessionStorage st with
    | Some storage =>
        let stored := items storage !! "jwt" in
        (stored, mkTokenStore stored (sessionStorage st))
    | None => (currentJwt st, st)
    end.

Definition clearJwt (st : TokenStore) : TokenStore :=
  match sessionStorage st with
  | Some storage =>
      mkTokenStore None
        (Some (mkWebStorage (delete "jwt" (items storage)) (quota_exceeded storage)))
  | None => mkTokenStore None None
  end.

(** A page load: the module is evaluated again, [sessionStorage] stays. *)
Definition reload (st : TokenStore) : TokenStore :=
  mkTokenStore None (sessionStorage st).

(** The platform's [Headers] and [fetch], as far as [authenticatedFetch]
    uses them. *)
Record FetchApi : Type := mkFetchApi {
  HeadersInit : Type;
  Headers : Type;
  FetchResponse : Type;
  Headers_new : option HeadersInit -> client_error + Headers;
  Headers_set : Headers -> string -> string -> client_error + Headers;
  fetch : string -> Headers -> client_error + FetchResponse
    (* url and the headers of the request; the other options pass through *) }.

Definition authenticatedFetch (api : FetchApi) (url : string)
    (options_headers : option (HeadersInit api)) (st : TokenStore)
    : (client_error + FetchResponse api) * TokenStore :=
  let '(jwt, st1) := getJwt st in
  if negb (truthy jwt) then (inl NoTokenError, st1)
  else
    match Headers_new api options_headers with
    | inl e => (inl e, st1)
    | inr headers =>
        match Headers_set api headers "Authorization"
                ("Bearer " ++ default EmptyString jwt) with
        | inl e => (inl e, st1)
        | inr headers => (fetch api url headers, st1)
        end
    end.

(** A stand-in for the platform in examples: headers are a list of pairs,
    [set] replaces the entries of that name, and [fetch] answers with the
    request it was given. *)
Definition echo_api : FetchApi :=
  {| HeadersInit := list (string * string);
     Headers := list (string * string);
     FetchResponse := string * list (string * string);
     Headers_new := fun init => inr (default [] init);
     Headers_set := fun headers name value =>
       inr (filter (fun h => negb (String.eqb (fst h) name)) headers ++ [(name, value)]);
     fetch := fun url headers => inr (url, headers) |}.

(** A browser page that holds no token, and one whose storage is full and
    holds the token of an earlier login. *)
Definition demo_page : TokenStore := mkTokenStore None (Some (mkWebStorage ∅ false)).
Definition demo_page_full : TokenStore :=
  mkTokenStore None (Some (mkWebStorage (<["jwt" := "old.token"]> ∅) true)).

(** The pair [createAndStoreKey] makes from [entropy]. *)
Definition generatedKeyPair (wc : WebCrypto) (entropy : list byte) : KeyPair wc :=
  let '(pk, sk) := generateKey wc entropy in
  mkCryptoKeyPair pk sk.

(* ===================================================================== *)
(** ** characterConfig.ts *)
(* ===================================================================== *)

Record ColorOption : Type := mkColorOption {
  color_name : string;
  textureIndex : Z }.

Record CharacterClass : Type := mkCharacterClass {
  class_id : string;
  class_name : string;
  pcPrefix : string;
  variations : list string;
  colors : list ColorOption;
  skinTones : Z }.

Record RaceConfig : Type := mkRaceConfig {
  race_id : string;
  race_name : string;
  classes : list CharacterClass }.

(** The [colors] array, written out the same in every class. *)
Definition class_colors : list ColorOption :=
  [mkColorOption "Red" 0; mkColorOption "Blue" 1; mkColorOption "Green" 2;
   mkColorOption "Blue & Red" 3; mkColorOption "Black & Red" 4].

Definition CHARACTER_RACES : list RaceConfig :=
  [
   mkRaceConfig "human" "Human"
     [
      mkCharacterClass "HUmar" "HUmar" "pc_00"
        ["pc_000"; "pc_001"; "pc_002"; "pc_003"] class_colors 9;
      mkCharacterClass "HUmarl" "HUmarl" "pc_01"
        ["pc_010"; "pc_011"; "pc_012"; "pc_013"] class_colors 9;
      mkCharacterClass "RAmar" "RAmar" "pc_02"
        ["pc_020"; "pc_021"; "pc_022"; "pc_023"] class_colors 9;
      mkCharacterClass "RAmarl" "RAmarl" "pc_03"
        ["pc_030"; "pc_031"; "pc_032"; "pc_033"] class_colors 9;
      mkCharacterClass "FOmar" "FOmar" "pc_04"
        ["pc_040"; "pc_041"; "pc_042"; "pc_043"] class_colors 9;
      mkCharacterClass "FOmarl" "FOmarl" "pc_05"
        ["pc_050"; "pc_051"; "pc_052"; "pc_053"] class_colors 9 ];
   mkRaceConfig "newman" "Newman"
     [
      mkCharacterClass "HUnewm" "HUnewm" "pc_06"
        ["pc_060"; "pc_061"; "pc_062"; "pc_063"] class_colors 9;
      mkCharacterClass "HUnewearl" "HUnewearl" "pc_07"
        ["pc_070"; "pc_071"; "pc_072"; "pc_073"] class_colors 9;
      mkCharacterClass "FOnewm" "FOnewm" "pc_08"
        ["pc_080"; "pc_081"; "pc_082"; "pc_083"] class_colors 9;
      mkCharacterClass "FOnewearl" "FOnewearl" "pc_09"
        ["pc_090"; "pc_091"; "pc_092"; "pc_093"] class_colors 9 ];
   mkRaceConfig "cast" "Cast"
     [
      mkCharacterClass "HUcast" "HUcast" "pc_10"
        ["pc_100"; "pc_101"; "pc_102"; "pc_103"] class_colors 9;
      mkCharacterClass "HUcaseal" "HUcaseal" "pc_11"
        ["pc_110"; "pc_111"; "pc_112"; "pc_113"] class_colors 9;
      mkCharacterClass "RAcast" "RAcast" "pc_12"
        ["pc_120"; "pc_121"; "pc_122"; "pc_123"] class_colors 9;
      mkCharacterClass "RAcaseal" "RAcaseal" "pc_13"
        ["pc_130"; "pc_131"; "pc_132"; "pc_133"] class_colors 9 ] ].

(** [number.toString()] of an integer. *)
Definition Number_toString (n : Z) : string := JWT.decimal n.

Fixpoint repeat_string (filler : string) (n : nat) : string :=
  match n with
  | O => EmptyString
  | S n => filler ++ repeat_string filler n
  end.

(** [s.padStart(targetLength, filler)] for a one-character filler. *)
Definition padStart (targetLength : nat) (filler : string) (s : string) : string :=
  repeat_string filler (targetLength - String.length s) ++ s.

(** The arguments are integers; [Math.floor(skinTone / 3)] is then
    [skinTone / 3] rounded down and [%] the remainder with the sign of the
    dividend. *)
Definition getTextureName (variation : string) (colorIndex skinTone : Z) : string :=
  let textureIndex := skinTone / 3 * 100 + Z.rem skinTone 3 * 10 + colorIndex in
  variation ++ "_" ++ padStart 3 "0" (Number_toString textureIndex).

Definition getModelPath (variation : string) : string :=
  "/player/" ++ variation ++ "/" ++ variation ++ "/" ++ variation ++ "_000.glb".

Definition getTexturePath (variation textureName : string) : string :=
  "/player/" ++ variation ++ "/textures/" ++ textureName ++ ".png".

Fixpoint findCharacterClass_in (races : list RaceConfig) (classId : string)
    : option CharacterClass :=
  match races with
  | [] => None
  | race :: rest =>
      match find (fun c => String.eqb (class_id c) classId) (classes race) with
      | Some found => Some found
      | None => findCharacterClass_in rest classId
      end
  end.

Definition findCharacterClass (classId : string) : option CharacterClass :=
  findCharacterClass_in CHARACTER_RACES classId.

(* ===================================================================== *)
(** ** assetCache.ts *)
(* ===================================================================== *)

Definition Blob : Type := list byte.

(** A stored entry; one written by this module always has its [blob]. *)
Record CachedAsset : Type := mkCachedAsset {
  ca_url : string;
  ca_blob : option Blob;
  ca_cachedAt : Z }.

(** The two localforage instances, the outcome of each coming localforage
    call in order ([false]: the promise rejects; calls beyond the list
    succeed), and the blobs for which an object URL was created, the URL
    being the position in that list. *)
Record AssetStore : Type := mkAssetStore {
  glbCache : gmap string CachedAsset;
  textureCache : gmap string CachedAsset;
  cache_outcomes : list bool;
  objectURLs : list Blob }.

(** What [fetch] resolves to, as far as the loaders read it. *)
Record HttpResponse : Type := mkHttpResponse {
  resp_ok : bool;
  resp_statusText : string;
  resp_blob : client_error + Blob   (* await response.blob() *) }.

(** The network at the time of one call. *)
Definition Network : Type := string -> client_error + HttpResponse.

Inductive instance : Type := glb | texture.

Definition cache_of (i : instance) (st : AssetStore) : gmap string CachedAsset :=
  match i with glb => glbCache st | texture => textureCache st end.

Definition set_cache_of (i : instance)
    (f : gmap string CachedAsset -> gmap string CachedAsset) (st : AssetStore) : AssetStore :=
  match i with
  | glb => mkAssetStore (f (glbCache st)) (textureCache st) (cache_outcomes st) (objectURLs st)
  | texture => mkAssetStore (glbCache st) (f (textureCache st)) (cache_outcomes st) (objectURLs st)
  end.

(** One localforage call: it consumes its outcome. *)
Definition cache_call (st : AssetStore) : (client_error + unit) * AssetStore :=
  match cache_outcomes st with
  | [] => (inr tt, st)
  | ok :: rest =>
      (if ok then inr tt else inl CacheError,
       mkAssetStore (glbCache st) (textureCache st) rest (objectURLs st))
  end.

(** [URL.createObjectURL(blob)] *)
Definition createObjectURL (blob : Blob) (st : AssetStore) : nat * AssetStore :=
  (length (objectURLs st),
   mkAssetStore (glbCache st) (textureCache st) (cache_outcomes st) (objectURLs st ++ [blob])).

(** The body shared by [loadGLB] and [loadTexture], which differ in the
    instance they use; the [catch] logs and throws the error again. [now] is
    the reading of [Date.now()] for [cachedAt]. *)
Definition load (i : instance) (network : Network) (now : Z) (url : string)
    (st : AssetStore) : (client_error + nat) * AssetStore :=
  match cache_call st with
  | (inl e, st1) => (inl e, st1)
  | (inr _, st1) =>
      let cached := cache_of i st1 !! url in
      match cached with
      | Some (mkCachedAsset _ (Some blob) _) =>
          let '(objectURL, st2) := createObjectURL blob st1 in (inr objectURL, st2)
      | _ =>
          match network url with
          | inl e => (inl e, st1)
          | inr response =>
              if negb (resp_ok response) then
                (inl (HttpError url (resp_statusText response)), st1)
              else
                match resp_blob response with
                | inl e => (inl e, st1)
                | inr blob =>
                    match cache_call st1 with
                    | (inl e, st2) => (inl e, st2)
                    | (inr _, st2) =>
                        let st3 :=
                          set_cache_of i (insert url (mkCachedAsset url (Some blob) now)) st2 in
                        let '(objectURL, st4) := createObjectURL blob st3 in
                        (inr objectURL, st4)
                    end
                end
          end
      end
  end.

Definition loadGLB : Network -> Z -> string -> AssetStore -> (client_error + nat) * AssetStore :=
  load glb.

Definition loadTexture
    : Network -> Z -> string -> AssetStore -> (client_error + nat) * AssetStore :=
  load texture.

Definition clearCache (st : AssetStore) : (client_error + unit) * AssetStore :=
  match cache_call st with
  | (inl e, st1) => (inl e, st1)
  | (inr _, st1) =>
      let st2 := set_cache_of glb (fun _ => ∅) st1 in
      match cache_call st2 with
      | (inl e, st3) => (inl e, st3)
      | (inr _, st3) => (inr tt, set_cache_of texture (fun _ => ∅) st3)
      end
  end.

Record CacheStats : Type := mkCacheStats {
  glbCount : nat;
  textureCount : nat }.

Definition getCacheStats (st : AssetStore) : (client_error + CacheStats) * AssetStore :=
  match cache_call st with
  | (inl e, st1) => (inl e, st1)
  | (inr _, st1) =>
      let glbCount := size (glbCache st1) in
      match cache_call st1 with
      | (inl e, st2) => (inl e, st2)
      | (inr _, st2) => (inr (mkCacheStats glbCount (size (textureCache st2))), st2)
      end
  end.

(** The blob behind an object URL. *)
Definition blob_of (objectURL : nat) (st : AssetStore) : option Blob :=
  objectURLs st !! objectURL.

(** For examples: a browser with nothing cached, a network that serves one
    model, and no network at all. *)
Definition empty_store : AssetStore := mkAssetStore ∅ ∅ [] [].

Definition demo_network : Network :=
  fun url =>
    if String.eqb url (getModelPath "pc_000")
    then inr (mkHttpResponse true "OK" (inr [x67; x6c; x54; x46]))
    else inr (mkHttpResponse false "Not Found" (inr [])).

Definition offline : Network := fun _ => inl NetworkError.

(* ===================================================================== *)
(** ** The characters collection *)
(* ===================================================================== *)

(** A value of a parsed JSON body, as far as the handlers tell values
    apart: a number is an integer or not, arrays and objects are one case. *)
Inductive JsValue : Type :=
  | JsNull
  | JsBoolean (b : bool)
  | JsInteger (z : Z)
  | JsFraction            (* a number that is no integer *)
  | JsString (s : string)
  | JsCompound.           (* an array or an object *)

(** [!!v]; an absent property is [undefined]. *)
Definition truthy_value (v : option JsValue) : bool :=
  match v with
  | None | Some JsNull => false
  | Some (JsBoolean b) => b
  | Some (JsInteger z) => negb (z =? 0)
  | Some JsFraction => true
  | Some (JsString s) => negb (String.eqb s EmptyString)
  | Some JsCompound => true
  end.

(** What [await request.json()] yields for the characters endpoint. *)
Inductive RequestBody : Type :=
  | BodyNull
  | BodyObject (fields : gmap string JsValue)
  | BodyPrimitive.        (* a number, a string or a boolean *)

(** An [ObjectId] is kept as the 24 hexadecimal digits [toString] gives. *)
Definition ObjectId : Type := string.

(** [CharacterDocument] of collections.ts, with the values the POST handler
    stores: [name] and [textureId] are whatever the body carried. *)
Record CharacterDocument : Type := mkCharacterDocument {
  doc_id : ObjectId;
  doc_userId : string;
  doc_name : JsValue;
  doc_slot : Z;
  doc_classId : string;
  doc_textureId : JsValue;
  doc_level : Z;
  doc_experience : Z;
  doc_createdAt : Z;           (* the instant rendered by [toISOString] *)
  doc_deletedAt : option Z     (* null, or the instant of deletion *) }.

(** An index as the database holds it. *)
Record DbIndex : Type := mkDbIndex {
  idx_key : list string;
  idx_name : string;
  idx_unique : bool;
  idx_partial : bool   (* created with partialFilterExpression { deletedAt: null } *) }.

(** A collection's validator and indexes. *)
Record CollectionMeta : Type := mkCollectionMeta {
  meta_validator : bool;
  meta_indexes : list DbIndex }.

(** How the deployment answers [collMod]. *)
Inductive CollModAnswer : Type :=
  | CollModAllowed
  | CollModAtlasDenied        (* code 8000, codeName AtlasError *)
  | CollModFails.

(** The server with its database: the module variables of mongodb.ts, the
    collections created so far, and the documents of [characters] in
    insertion order. The driver fails every call while
    [mongo_reachable server] is false. *)
Record Backend : Type := mkBackend {
  server : Server;
  cachedDb : bool;                  (* cachedClient && cachedDb *)
  collectionsInitialized : bool;
  db_collections : gmap string CollectionMeta;
  db_collMod : CollModAnswer;
  characters_docs : list CharacterDocument }.

Definition set_server (f : Server -> Server) (b : Backend) : Backend :=
  mkBackend (f (server b)) (cachedDb b) (collectionsInitialized b) (db_collections b)
            (db_collMod b) (characters_docs b).
Definition set_cachedDb (v : bool) (b : Backend) : Backend :=
  mkBackend (server b) v (collectionsInitialized b) (db_collections b)
            (db_collMod b) (characters_docs b).
Definition set_collectionsInitialized (v : bool) (b : Backend) : Backend :=
  mkBackend (server b) (cachedDb b) v (db_collections b) (db_collMod b) (characters_docs b).
Definition set_db_collections
    (f : gmap string CollectionMeta -> gmap string CollectionMeta) (b : Backend) : Backend :=
  mkBackend (server b) (cachedDb b) (collectionsInitialized b) (f (db_collections b))
            (db_collMod b) (characters_docs b).
Definition set_characters_docs
    (f : list CharacterDocument -> list CharacterDocument) (b : Backend) : Backend :=
  mkBackend (server b) (cachedDb b) (collectionsInitialized b) (db_collections b)
            (db_collMod b) (f (characters_docs b)).

(** A computation of sessionManager.ts or serverStorage.ts run on the
    backend's server. *)
Definition on_server {A} (m : M Server A) : M Backend A :=
  fun b => let '(r, s) := m (server b) in (r, set_server (fun _ => s) b).

(** One call of the driver. *)
Definition driver {A} (op : Backend -> result A * Backend) : M Backend A :=
  fun b => if mongo_reachable (server b) then op b else (Throw MongoError, b).

Definition active (d : CharacterDocument) : bool :=
  match doc_deletedAt d with None => true | Some _ => false end.

(** The value of an indexed field, as text. *)
Definition field_value (field : string) (d : CharacterDocument) : string :=
  if String.eqb field "userId" then doc_userId d
  else if String.eqb field "slot" then JWT.decimal (doc_slot d)
  else if String.eqb field "createdAt" then JWT.decimal (doc_createdAt d)
  else if String.eqb field "deletedAt" then
    match doc_deletedAt d with None => "null" | Some t => JWT.decimal t end
  else if String.eqb field "_id" then doc_id d
  else EmptyString.

Definition same_key (key : list string) (d d' : CharacterDocument) : bool :=
  forallb (fun field => String.eqb (field_value field d) (field_value field d')) key.

(** The documents a unique index ranges over. *)
Definition indexed (index : DbIndex) (d : CharacterDocument) : bool :=
  negb (idx_partial index) || active d.

(** [doc] would be a second entry under a key of the unique index. *)
Definition duplicate_key (index : DbIndex) (docs : list CharacterDocument)
    (doc : CharacterDocument) : bool :=
  idx_unique index && indexed index doc
  && existsb (fun d => indexed index d && same_key (idx_key index) d doc) docs.

Fixpoint has_duplicates (index : DbIndex) (docs : list CharacterDocument) : bool :=
  match docs with
  | [] => false
  | d :: rest => duplicate_key index rest d || has_duplicates index rest
  end.

Definition characters_meta (b : Backend) : CollectionMeta :=
  default (mkCollectionMeta false []) (db_collections b !! "characters").

(* ===================================================================== *)
(** ** src/mod/collections.ts *)
(* ===================================================================== *)

(** An entry of [UsersIndexes] or [CharactersIndexes]. *)
Record IndexDefinition : Type := mkIndexDefinition {
  def_key : list string;
  def_unique : option bool;
  def_name : string;
  def_partialFilterExpression : bool;   (* { deletedAt: null } *)
  def_expireAfterSeconds : option Z }.

Record CollectionDefinition : Type := mkCollectionDefinition {
  coll_name : string;
  coll_indexes : list IndexDefinition }.

Definition UsersIndexes : list IndexDefinition :=
  [mkIndexDefinition ["fingerprint"] (Some true) "fingerprint_unique" false None;
   mkIndexDefinition ["createdAt"] None "created_at_idx" false None].

Definition CharactersIndexes : list IndexDefinition :=
  [mkIndexDefinition ["userId"; "slot"] (Some true) "user_slot_unique" true None;
   mkIndexDefinition ["userId"; "deletedAt"] None "user_active_idx" false None;
   mkIndexDefinition ["createdAt"] None "created_at_idx" false None].

Definition COLLECTIONS : list CollectionDefinition :=
  [mkCollectionDefinition "users" UsersIndexes;
   mkCollectionDefinition "characters" CharactersIndexes].

(** The options object [initializeCollections] builds for [createIndex]:
    [name], [unique] when defined, [expireAfterSeconds] when defined. *)
Record CreateIndexOptions : Type := mkCreateIndexOptions {
  opt_name : string;
  opt_unique : option bool;
  opt_expireAfterSeconds : option Z;
  opt_partialFilterExpression : bool }.

Definition createIndex_options (index : IndexDefinition) : CreateIndexOptions :=
  {| opt_name := def_name index;
     opt_unique := def_unique index;
     opt_expireAfterSeconds := def_expireAfterSeconds index;
     opt_partialFilterExpression := false |}.

(** The documents of a collection that a unique index would have to tell
    apart; the documents of [users] are kept by fingerprint and never
    clash. *)
Definition collection_documents (name : string) (b : Backend) : list CharacterDocument :=
  if String.eqb name "characters" then characters_docs b else [].

Definition index_eqb (i j : DbIndex) : bool :=
  bool_decide (idx_key i = idx_key j) && String.eqb (idx_name i) (idx_name j)
  && Bool.eqb (idx_unique i) (idx_unique j) && Bool.eqb (idx_partial i) (idx_partial j).

(** [collection.createIndex(key, options)]: nothing to do when the index
    exists as specified; an error when its name or its key is taken by
    another index, or when it is unique and the documents clash. *)
Definition createIndex (name : string) (key : list string) (options : CreateIndexOptions)
    : M Backend unit :=
  driver (fun b =>
    let meta := default (mkCollectionMeta false []) (db_collections b !! name) in
    let index := mkDbIndex key (opt_name options) (default false (opt_unique options))
                   (opt_partialFilterExpression options) in
    if existsb (index_eqb index) (meta_indexes meta) then (Ok tt, b)
    else if existsb (fun i => String.eqb (idx_name i) (idx_name index)
                              || bool_decide (idx_key i = idx_key index))
              (meta_indexes meta)
    then (Throw MongoError, b)
    else if has_duplicates index (collection_documents name b) then (Throw MongoError, b)
    else
      (Ok tt,
       set_db_collections
         (insert name (mkCollectionMeta (meta_validator meta) (meta_indexes meta ++ [index])))
         b)).

(** [db.listCollections({ name }).toArray()] has an entry: the collection
    was created, explicitly or by a first write. *)
Definition collection_exists (name : string) (b : Backend) : bool :=
  bool_decide (is_Some (db_collections b !! name))
  || (String.eqb name "users" && negb (bool_decide (mongo_users (server b) = ∅))).

Definition createCollection (name : string) : M Backend unit :=
  driver (fun b =>
    if collection_exists name b then (Throw MongoError, b)
    else (Ok tt, set_db_collections (insert name (mkCollectionMeta true [])) b)).

Definition collMod (name : string) : M Backend unit :=
  driver (fun b =>
    match db_collMod b with
    | CollModAllowed =>
        let meta := default (mkCollectionMeta false []) (db_collections b !! name) in
        (Ok tt, set_db_collections (insert name (mkCollectionMeta true (meta_indexes meta))) b)
    | _ => (Throw MongoError, b)
    end).

Fixpoint ensure_indexes (name : string) (indexes : list IndexDefinition) : M Backend unit :=
  match indexes with
  | [] => ret tt
  | index :: rest =>
      createIndex name (def_key index) (createIndex_options index) ;;;
      ensure_indexes name rest
  end.

Definition initializeCollection (definition : CollectionDefinition) : M Backend unit :=
  let name := coll_name definition in
  exists_ <~ driver (fun b => (Ok (collection_exists name b), b)) ;;
  (if negb exists_ then createCollection name
   else
     fun b =>
       match collMod name b with
       | (Ok _, b') => (Ok tt, b')
       | (Throw e, b') =>
           (* error.code === 8000 || error.codeName === 'AtlasError' *)
           if mongo_reachable (server b)
              && match db_collMod b with CollModAtlasDenied => true | _ => false end
           then (Ok tt, b')
           else (Throw e, b')
       end) ;;;
  ensure_indexes name (coll_indexes definition).

Fixpoint initialize_all (definitions : list CollectionDefinition) : M Backend unit :=
  match definitions with
  | [] => ret tt
  | definition :: rest => initializeCollection definition ;;; initialize_all rest
  end.

Definition initializeCollections : M Backend unit := initialize_all COLLECTIONS.

(* ===================================================================== *)
(** ** src/mod/mongodb.ts *)
(* ===================================================================== *)

Definition connectToDatabase : M Backend unit :=
  fun b =>
    if cachedDb b then (Ok tt, b)
    else if negb (mongo_reachable (server b)) then (Throw MongoError, b)   (* client.connect() *)
    else
      let b1 := set_cachedDb true b in
      if negb (collectionsInitialized b1) then
        match initializeCollections b1 with
        | (Ok _, b2) => (Ok tt, set_collectionsInitialized true b2)
        | (Throw _, b2) => (Ok tt, b2)   (* logged, not thrown *)
        end
      else (Ok tt, b1).

Definition getCollection : M Backend unit := connectToDatabase.

(* ===================================================================== *)
(** ** Driver calls on [characters] *)
(* ===================================================================== *)

(** [findOne(filter)]: the first document in natural order. *)
Definition findOne (filter : CharacterDocument -> bool)
    : M Backend (option CharacterDocument) :=
  driver (fun b => (Ok (find filter (characters_docs b)), b)).

Fixpoint insert_by_slot (d : CharacterDocument) (sorted : list CharacterDocument)
    : list CharacterDocument :=
  match sorted with
  | [] => [d]
  | d' :: rest =>
      if doc_slot d <=? doc_slot d' then d :: sorted else d' :: insert_by_slot d rest
  end.

(** [.sort({ slot: 1 })]; documents of one slot stay in natural order. *)
Definition sort_by_slot (docs : list CharacterDocument) : list CharacterDocument :=
  fold_right insert_by_slot [] docs.

(** [find(filter).sort({ slot: 1 }).toArray()] *)
Definition find_sorted (filter : CharacterDocument -> bool)
    : M Backend (list CharacterDocument) :=
  driver (fun b => (Ok (sort_by_slot (List.filter filter (characters_docs b))), b)).

Section CharactersApi.

(** What the installed [$jsonSchema] validator decides for a document. *)
Variable validator : CharacterDocument -> bool.
(** [ObjectId.isValid] and [new ObjectId(text)]. *)
Variable ObjectId_isValid : string -> bool.
Variable ObjectId_new : string -> result ObjectId.

(** [insertOne(doc)], [doc] carrying the [_id] the driver generated. *)
Definition insertOne (doc : CharacterDocument) : M Backend ObjectId :=
  driver (fun b =>
    let docs := characters_docs b in
    let meta := characters_meta b in
    if existsb (fun d => String.eqb (doc_id d) (doc_id doc)) docs then (Throw MongoError, b)
    else if meta_validator meta && negb (validator doc) then (Throw MongoError, b)
    else if existsb (fun index => duplicate_key index docs doc) (meta_indexes meta)
    then (Throw MongoError, b)
    else
      (Ok (doc_id doc),
       set_characters_docs (fun docs => docs ++ [doc])
         (set_db_collections (insert "characters" meta) b))).

Fixpoint set_deletedAt (id : ObjectId) (deletedAt : Z) (docs : list CharacterDocument)
    : Z * list CharacterDocument :=
  match docs with
  | [] => (0, [])
  | d :: rest =>
      if String.eqb (doc_id d) id then
        let d' := mkCharacterDocument (doc_id d) (doc_userId d) (doc_name d) (doc_slot d)
                    (doc_classId d) (doc_textureId d) (doc_level d) (doc_experience d)
                    (doc_createdAt d) (Some deletedAt) in
        ((if bool_decide (doc_deletedAt d = Some deletedAt) then 0 else 1), d' :: rest)
      else
        let '(modifiedCount, rest') := set_deletedAt id deletedAt rest in
        (modifiedCount, d :: rest')
  end.

(** [updateOne({ _id }, { $set: { deletedAt } })], returning
    [modifiedCount]. *)
Definition updateOne_deletedAt (id : ObjectId) (deletedAt : Z) : M Backend Z :=
  driver (fun b =>
    let '(modifiedCount, docs) := set_deletedAt id deletedAt (characters_docs b) in
    (Ok modifiedCount, set_characters_docs (fun _ => docs) b)).

(* ===================================================================== *)
(** ** src/pages/api/characters: GET, POST and DELETE *)
(* ===================================================================== *)

(** An element of the API's response format. *)
Record CharacterView : Type := mkCharacterView {
  character_id : string;
  character_name : JsValue;
  view_level : Z;
  view_slot : Z;
  view_class_id : string;
  texture_id : JsValue;
  view_experience : Z;
  created_at : Z }.

Inductive CharactersBody : Type :=
  | CharactersError (error : string)
  | CharactersList (characters : list CharacterView)
  | CharacterCreated (character : CharacterView)
  | CharacterDeleted.     (* { success: true } *)

Record CharactersResponse : Type := mkCharactersResponse {
  characters_status : Z;
  characters_body : CharactersBody }.

Definition respond (status : Z) (error : string) : CharactersResponse :=
  mkCharactersResponse status (CharactersError error).

(** The [catch] of each handler. *)
Definition run_characters (h : M Backend CharactersResponse) (b : Backend)
    : CharactersResponse * Backend :=
  match h b with
  | (Ok r, b') => (r, b')
  | (Throw _, b') => (respond 500 "Internal server error", b')
  end.

Definition view_of (char : CharacterDocument) : CharacterView :=
  {| character_id := doc_id char;
     character_name := doc_name char;
     view_level := doc_level char;
     view_slot := doc_slot char;
     view_class_id := doc_classId char;
     texture_id := doc_textureId char;
     view_experience := doc_experience char;
     created_at := doc_createdAt char |}.

(** [now] is the reading of [Date.now()] in [getUserSession]. *)
Definition characters_GET (now : Z) : Backend -> CharactersResponse * Backend :=
  run_characters (
    userSession <~ on_server (getUserSession now) ;;
    match userSession with
    | None => ret (respond 401 "Unauthorized")
    | Some userSession =>
        getCollection ;;;
        characters <~ find_sorted
          (fun d => String.eqb (doc_userId d) (us_fingerprint userSession) && active d) ;;
        ret (mkCharactersResponse 200 (CharactersList (map view_of characters)))
    end).

Definition validClasses : list string :=
  ["HUcaseal"; "HUcast"; "HUmar"; "HUmarl"; "HUnewm"; "HUnewearl";
   "RAcast"; "RAcaseal"; "RAmar"; "RAmarl";
   "FOmar"; "FOmarl"; "FOnewm"; "FOnewearl"].

(** [validClasses.includes(class_id)] *)
Definition includes_class (class_id : option JsValue) : option string :=
  match class_id with
  | Some (JsString s) => if existsb (String.eqb s) validClasses then Some s else None
  | _ => None
  end.

(** [Number.isInteger(slot) && 0 <= slot && slot <= 3] *)
Definition valid_slot (slot : option JsValue) : option Z :=
  match slot with
  | Some (JsInteger z) => if (z <? 0) || (3 <? z) then None else Some z
  | _ => None
  end.

(** [now] is the reading of the clock in [getUserSession], [createdAt] the
    one of [new Date()], [newId] the [_id] the driver generates. *)
Definition characters_POST (now createdAt : Z) (newId : ObjectId)
    (request_json : result RequestBody) : Backend -> CharactersResponse * Backend :=
  run_characters (
    userSession <~ on_server (getUserSession now) ;;
    match userSession with
    | None => ret (respond 401 "Unauthorized")
    | Some userSession =>
        body <~ lift request_json ;;
        fields <~ lift (match body with
                        | BodyNull => Throw TypeError
                        | BodyObject fields => Ok fields
                        | BodyPrimitive => Ok ∅
                        end) ;;
        let slot := fields !! "slot" in
        let name := fields !! "name" in
        let class_id := fields !! "class_id" in
        let texture_id := fields !! "texture_id" in
        if bool_decide (slot = None) || negb (truthy_value name)
           || negb (truthy_value class_id) || negb (truthy_value texture_id)
        then ret (respond 400 "Missing required fields: slot, name, class_id, texture_id")
        else
          match valid_slot slot with
          | None => ret (respond 400 "Slot must be an integer between 0 and 3")
          | Some slot =>
              match includes_class class_id with
              | None => ret (respond 400 "Invalid class_id")
              | Some class_id =>
                  getCollection ;;;
                  existingCharacter <~ findOne
                    (fun d => String.eqb (doc_userId d) (us_fingerprint userSession)
                              && (doc_slot d =? slot) && active d) ;;
                  match existingCharacter with
                  | Some _ => ret (respond 409 "Slot already occupied")
                  | None =>
                      let newCharacter :=
                        {| doc_id := newId;
                           doc_userId := us_fingerprint userSession;
                           doc_name := default JsNull name;
                           doc_slot := slot;
                           doc_classId := class_id;
                           doc_textureId := default JsNull texture_id;
                           doc_level := 1;
                           doc_experience := 0;
                           doc_createdAt := createdAt;
                           doc_deletedAt := None |} in
                      insertedId <~ insertOne newCharacter ;;
                      (* an ObjectId is never falsy: no 'Failed to create character' *)
                      let responseData :=
                        {| character_id := insertedId;
                           character_name := doc_name newCharacter;
                           view_level := doc_level newCharacter;
                           view_slot := doc_slot newCharacter;
                           view_class_id := doc_classId newCharacter;
                           texture_id := doc_textureId newCharacter;
                           view_experience := doc_experience newCharacter;
                           created_at := doc_createdAt newCharacter |} in
                      ret (mkCharactersResponse 201 (CharacterCreated responseData))
                  end
              end
          end
    end).

(** [params_id] is [params.id]; [deletedAt] the reading of [new Date()]. *)
Definition characters_DELETE (now deletedAt : Z) (params_id : option string)
    : Backend -> CharactersResponse * Backend :=
  run_characters (
    userSession <~ on_server (getUserSession now) ;;
    match userSession with
    | None => ret (respond 401 "Unauthorized")
    | Some userSession =>
        if negb (truthy params_id) then ret (respond 400 "Character ID is required")
        else
          let characterId := default EmptyString params_id in
          if negb (ObjectId_isValid characterId) then ret (respond 400 "Invalid character ID")
          else
            getCollection ;;;
            id <~ lift (ObjectId_new characterId) ;;
            character <~ findOne
              (fun d => String.eqb (doc_id d) id
                        && String.eqb (doc_userId d) (us_fingerprint userSession)
                        && active d) ;;
            match character with
            | None => ret (respond 404 "Character not found")
            | Some _ =>
                id <~ lift (ObjectId_new characterId) ;;
                modifiedCount <~ updateOne_deletedAt id deletedAt ;;
                if modifiedCount =? 0 then ret (respond 500 "Failed to delete character")
                else ret (mkCharactersResponse 200 CharacterDeleted)
            end
    end).

End CharactersApi.

(* ===================================================================== *)
(** ** Notions used in the statements about the characters collection *)
(* ===================================================================== *)



(** No two documents share an [_id]. *)
Definition unique_ids (docs : list CharacterDocument) : Prop := NoDup (map doc_id docs).

(** The documents of the other users. *)
Definition of_others (fingerprint : string) (docs : list CharacterDocument)
    : list CharacterDocument :=
  List.filter (fun d => negb (String.eqb (doc_userId d) fingerprint)) docs.

(** [d] once soft-deleted at [deletedAt]. *)
Definition deleted_at (deletedAt : Z) (d : CharacterDocument) : CharacterDocument :=
  mkCharacterDocument (doc_id d) (doc_userId d) (doc_name d) (doc_slot d) (doc_classId d)
    (doc_textureId d) (doc_level d) (doc_experience d) (doc_createdAt d) (Some deletedAt).

(** The server, the documents and the deployment's answer to [collMod]. *)
Definition same_data (b b' : Backend) : Prop :=
  server b' = server b
  /\ characters_docs b' = characters_docs b
  /\ db_collMod b' = db_collMod b.

(** One request to the characters endpoints. *)
Inductive characters_request : Type :=
  | GetCharacters (now : Z)
  | PostCharacter (now createdAt : Z) (newId : ObjectId) (request_json : result RequestBody)
  | DeleteCharacter (now deletedAt : Z) (params_id : option string).

(** The reading of the clock a request makes in [getUserSession]. *)
Definition request_now (r : characters_request) : Z :=
  match r with
  | GetCharacters now | PostCharacter now _ _ _ | DeleteCharacter now _ _ => now
  end.

(** The backend when a handler has read the session and asked for the
    collection. *)
Definition connected (now : Z) (b : Backend) : Backend :=
  snd (connectToDatabase
         (set_server (fun _ => snd (getUserSession now (server b))) b)).

(** The index on (userId, slot) that ranges over deleted characters too. *)
Definition user_slot_index : DbIndex :=
  mkDbIndex ["userId"; "slot"] "user_slot_unique" true false.

(** The collection [name] has the index. *)
Definition has_index (name : string) (index : DbIndex) (b : Backend) : Prop :=
  In index (meta_indexes (default (mkCollectionMeta false []) (db_collections b !! name))).

(** The module variables of mongodb.ts and the validator and indexes of
    [characters] are the same in both. *)
Definition same_schema (b b' : Backend) : Prop :=
  cachedDb b' = cachedDb b
  /\ collectionsInitialized b' = collectionsInitialized b
  /\ characters_meta b' = characters_meta b.

Section CharactersRuns.

Variable validator : CharacterDocument -> bool.
Variable ObjectId_isValid : string -> bool.
Variable ObjectId_new : string -> result ObjectId.

Definition serve_characters (r : characters_request) (b : Backend)
    : CharactersResponse * Backend :=
  match r with
  | GetCharacters now => characters_GET now b
  | PostCharacter now createdAt newId request_json =>
      characters_POST validator now createdAt newId request_json b
  | DeleteCharacter now deletedAt params_id =>
      characters_DELETE ObjectId_isValid ObjectId_new now deletedAt params_id b
  end.

Definition serve_characters_all (rs : list characters_request) (b : Backend) : Backend :=
  fold_left (fun b r => snd (serve_characters r b)) rs b.

End CharactersRuns.

(* ===================================================================== *)
(** ** Concrete data for the characters endpoints *)
(* ===================================================================== *)

(** A validator that accepts every document, and ids checked by length
    only. *)
Definition accept_all : CharacterDocument -> bool := fun _ => true.
Definition length24 (text : string) : bool := (String.length text =? 24)%nat.
Definition as_written (text : string) : result ObjectId := Ok text.

(** A reachable database nobody has connected to, and a request under the
    session of user [player]. *)
Definition player_server : Server :=
  mkServer true ∅ ∅ ∅ ∅ [] (Some {["user" := mkUserSession "player" 1000 3601000]}).

Definition new_backend : Backend :=
  mkBackend player_server false false ∅ CollModAllowed [].

Definition ash_body : RequestBody :=
  BodyObject
    (<["slot" := JsInteger 2]>
       (<["name" := JsString "Ash"]>
          (<["class_id" := JsString "HUmar"]>
             (<["texture_id" := JsString "pc_000_000"]> ∅)))).

Definition ash_id : ObjectId := "65a000000000000000000001".

(** The backend once Ash is created, and once Ash is deleted again. *)
Definition with_ash : Backend :=
  snd (characters_POST accept_all 2000 2000 ash_id (Ok ash_body) new_backend).

Definition without_ash : Backend :=
  snd (characters_DELETE length24 as_written 3000 3000 (Some ash_id) with_ash).

(** The same two steps on a database whose initialization is skipped: a
    connection is cached and [characters] has no index. *)
Definition unindexed_backend : Backend :=
  mkBackend player_server true false ∅ CollModAllowed [].

Definition unindexed_without_ash : Backend :=
  snd (characters_DELETE length24 as_written 3000 3000 (Some ash_id)
         (snd (characters_POST accept_all 2000 2000 ash_id (Ok ash_body)
                 unindexed_backend))).

(* ===================================================================== *)
(** * Properties *)
(* ===================================================================== *)

(** ** Base64 *)

Module Base64Facts.
Import Base64.

Lemma unbase64_b64char (s : sextet) : unbase64 (b64char s) = Some s.
Proof.
  destruct s as [[[[[s5 s4] s3] s2] s1] s0].
  destruct s5, s4, s3, s2, s1, s0; reflexivity.
Qed.

Lemma b64char_not_pad (s : sextet) : Ascii.eqb (b64char s) pad = false.
Proof.
  destruct s as [[[[[s5 s4] s3] s2] s1] s0].
  destruct s5, s4, s3, s2, s1, s0; reflexivity.
Qed.

Lemma sextets_of_string_b64char (s : sextet) (r : string) :
  sextets_of_string (String (b64char s) r) = s :: sextets_of_string r.
Proof.
  cbn [sextets_of_string]. now rewrite b64char_not_pad, unbase64_b64char.
Qed.

Lemma sextets_of_string_pad (r : string) :
  sextets_of_string (String pad r) = [].
Proof. reflexivity. Qed.

(** Bytes written as their eight bits. *)
Lemma byte_bits (b : byte) :
  exists b0 b1 b2 b3 b4 b5 b6 b7,
    Byte.to_bits b = (b0, (b1, (b2, (b3, (b4, (b5, (b6, b7))))))).
Proof.
  destruct (Byte.to_bits b) as [b0 [b1 [b2 [b3 [b4 [b5 [b6 b7]]]]]]].
  repeat eexists.
Qed.

Lemma join_split3 (a b c : byte) :
  let '(s1, s2, s3, s4) := split3 a b c in
  join1 s1 s2 = a /\ join2 s2 s3 = b /\ join3 s3 s4 = c.
Proof.
  unfold split3.
  destruct (byte_bits a) as (a0 & a1 & a2 & a3 & a4 & a5 & a6 & a7 & Ha).
  destruct (byte_bits b) as (b0 & b1 & b2 & b3 & b4 & b5 & b6 & b7 & Hb).
  destruct (byte_bits c) as (c0 & c1 & c2 & c3 & c4 & c5 & c6 & c7 & Hc).
  rewrite Ha, Hb, Hc. cbn [join1 join2 join3].
  rewrite <- Ha, <- Hb, <- Hc, !Byte.of_bits_to_bits. auto.
Qed.

(** Induction three bytes at a time. *)
Lemma list_ind3 {A} (P : list A -> Prop) :
  P [] -> (forall a, P [a]) -> (forall a b, P [a; b]) ->
  (forall a b c rest, P rest -> P (a :: b :: c :: rest)) ->
  forall l, P l.
Proof.
  intros H0 H1 H2 H3.
  fix IH 1.
  intros [|a [|b [|c rest]]];
    [apply H0 | apply H1 | apply H2 | apply H3; apply IH].
Qed.

Lemma decode_encode (bs : list byte) : decode (encode bs) = bs.
Proof.
  unfold decode. induction bs as [|a|a b|a b c rest IH] using list_ind3.
  - reflexivity.
  - cbn [encode]. pose proof (join_split3 a x00 x00) as H.
    destruct (split3 a x00 x00) as [[[s1 s2] s3] s4]. destruct H as (H1 & _ & _).
    rewrite !sextets_of_string_b64char, sextets_of_string_pad.
    cbn [bytes_of_sextets]. now rewrite H1.
  - cbn [encode]. pose proof (join_split3 a b x00) as H.
    destruct (split3 a b x00) as [[[s1 s2] s3] s4]. destruct H as (H1 & H2 & _).
    rewrite !sextets_of_string_b64char, sextets_of_string_pad.
    cbn [bytes_of_sextets]. now rewrite H1, H2.
  - cbn [encode]. pose proof (join_split3 a b c) as H.
    destruct (split3 a b c) as [[[s1 s2] s3] s4]. destruct H as (H1 & H2 & H3).
    rewrite !sextets_of_string_b64char.
    cbn [bytes_of_sextets]. now rewrite H1, H2, H3, IH.
Qed.

Lemma length_encode (bs : list byte) :
  String.length (encode bs) = (4 * ((length bs + 2) / 3))%nat.
Proof.
  induction bs as [|a|a b|a b c rest IH] using list_ind3.
  - reflexivity.
  - cbn [encode]. destruct (split3 a x00 x00) as [[[s1 s2] s3] s4]. reflexivity.
  - cbn [encode]. destruct (split3 a b x00) as [[[s1 s2] s3] s4]. reflexivity.
  - cbn [encode]. destruct (split3 a b c) as [[[s1 s2] s3] s4].
    cbn [String.length length]. rewrite IH.
    replace (S (S (S (length rest))) + 2)%nat with (1 * 3 + (length rest + 2))%nat by lia.
    rewrite Nat.div_add_l by lia. lia.
Qed.

End Base64Facts.

Lemma map_byte_of_ascii_of_byte (bs : list byte) :
  map byte_of_ascii (list_ascii_of_string (string_of_list_ascii (map ascii_of_byte bs))) = bs.
Proof.
  rewrite list_ascii_of_string_of_list_ascii, map_map.
  induction bs as [|b bs IH]; cbn; [reflexivity|].
  now rewrite byte_of_ascii_of_byte, IH.
Qed.

(** The client's encoder is the standard one. *)
Lemma arrayBufferToBase64_encode (buffer : list byte) :
  arrayBufferToBase64 buffer = Base64.encode buffer.
Proof. unfold arrayBufferToBase64, btoa. now rewrite map_byte_of_ascii_of_byte. Qed.

(** The server's decoder returns the decoded bytes. *)
Lemma base64ToArrayBuffer_decode (s : string) :
  base64ToArrayBuffer s = Base64.decode s.
Proof.
  unfold base64ToArrayBuffer, Buffer_from_base64_toString_binary.
  apply map_byte_of_ascii_of_byte.
Qed.

Lemma base64ToArrayBuffer_arrayBufferToBase64 (buffer : list byte) :
  base64ToArrayBuffer (arrayBufferToBase64 buffer) = buffer.
Proof.
  rewrite base64ToArrayBuffer_decode, arrayBufferToBase64_encode.
  apply Base64Facts.decode_encode.
Qed.

Example base64_encode_Man :
  (btoa "Man", btoa "Ma", btoa "M") = ("TWFu", "TWE=", "TQ==")%string.
Proof. vm_compute. reflexivity. Qed.

(** Node reads past characters outside the alphabet, takes the URL-safe
    characters too, and stops at the first [=]. *)
Example base64_decode_lenient :
  Base64.decode "TW Fu" = utf8_bytes "Man"
  /\ Base64.decode "TQ==TWFu" = utf8_bytes "M"
  /\ Base64.decode "-_8" = Base64.decode "+/8=".
Proof. vm_compute. repeat split. Qed.

Example jwt_header_segment :
  JWT.base64url (utf8_bytes JWT.header_json) = "eyJhbGciOiJIUzI1NiIsInR5cCI6IkpXVCJ9"%string.
Proof. vm_compute. reflexivity. Qed.

(** ** SHA-256 *)

Example sha256_abc :
  SHA256.hex (SHA256.digest (utf8_bytes "abc"))
  = "ba7816bf8f01cfea414140de5dae2223b00361a396177a9cb410ff61f20015ad"%string.
Proof. vm_compute. reflexivity. Qed.

Example sha256_two_blocks :
  SHA256.hex (SHA256.digest
    (utf8_bytes "abcdbcdecdefdefgefghfghighijhijkijkljklmklmnlmnomnopnopq"))
  = "248d6a61d20638b8e5c026930c3e6039a33ce45964ff2167f6ecedd419db06c1"%string.
Proof. vm_compute. reflexivity. Qed.

Example hmac_rfc4231_case2 :
  SHA256.hex (HMAC.hmac_sha256 (utf8_bytes "Jefe") (utf8_bytes "what do ya want for nothing?"))
  = "5bdcc146bf60754e6a042426089575c75a003f089d2739839dec58b964ec3843"%string.
Proof. vm_compute. reflexivity. Qed.

Lemma sha256_digest_length (msg : list byte) : length (SHA256.digest msg) = 32%nat.
Proof. reflexivity. Qed.

Lemma length_firstn_30_digest (msg : list byte) :
  length (firstn 30 (SHA256.digest msg)) = 30%nat.
Proof. rewrite length_firstn, sha256_digest_length. reflexivity. Qed.

(** ** Fingerprints *)

Lemma spec_derive_length (canonical : list byte) :
  String.length (spec_derive canonical) = 40%nat.
Proof.
  unfold spec_derive.
  rewrite Base64Facts.length_encode, length_firstn_30_digest. reflexivity.
Qed.

Lemma getPublicKeyDetails_fingerprint (wc : WebCrypto) (pk : PublicKey wc) :
  pkd_fingerprint (getPublicKeyDetails wc pk) = spec_derive (exportKey_spki wc pk).
Proof.
  unfold getPublicKeyDetails, spec_derive. cbn [pkd_fingerprint].
  apply arrayBufferToBase64_encode.
Qed.

Lemma getPublicKeyDetails_fullPublicKey (wc : WebCrypto) (pk : PublicKey wc) :
  pkd_fullPublicKey (getPublicKeyDetails wc pk) = Base64.encode (exportKey_spki wc pk).
Proof.
  unfold getPublicKeyDetails. cbn [pkd_fullPublicKey].
  apply arrayBufferToBase64_encode.
Qed.

Lemma verifyFingerprint_spec (identifier encoded : string) :
  verifyFingerprint identifier encoded
  = Ok (bool_decide (identifier = spec_derive (Base64.decode encoded))).
Proof.
  unfold verifyFingerprint, try_catch, Buffer_toString_base64, spec_derive.
  rewrite base64ToArrayBuffer_decode. f_equal.
  set (calc := Base64.encode _).
  destruct (String.eqb_spec calc identifier) as [E | E].
  - symmetry. apply bool_decide_eq_true. congruence.
  - symmetry. apply bool_decide_eq_false. congruence.
Qed.

(** C6. For every public key, the identifier [getPublicKeyDetails] derives
    is a function of the key's canonical (SPKI) encoding alone, namely the
    base64 text of the first 30 bytes of its SHA-256 hash, so deriving again
    from the same key gives the same identifier, and it is exactly 40
    characters long. *)
Theorem derive_deterministic_40 (wc : WebCrypto) (pk : PublicKey wc) :
  pkd_fingerprint (getPublicKeyDetails wc pk)
  = Base64.encode (firstn 30 (SHA256.digest (exportKey_spki wc pk)))
  /\ String.length (pkd_fingerprint (getPublicKeyDetails wc pk)) = 40%nat.
Proof.
  split.
  - apply getPublicKeyDetails_fingerprint.
  - rewrite getPublicKeyDetails_fingerprint. apply spec_derive_length.
Qed.

(** C7. The server's check agrees with the client's derivation: on the
    [fullPublicKey] the client sends, [verifyFingerprint] answers true
    exactly when the identifier is the fingerprint the client derived; and on
    any encoded key it answers true exactly for the specification's
    derivation of the bytes that key decodes to. *)
Theorem verifyFingerprint_refines_derive
    (wc : WebCrypto) (pk : PublicKey wc) (identifier encoded : string) :
  verifyFingerprint identifier (pkd_fullPublicKey (getPublicKeyDetails wc pk))
  = Ok (bool_decide (identifier = pkd_fingerprint (getPublicKeyDetails wc pk)))
  /\ verifyFingerprint identifier encoded
     = Ok (bool_decide (identifier = spec_derive (Base64.decode encoded))).
Proof.
  split; [|apply verifyFingerprint_spec].
  rewrite verifyFingerprint_spec, getPublicKeyDetails_fullPublicKey,
    getPublicKeyDetails_fingerprint, Base64Facts.decode_encode.
  reflexivity.
Qed.

(** ** Signature verification *)

(** C9. [verifySignature] always returns a boolean and never throws: the
    answer is false when importing the key throws or when the verification
    call throws, and the verdict of the verification otherwise. *)
Theorem verifySignature_total
    (wc : WebCrypto) (fullPublicKey challenge signature : string) :
  verifySignature wc fullPublicKey challenge signature
  = Ok match importKey_spki wc (Base64.decode fullPublicKey) with
       | Throw _ => false
       | Ok key =>
           match subtle_verify wc key (Base64.decode signature) (utf8_bytes challenge) with
           | Throw _ => false
           | Ok verdict => verdict
           end
       end.
Proof.
  unfold verifySignature, try_catch, bind.
  rewrite !base64ToArrayBuffer_decode.
  destruct (importKey_spki wc (Base64.decode fullPublicKey)) as [key | e]; [|reflexivity].
  destruct (subtle_verify wc key _ _) as [verdict | e]; reflexivity.
Qed.

(** The verdict is true when the key imports and the platform accepts the
    signature. *)
Lemma verifySignature_accepts
    (wc : WebCrypto) (fullPublicKey challenge signature : string) (key : PublicKey wc) :
  importKey_spki wc (Base64.decode fullPublicKey) = Ok key ->
  subtle_verify wc key (Base64.decode signature) (utf8_bytes challenge) = Ok true ->
  verifySignature wc fullPublicKey challenge signature = Ok true.
Proof.
  intros Himport Hverify. unfold verifySignature, try_catch, bind.
  rewrite !base64ToArrayBuffer_decode, Himport, Hverify. reflexivity.
Qed.

(** ** Session tokens *)

Lemma generateJWT_claims (env : Env) (now_iat now_exp : Z) (fingerprint : string) :
  JWT.claims (generateJWT env now_iat now_exp fingerprint)
  = {| sub := fingerprint; iat := now_iat / 1000; exp := now_exp / 1000 + 3600 |}.
Proof. reflexivity. Qed.

(** When the two clock readings fall in the same second the expiry is one
    hour after [iat]. *)
Lemma generateJWT_same_second (env : Env) (now_iat now_exp : Z) (fingerprint : string) :
  now_iat / 1000 = now_exp / 1000 ->
  exp (JWT.claims (generateJWT env now_iat now_exp fingerprint))
  = iat (JWT.claims (generateJWT env now_iat now_exp fingerprint)) + 3600.
Proof. intros H. rewrite generateJWT_claims. cbn [iat exp]. now rewrite H. Qed.

(** In general the expiry is at least one hour after [iat], later by the
    whole seconds the clock advanced between the two readings. *)
Lemma generateJWT_exp_lower_bound (env : Env) (now_iat now_exp : Z) (fingerprint : string) :
  now_iat <= now_exp ->
  iat (JWT.claims (generateJWT env now_iat now_exp fingerprint)) + 3600
  <= exp (JWT.claims (generateJWT env now_iat now_exp fingerprint)).
Proof.
  intros H. rewrite generateJWT_claims. cbn [iat exp].
  pose proof (Z.div_le_mono now_iat now_exp 1000 ltac:(lia) H). lia.
Qed.

(** C5. [generateJWT] reads [Date.now()] twice. With the first reading at
    1700000000999 ms and the second at 1700000001000 ms the payload has
    [sub] equal to the identifier and [iat] 1700000000, but [exp] is
    1700003601, that is [iat + 3601] and not [iat + 3600]. *)
Theorem generateJWT_exp_across_second
    : let token :=
        generateJWT (mkEnv None None) 1700000000999 1700000001000 "user" in
      sub (JWT.claims token) = "user"%string
      /\ iat (JWT.claims token) = 1700000000
      /\ exp (JWT.claims token) = iat (JWT.claims token) + 3601
      /\ exp (JWT.claims token) <> iat (JWT.claims token) + 3600.
Proof.
  intros token. subst token. rewrite generateJWT_claims. cbn [sub iat exp].
  repeat split. intros E; discriminate E.
Qed.

(** ** The users store *)

Lemma users_get_state (env : Env) (fingerprint : string) (s : Server) :
  users.get env fingerprint s = (fst (users.get env fingerprint s), s).
Proof.
  unfold users.get, mongo. destruct (USE_MONGODB env); [|reflexivity].
  destruct (mongo_reachable s); reflexivity.
Qed.


(** ** The authenticate endpoint *)


(** The answer of the authenticate endpoint, case by case, with the
    challenges store that expires on read. *)
Lemma authenticate_POST_cases
    (wc : WebCrypto) (env : Env) (clk : AuthClock)
    (fields : gmap string string) (s : Server) :
  let fingerprint := default EmptyString (fields !! "fingerprint") in
  let signature := default EmptyString (fields !! "signature") in
  let consumed := set_inMemoryChallenges (delete fingerprint) s in
  authenticate_POST wc env challenges.api clk (Ok (JsonObject fields)) s
  = if negb (truthy (fields !! "fingerprint")) || negb (truthy (fields !! "signature"))
    then (MissingAuthFields, s)
    else match fst (users.get env fingerprint s) with
         | Throw _ => (InternalServerError, s)
         | Ok None => (UserNotFound, s)
         | Ok (Some user) =>
             match inMemoryChallenges s !! fingerprint with
             | None => (NoChallenge, s)
             | Some d =>
                 if cd_timestamp d + cd_expiresIn d <? now_get clk
                 then (NoChallenge, consumed)
                 else if cd_expiresIn d <? now_check clk - cd_timestamp d
                 then (ChallengeExpired, consumed)
                 else match verifySignature wc (user_publicKey user)
                              (cd_challenge d) signature with
                      | Throw _ => (InternalServerError, consumed)
                      | Ok false => (InvalidSignature, consumed)
                      | Ok true =>
                          match astro_session s with
                          | None => (InternalServerError, consumed)
                          | Some data =>
                              (mkResponse 200
                                 (JwtJson (generateJWT env (now_iat clk) (now_exp clk)
                                             fingerprint)),
                               set_astro_session
                                 (Some (<["user" :=
                                          mkUserSession fingerprint (now_session clk)
                                            (now_session clk + 3600 * 1000)]> data))
                                 consumed)
                          end
                      end
             end
         end.
Proof.
  intros fingerprint signature consumed.
  unfold authenticate_POST, run_handler, catch, mbind, lift, destructure, ret.
  destruct (negb (truthy (fields !! "fingerprint")) || negb (truthy (fields !! "signature")));
    [reflexivity|].
  fold fingerprint signature.
  pose proof (users_get_state env fingerprint s) as Hu.
  destruct (users.get env fingerprint s) as [r s0]. cbn [fst] in *.
  injection Hu as ->.
  destruct r as [[user|]|e]; try reflexivity.
  cbn [challenges_get challenges.api challenges_delete].
  unfold challenges.get, challenges.delete.
  destruct (inMemoryChallenges s !! fingerprint) as [d|] eqn:Hd; [|reflexivity].
  destruct (cd_timestamp d + cd_expiresIn d <? now_get clk); [reflexivity|].
  destruct (cd_expiresIn d <? now_check clk - cd_timestamp d); [reflexivity|].
  fold consumed.
  destruct (verifySignature wc (user_publicKey user) (cd_challenge d) signature)
    as [[|]|e]; try reflexivity.
  cbn [negb]. unfold createUserSession.
  change (astro_session consumed) with (astro_session s).
  destruct (astro_session s); reflexivity.
Qed.

(** A request that reached signature verification found a user and a
    challenge, and left the store without that challenge. *)
Lemma authenticate_consumed
    (wc : WebCrypto) (env : Env) (clk : AuthClock)
    (fields : gmap string string) (s s1 : Server) (r1 : Response) :
  authenticate_POST wc env challenges.api clk (Ok (JsonObject fields)) s = (r1, s1) ->
  r1 = InvalidSignature \/ status r1 = 200 ->
  let fingerprint := default EmptyString (fields !! "fingerprint") in
  truthy (fields !! "fingerprint") = true
  /\ (exists user, fst (users.get env fingerprint s) = Ok (Some user))
  /\ mongo_reachable s1 = mongo_reachable s
  /\ mongo_users s1 = mongo_users s
  /\ inMemoryUsers s1 = inMemoryUsers s
  /\ inMemoryChallenges s1 = delete fingerprint (inMemoryChallenges s).
Proof.
  intros H Hr fingerprint. rewrite authenticate_POST_cases in H. fold fingerprint in H.
  destruct (truthy (fields !! "fingerprint")); cbn [negb orb] in H.
  2:{ injection H as <- <-. destruct Hr as [Hr|Hr]; discriminate Hr. }
  destruct (negb (truthy (fields !! "signature"))).
  { injection H as <- <-. destruct Hr as [Hr|Hr]; discriminate Hr. }
  destruct (fst (users.get env fingerprint s)) as [[user|]|e].
  2,3: injection H as <- <-; destruct Hr as [Hr|Hr]; discriminate Hr.
  split; [reflexivity|]. split; [eauto|].
  destruct (inMemoryChallenges s !! fingerprint) as [d|].
  2:{ injection H as <- <-. destruct Hr as [Hr|Hr]; discriminate Hr. }
  destruct (cd_timestamp d + cd_expiresIn d <? now_get clk).
  { injection H as <- <-. destruct Hr as [Hr|Hr]; discriminate Hr. }
  destruct (cd_expiresIn d <? now_check clk - cd_timestamp d).
  { injection H as <- <-. destruct Hr as [Hr|Hr]; discriminate Hr. }
  destruct (verifySignature wc _ _ _) as [[|]|e].
  - destruct (astro_session s).
    + injection H as <- <-. repeat split.
    + injection H as <- <-. destruct Hr as [Hr|Hr]; discriminate Hr.
  - injection H as <- <-. repeat split.
  - injection H as <- <-. destruct Hr as [Hr|Hr]; discriminate Hr.
Qed.


(** Whatever its outcome (expired, signature refused or accepted, session
    not created), a request with both fields for a registered identifier
    leaves no challenge for it: the delete comes before the signature is
    checked. *)
Lemma authenticate_consumes_challenge
    (wc : WebCrypto) (env : Env) (clk : AuthClock)
    (fields : gmap string string) (s : Server) (identifier : string) (user : User) :
  fields !! "fingerprint" = Some identifier ->
  truthy (fields !! "fingerprint") = true ->
  truthy (fields !! "signature") = true ->
  fst (users.get env identifier s) = Ok (Some user) ->
  inMemoryChallenges
    (snd (authenticate_POST wc env challenges.api clk (Ok (JsonObject fields)) s))
  !! identifier = None.
Proof.
  intros Hid Hfp Hsig Hu.
  rewrite authenticate_POST_cases, Hfp, Hsig, Hid. cbn [negb orb].
  change (default EmptyString (Some identifier)) with identifier.
  rewrite Hu.
  destruct (inMemoryChallenges s !! identifier) as [d|] eqn:Hd; [|exact Hd].
  destruct (_ <? _); [apply lookup_delete_eq|].
  destruct (_ <? _); [apply lookup_delete_eq|].
  destruct (verifySignature wc _ _ _) as [[|]|e]; try apply lookup_delete_eq.
  destruct (astro_session s); apply lookup_delete_eq.
Qed.

(** ** Runs: one verification attempt per challenge *)

Section RunFacts.

Variable wc : WebCrypto.
Variable env : Env.

(** The authenticate endpoint only ever removes the challenge of the
    identifier it is asked about. *)
Lemma authenticate_POST_challenges (clk : AuthClock) (fields : gmap string string) (s : Server) :
  let s' := snd (authenticate_POST wc env challenges.api clk (Ok (JsonObject fields)) s) in
  inMemoryChallenges s' = inMemoryChallenges s
  \/ inMemoryChallenges s'
     = delete (default EmptyString (fields !! "fingerprint")) (inMemoryChallenges s).
Proof.
  cbv zeta. rewrite authenticate_POST_cases.
  destruct (negb _ || negb _); [now left|].
  destruct (fst (users.get env _ s)) as [[user|]|e]; try now left.
  destruct (inMemoryChallenges s !! _) as [d|]; [|now left].
  destruct (_ <? _); [now right|].
  destruct (_ <? _); [now right|].
  destruct (verifySignature wc _ _ _) as [[|]|e]; try now right.
  destruct (astro_session s); now right.
Qed.

Lemma authenticate_POST_keeps_absent
    (clk : AuthClock) (fields : gmap string string) (s : Server) (identifier : string) :
  inMemoryChallenges s !! identifier = None ->
  inMemoryChallenges
    (snd (authenticate_POST wc env challenges.api clk (Ok (JsonObject fields)) s))
  !! identifier = None.
Proof.
  intros H.
  destruct (authenticate_POST_challenges clk fields s) as [-> | ->]; [exact H|].
  rewrite lookup_delete. case_decide; [reflexivity | exact H].
Qed.

Lemma run_timer_keeps_absent (i : nat) (s : Server) (identifier : string) :
  inMemoryChallenges s !! identifier = None ->
  inMemoryChallenges (challenges.run_timer i s) !! identifier = None.
Proof.
  intros H. unfold challenges.run_timer.
  destruct (timers s !! i) as [[delay fp]|]; [|exact H].
  cbn. rewrite lookup_delete. case_decide; [reflexivity | exact H].
Qed.

(** Without a challenge for the identifier, no request gets as far as
    signature verification for it. *)
Lemma authenticate_POST_absent_not_verified
    (clk : AuthClock) (fields : gmap string string) (s : Server) (identifier : string) :
  inMemoryChallenges s !! identifier = None ->
  verified_for identifier
    (fields, fst (authenticate_POST wc env challenges.api clk (Ok (JsonObject fields)) s))
  = false.
Proof.
  intros H. unfold verified_for. cbn [fst snd].
  case_bool_decide as Hid; [|reflexivity]. cbn [andb].
  rewrite authenticate_POST_cases, Hid.
  change (default EmptyString (Some identifier)) with identifier.
  destruct (negb _ || negb _); [reflexivity|].
  destruct (fst (users.get env _ s)) as [[user|]|e]; try reflexivity.
  rewrite H. reflexivity.
Qed.

Lemma run_absent_none_verified (events : list event) (s : Server) (identifier : string) :
  inMemoryChallenges s !! identifier = None ->
  filter (fun served => verified_for identifier served = true) (fst (run wc env events s)) = [].
Proof.
  revert s. induction events as [|[clk fields | i] rest IH]; intros s H.
  - reflexivity.
  - cbn [run].
    pose proof (authenticate_POST_keeps_absent clk fields s identifier H) as Hk.
    pose proof (authenticate_POST_absent_not_verified clk fields s identifier H) as Hv.
    destruct (authenticate_POST wc env challenges.api clk (Ok (JsonObject fields)) s) as [r s1].
    cbn [fst snd] in Hk, Hv. specialize (IH s1 Hk).
    destruct (run wc env rest s1) as [served s2]. cbn [fst] in *.
    rewrite filter_cons. rewrite Hv. case_decide; [discriminate | exact IH].
  - cbn [run]. apply IH, run_timer_keeps_absent, H.
Qed.

(** Along any run of authenticate requests and timer callbacks, at most one
    request gets as far as signature verification for a given identifier:
    one stored challenge serves one verification attempt. *)
Theorem run_at_most_one_verified (events : list event) (s : Server) (identifier : string) :
  (length (filter (fun served => verified_for identifier served = true)
             (fst (run wc env events s))) <= 1)%nat.
Proof.
  revert s. induction events as [|[clk fields | i] rest IH]; intros s.
  - cbn. lia.
  - cbn [run].
    destruct (authenticate_POST wc env challenges.api clk (Ok (JsonObject fields)) s)
      as [r s1] eqn:Hr.
    specialize (IH s1).
    destruct (run wc env rest s1) as [served s2] eqn:Hrun. cbn [fst] in *.
    rewrite filter_cons. case_decide as Hv; [|exact IH].
    (* this request consumed the challenge: none of the later ones is verified *)
    assert (Hgone : inMemoryChallenges s1 !! identifier = None).
    { unfold verified_for in Hv. cbn [fst snd] in Hv.
      apply andb_true_iff in Hv as [Hid Hacted].
      apply bool_decide_eq_true in Hid.
      assert (Hcase : r = InvalidSignature \/ status r = 200).
      { apply orb_true_iff in Hacted as [H200 | Hinv].
        - right. now apply Z.eqb_eq.
        - left. destruct r as [st [e | c | j]]; try discriminate Hinv.
          cbn in Hinv. apply String.eqb_eq in Hinv. subst e.
          (* every error response of the endpoint with this text is InvalidSignature *)
          revert Hr. rewrite authenticate_POST_cases.
          repeat (match goal with
                  | |- context [if ?b then _ else _] => destruct b
                  | |- context [match ?x with _ => _ end] => destruct x
                  end; try (intros [= <- <-]; reflexivity); try discriminate). }
      destruct (authenticate_consumed wc env clk fields s s1 r Hr Hcase)
        as (_ & _ & _ & _ & _ & Hch).
      rewrite Hch, Hid. apply lookup_delete_eq. }
    pose proof (run_absent_none_verified rest s1 identifier Hgone) as Hnone.
    rewrite Hrun in Hnone. cbn [fst] in Hnone. rewrite Hnone. cbn. lia.
  - cbn [run]. apply IH.
Qed.

End RunFacts.

(** ** The earlier challenges store *)

(** The answer of the authenticate endpoint with the earlier challenges
    store, everything kept in memory. *)
Lemma authenticate_POST_cases_collection_store
    (wc : WebCrypto) (env : Env) (clk : AuthClock)
    (fields : gmap string string) (s : Server) :
  USE_MONGODB env = false ->
  let fingerprint := default EmptyString (fields !! "fingerprint") in
  let signature := default EmptyString (fields !! "signature") in
  let consumed := set_inMemoryChallenges (delete fingerprint) s in
  authenticate_POST wc env (challenges_collection.api env) clk (Ok (JsonObject fields)) s
  = if negb (truthy (fields !! "fingerprint")) || negb (truthy (fields !! "signature"))
    then (MissingAuthFields, s)
    else match inMemoryUsers s !! fingerprint with
         | None => (UserNotFound, s)
         | Some user =>
             match inMemoryChallenges s !! fingerprint with
             | None => (NoChallenge, s)
             | Some d =>
                 if cd_expiresIn d <? now_check clk - cd_timestamp d
                 then (ChallengeExpired, consumed)
                 else match verifySignature wc (user_publicKey user)
                              (cd_challenge d) signature with
                      | Throw _ => (InternalServerError, consumed)
                      | Ok false => (InvalidSignature, consumed)
                      | Ok true =>
                          match astro_session s with
                          | None => (InternalServerError, consumed)
                          | Some data =>
                              (mkResponse 200
                                 (JwtJson (generateJWT env (now_iat clk) (now_exp clk)
                                             fingerprint)),
                               set_astro_session
                                 (Some (<["user" :=
                                          mkUserSession fingerprint (now_session clk)
                                            (now_session clk + 3600 * 1000)]> data))
                                 consumed)
                          end
                      end
             end
         end.
Proof.
  intros Hmem fingerprint signature consumed.
  unfold authenticate_POST, run_handler, catch, mbind, lift, destructure, ret.
  destruct (negb (truthy (fields !! "fingerprint")) || negb (truthy (fields !! "signature")));
    [reflexivity|].
  fold fingerprint signature.
  cbn [challenges_get challenges_delete challenges_collection.api].
  unfold users.get, challenges_collection.get, challenges_collection.delete.
  rewrite Hmem.
  destruct (inMemoryUsers s !! fingerprint) as [user|]; [|reflexivity].
  destruct (inMemoryChallenges s !! fingerprint) as [d|]; [|reflexivity].
  destruct (cd_expiresIn d <? now_check clk - cd_timestamp d); [reflexivity|].
  fold consumed.
  destruct (verifySignature wc (user_publicKey user) (cd_challenge d) signature)
    as [[|]|e]; try reflexivity.
  cbn [negb]. unfold createUserSession.
  change (astro_session consumed) with (astro_session s).
  destruct (astro_session s); reflexivity.
Qed.

(** Single use with the earlier store: the handler's own delete, made before
    the signature is checked, is what consumes the challenge. *)
Lemma challenge_single_use_collection_store
    (wc : WebCrypto) (env : Env) (clk1 clk2 : AuthClock)
    (fields1 fields2 : gmap string string) (s s1 : Server) (r1 : Response) :
  USE_MONGODB env = false ->
  authenticate_POST wc env (challenges_collection.api env) clk1
    (Ok (JsonObject fields1)) s = (r1, s1) ->
  r1 = InvalidSignature \/ status r1 = 200 ->
  fields2 !! "fingerprint" = fields1 !! "fingerprint" ->
  truthy (fields2 !! "signature") = true ->
  fst (authenticate_POST wc env (challenges_collection.api env) clk2
         (Ok (JsonObject fields2)) s1) = NoChallenge.
Proof.
  intros Hmem H Hr Hsame Hsig.
  rewrite authenticate_POST_cases_collection_store in H by exact Hmem.
  rewrite authenticate_POST_cases_collection_store by exact Hmem.
  rewrite Hsame, Hsig.
  destruct (truthy (fields1 !! "fingerprint")); cbn [negb orb] in *.
  2:{ injection H as <- <-. destruct Hr as [Hr|Hr]; discriminate Hr. }
  destruct (negb (truthy (fields1 !! "signature"))).
  { injection H as <- <-. destruct Hr as [Hr|Hr]; discriminate Hr. }
  set (fingerprint := default EmptyString (fields1 !! "fingerprint")) in *.
  destruct (inMemoryUsers s !! fingerprint) as [user|] eqn:Hu.
  2:{ injection H as <- <-. destruct Hr as [Hr|Hr]; discriminate Hr. }
  destruct (inMemoryChallenges s !! fingerprint) as [d|].
  2:{ injection H as <- <-. destruct Hr as [Hr|Hr]; discriminate Hr. }
  destruct (cd_expiresIn d <? now_check clk1 - cd_timestamp d).
  { injection H as <- <-. destruct Hr as [Hr|Hr]; discriminate Hr. }
  destruct (verifySignature wc _ _ _) as [[|]|e].
  - destruct (astro_session s).
    + injection H as <- <-. cbn. rewrite Hu, lookup_delete_eq. reflexivity.
    + injection H as <- <-. destruct Hr as [Hr|Hr]; discriminate Hr.
  - injection H as <- <-. cbn. rewrite Hu, lookup_delete_eq. reflexivity.
  - injection H as <- <-. destruct Hr as [Hr|Hr]; discriminate Hr.
Qed.

(** ** The challenge endpoint *)

Lemma truthy_Some (v : string) : truthy (Some v) = negb (String.eqb v EmptyString).
Proof. destruct v; reflexivity. Qed.

(** C3. When the submitted identifier is not the fingerprint derived from
    the submitted public key, the challenge endpoint answers with status 400
    and leaves the server as it was, whatever challenges store is plugged
    in: no registration record and no challenge is created. With both
    fields non-empty the answer is [IdentityMismatch]. *)
Theorem challenge_identity_mismatch
    (env : Env) (store : ChallengesApi) (random32 : list byte) (clk : ChallengeClock)
    (fields : gmap string string) (s : Server) (identifier encoded : string) :
  fields !! "fingerprint" = Some identifier ->
  fields !! "fullPublicKey" = Some encoded ->
  identifier <> spec_derive (Base64.decode encoded) ->
  snd (challenge_POST env store random32 clk (Ok (JsonObject fields)) s) = s
  /\ status (fst (challenge_POST env store random32 clk (Ok (JsonObject fields)) s)) = 400
  /\ (identifier <> EmptyString -> encoded <> EmptyString ->
      fst (challenge_POST env store random32 clk (Ok (JsonObject fields)) s)
      = IdentityMismatch).
Proof.
  intros Hid Hpk Hne.
  unfold challenge_POST, run_handler, catch, mbind, lift, destructure, ret.
  rewrite Hid, Hpk.
  destruct identifier as [|c identifier].
  { cbn [truthy negb orb fst snd]. repeat split. intros H; now contradict H. }
  destruct encoded as [|c' encoded].
  { cbn [truthy negb orb fst snd]. repeat split. intros _ H; now contradict H. }
  cbn [truthy negb orb].
  change (default EmptyString (Some ?x)) with x.
  rewrite verifyFingerprint_spec, bool_decide_eq_false_2 by exact Hne.
  cbn [negb fst snd]. repeat split.
Qed.

(** The answer of the challenge endpoint, case by case, with the challenges
    store that expires on read. *)
Lemma challenge_POST_cases
    (env : Env) (random32 : list byte) (clk : ChallengeClock)
    (fields : gmap string string) (s : Server) :
  let fingerprint := default EmptyString (fields !! "fingerprint") in
  let fullPublicKey := default EmptyString (fields !! "fullPublicKey") in
  let challenge := Base64.encode random32 in
  let issue := fun s' : Server =>
    set_timers (fun ts => ts ++ [(120000, fingerprint)])
      (set_inMemoryChallenges
         (insert fingerprint
            (mkChallengeData fingerprint challenge (now_timestamp clk) 120000)) s') in
  challenge_POST env challenges.api random32 clk (Ok (JsonObject fields)) s
  = if negb (truthy (fields !! "fingerprint")) || negb (truthy (fields !! "fullPublicKey"))
    then (MissingChallengeFields, s)
    else if negb (bool_decide (fingerprint = spec_derive (Base64.decode fullPublicKey)))
    then (IdentityMismatch, s)
    else match fst (users.get env fingerprint s) with
         | Throw _ => (InternalServerError, s)
         | Ok (Some _) => (mkResponse 200 (ChallengeJson challenge), issue s)
         | Ok None =>
             match users.set env fingerprint
                     (mkUser fingerprint fullPublicKey (now_createdAt clk)) s with
             | (Ok _, s') => (mkResponse 200 (ChallengeJson challenge), issue s')
             | (Throw _, s') => (InternalServerError, s')
             end
         end.
Proof.
  intros fingerprint fullPublicKey challenge issue.
  unfold challenge_POST, run_handler, catch, mbind, lift, destructure, ret.
  destruct (negb (truthy (fields !! "fingerprint"))
            || negb (truthy (fields !! "fullPublicKey"))); [reflexivity|].
  fold fingerprint fullPublicKey. rewrite verifyFingerprint_spec.
  destruct (bool_decide (fingerprint = spec_derive (Base64.decode fullPublicKey)));
    cbn [negb]; [|reflexivity].
  pose proof (users_get_state env fingerprint s) as Hu.
  destruct (users.get env fingerprint s) as [r s0]. cbn [fst] in *.
  injection Hu as ->.
  destruct r as [[user|]|e]; try reflexivity.
  destruct (users.set env fingerprint _ s) as [[[]|e] s']; reflexivity.
Qed.

(** ** Expiry *)

(** C2 (as amended). A stored challenge that is past its time to live when
    the store reads it, or when the handler checks it, is never accepted:
    the request is answered 401, with [NoChallenge] when the store's read
    already finds it expired and with [ChallengeExpired] otherwise, and the
    challenge is gone from the store afterwards, whatever the signature. *)
Theorem expired_challenge_rejected
    (wc : WebCrypto) (env : Env) (clk : AuthClock)
    (fields : gmap string string) (s : Server)
    (identifier : string) (user : User) (d : ChallengeData) :
  fields !! "fingerprint" = Some identifier ->
  truthy (fields !! "fingerprint") = true ->
  truthy (fields !! "signature") = true ->
  fst (users.get env identifier s) = Ok (Some user) ->
  inMemoryChallenges s !! identifier = Some d ->
  cd_timestamp d + cd_expiresIn d < now_get clk
  \/ cd_expiresIn d < now_check clk - cd_timestamp d ->
  fst (authenticate_POST wc env challenges.api clk (Ok (JsonObject fields)) s)
  = (if cd_timestamp d + cd_expiresIn d <? now_get clk
     then NoChallenge else ChallengeExpired)
  /\ status (fst (authenticate_POST wc env challenges.api clk
                    (Ok (JsonObject fields)) s)) = 401
  /\ inMemoryChallenges
       (snd (authenticate_POST wc env challenges.api clk (Ok (JsonObject fields)) s))
     !! identifier = None.
Proof.
  intros Hid Hfp Hsig Hu Hd Hlate.
  rewrite authenticate_POST_cases, Hfp, Hsig, Hid. cbn [negb orb].
  change (default EmptyString (Some identifier)) with identifier.
  rewrite Hu, Hd.
  destruct (Z.ltb_spec (cd_timestamp d + cd_expiresIn d) (now_get clk)) as [H1 | H1].
  - cbn [fst snd]. repeat split. apply lookup_delete_eq.
  - destruct (Z.ltb_spec (cd_expiresIn d) (now_check clk - cd_timestamp d)) as [H2 | H2];
      [|lia].
    cbn [fst snd]. repeat split. apply lookup_delete_eq.
Qed.

(** With the earlier store, which does not expire on read, the handler's own
    check answers [ChallengeExpired]. *)
Lemma expired_challenge_collection_store
    (wc : WebCrypto) (env : Env) (clk : AuthClock)
    (fields : gmap string string) (s : Server)
    (identifier : string) (user : User) (d : ChallengeData) :
  USE_MONGODB env = false ->
  fields !! "fingerprint" = Some identifier ->
  truthy (fields !! "fingerprint") = true ->
  truthy (fields !! "signature") = true ->
  inMemoryUsers s !! identifier = Some user ->
  inMemoryChallenges s !! identifier = Some d ->
  cd_expiresIn d < now_check clk - cd_timestamp d ->
  authenticate_POST wc env (challenges_collection.api env) clk (Ok (JsonObject fields)) s
  = (ChallengeExpired, set_inMemoryChallenges (delete identifier) s).
Proof.
  intros Hmem Hid Hfp Hsig Hu Hd Hlate.
  unfold authenticate_POST, run_handler, catch, mbind, lift, destructure, ret.
  rewrite Hfp, Hsig, Hid. cbn [negb orb].
  change (default EmptyString (Some identifier)) with identifier.
  unfold users.get. rewrite Hmem, Hu.
  cbn [challenges_get challenges_delete challenges_collection.api].
  unfold challenges_collection.get, challenges_collection.delete. rewrite Hmem, Hd.
  destruct (Z.ltb_spec (cd_expiresIn d) (now_check clk - cd_timestamp d)); [reflexivity | lia].
Qed.

(** ** The key store *)

Section KeyStoreFacts.

Variable wc : WebCrypto.
Implicit Types (b : BrowserOf wc) (kp : KeyPair wc).

(** A failed read is swallowed: [getStoredKey] answers [null] and keeps
    the slot. *)
Lemma getStoredKey_read_fails b :
  transaction_fails wc b = true ->
  fst (getStoredKey wc b) = Ok None
  /\ idb_slot (snd (getStoredKey wc b)) = idb_slot b.
Proof.
  unfold transaction_fails, getStoredKey, catch, mbind, openDatabase, idb_request, ret.
  destruct b as [slot [|[|] [|[|] rest]]]; cbn; intros H; try discriminate H; auto.
Qed.

Lemma createAndStoreKey_fails entropy b :
  transaction_fails wc b = true ->
  fst (createAndStoreKey wc entropy b) = Throw IDBError
  /\ idb_slot (snd (createAndStoreKey wc entropy b)) = idb_slot b.
Proof.
  unfold transaction_fails, createAndStoreKey, mbind, openDatabase, idb_request, ret.
  destruct (generateKey wc entropy) as [pk sk].
  destruct b as [slot [|[|] [|[|] rest]]]; cbn; intros H; try discriminate H; auto.
Qed.

Lemma getStoredKey_accessible b :
  accessible wc b ->
  fst (getStoredKey wc b) = Ok (idb_slot b)
  /\ idb_slot (snd (getStoredKey wc b)) = idb_slot b
  /\ accessible wc (snd (getStoredKey wc b)).
Proof.
  unfold accessible, getStoredKey, catch, mbind, openDatabase, idb_request, ret.
  destruct b as [slot [|o1 [|o2 rest]]]; cbn; intros H.
  - auto.
  - inversion H as [|? ? -> H']; subst. cbn. auto.
  - inversion H as [|? ? -> H']; subst.
    inversion H' as [|? ? -> H'']; subst. cbn. auto.
Qed.

Lemma getOrCreateKey_stored b kp entropy :
  accessible wc b -> idb_slot b = Some kp ->
  fst (getOrCreateKey wc entropy b) = Ok kp
  /\ idb_slot (snd (getOrCreateKey wc entropy b)) = Some kp
  /\ accessible wc (snd (getOrCreateKey wc entropy b)).
Proof.
  intros Hacc Hslot.
  destruct (getStoredKey_accessible b Hacc) as (Hr & Hs & Ha).
  unfold getOrCreateKey, mbind.
  destruct (getStoredKey wc b) as [r b1]. cbn [fst snd] in *. subst r.
  rewrite Hslot. cbn. rewrite Hs. auto.
Qed.

(** C4 (as amended). When the read fails and the write that follows fails
    too, [getOrCreateKey] fails with the store's error and the slot keeps
    its content. When a pair is stored and the store is accessible, every
    call in a row returns that pair. *)
Theorem getOrCreateKey_storage b kp entropy (entropies : list (list byte)) :
  (transaction_fails wc b = true ->
   transaction_fails wc (snd (getStoredKey wc b)) = true ->
   fst (getOrCreateKey wc entropy b) = Throw IDBError
   /\ idb_slot (snd (getOrCreateKey wc entropy b)) = idb_slot b)
  /\ (accessible wc b -> idb_slot b = Some kp ->
      fst (getOrCreateKey_calls wc entropies b) = map (fun _ => Ok kp) entropies
      /\ idb_slot (snd (getOrCreateKey_calls wc entropies b)) = Some kp).
Proof.
  split.
  - intros Hread Hwrite.
    destruct (getStoredKey_read_fails b Hread) as (Hr & Hs).
    unfold getOrCreateKey, mbind.
    destruct (getStoredKey wc b) as [r b1]. cbn [fst snd] in *. subst r.
    destruct (createAndStoreKey_fails entropy b1 Hwrite) as (Hc & Hk).
    split; [exact Hc | congruence].
  - revert b. induction entropies as [|e rest IH]; intros b Hacc Hslot.
    + cbn. auto.
    + destruct (getOrCreateKey_stored b kp e Hacc Hslot) as (Hr & Hs & Ha).
      cbn [getOrCreateKey_calls].
      destruct (getOrCreateKey wc e b) as [r b1]. cbn [fst snd] in *. subst r.
      destruct (IH b1 Ha Hs) as (IH1 & IH2).
      destruct (getOrCreateKey_calls wc rest b1) as [rs b2]. cbn [fst snd map] in *.
      now rewrite IH1.
Qed.

(** A key pair [getOrCreateKey] returns is the one in the slot afterwards. *)
Lemma getOrCreateKey_Ok_slot b b' kp entropy :
  getOrCreateKey wc entropy b = (Ok kp, b') -> idb_slot b' = Some kp.
Proof.
  unfold getOrCreateKey, getStoredKey, createAndStoreKey, catch, mbind,
    openDatabase, idb_request, ret.
  destruct (generateKey wc entropy) as [pk sk].
  destruct b as [[kp0|] [|[|] [|[|] [|[|] [|[|] rest]]]]]; cbn;
    intros H; inversion H; subst; reflexivity.
Qed.

End KeyStoreFacts.

(** ** The round trip *)

Lemma bytes_eqb_refl (a : list byte) : bytes_eqb a a = true.
Proof.
  induction a as [|x a IH]; [reflexivity|].
  cbn [bytes_eqb]. rewrite IH, andb_true_r. now apply Byte.byte_dec_lb.
Qed.

(** A token signed with the server's secret verifies until its expiry. *)
Lemma verifyJWT_generateJWT (env : Env) (now now_iat now_exp : Z) (fingerprint : string) :
  verifyJWT env now (generateJWT env now_iat now_exp fingerprint)
  = if now_exp / 1000 + 3600 <=? now / 1000 then None
    else Some (generateJWT_payload now_iat now_exp fingerprint).
Proof.
  unfold verifyJWT, generateJWT, JWT.verify, JWT.sign.
  cbn [JWT.alg JWT.claims JWT.signature]. rewrite bytes_eqb_refl.
  change (negb ("HS256" =? "HS256")%string) with false. cbn [negb].
  unfold generateJWT_payload at 1. cbn [exp].
  destruct (now_exp / 1000 + 3600 <=? now / 1000); reflexivity.
Qed.

(** Whatever challenges store is plugged in, a token in the answer of the
    authenticate endpoint was minted for the identifier of the request. *)
Lemma authenticate_POST_token
    (wc : WebCrypto) (env : Env) (store : ChallengesApi) (clk : AuthClock)
    (fields : gmap string string) (s : Server) (jwt : JWT.token) :
  body (fst (authenticate_POST wc env store clk (Ok (JsonObject fields)) s)) = JwtJson jwt ->
  jwt = generateJWT env (now_iat clk) (now_exp clk)
          (default EmptyString (fields !! "fingerprint")).
Proof.
  unfold authenticate_POST, run_handler, catch, mbind, lift, destructure, ret.
  destruct (negb (truthy (fields !! "fingerprint")) || negb (truthy (fields !! "signature")));
    [discriminate|].
  set (fingerprint := default EmptyString (fields !! "fingerprint")).
  destruct (users.get env fingerprint s) as [[[user|]|e] s0]; try discriminate.
  destruct (challenges_get store (now_get clk) fingerprint s0) as [[[d|]|e] s1];
    try discriminate.
  destruct (cd_expiresIn d <? now_check clk - cd_timestamp d).
  { destruct (challenges_delete store fingerprint s1) as [[[]|e] s2]; discriminate. }
  destruct (challenges_delete store fingerprint s1) as [[[]|e] s2]; [|discriminate].
  destruct (verifySignature wc _ _ _) as [[|]|e]; try discriminate.
  cbn [negb].
  destruct (createUserSession (now_session clk) fingerprint 3600 s2) as [[[]|e] s3];
    [|discriminate].
  cbn. intros [= <-]. reflexivity.
Qed.

(** C8. When the client's [authenticate] flow returns a token, the browser
    holds the key pair it used, and the token is the one the server minted
    for the identifier derived from that pair's public key: whenever
    [verifyJWT] accepts the token its subject is that identifier, and it
    accepts it at every instant before the token's expiry. *)
Theorem authenticate_round_trip
    (wc : WebCrypto) (env : Env) (store : ChallengesApi) (inp : FlowInputs)
    (browser browser' : BrowserOf wc) (server server' : Server) (jwt : JWT.token) :
  authenticate wc env store inp (browser, server) = (Ok jwt, (browser', server')) ->
  exists keyPair,
    idb_slot browser' = Some keyPair
    /\ (forall now payload,
          verifyJWT env now jwt = Some payload ->
          sub payload = pkd_fingerprint (getPublicKeyDetails wc (publicKey keyPair)))
    /\ (forall now,
          now / 1000 < exp (JWT.claims jwt) ->
          exists payload,
            verifyJWT env now jwt = Some payload
            /\ sub payload = pkd_fingerprint (getPublicKeyDetails wc (publicKey keyPair))).
Proof.
  unfold authenticate.
  destruct (getOrCreateKey wc (key_entropy inp) browser) as [[keyPair|e] browser1] eqn:Hk;
    [|discriminate].
  set (details := getPublicKeyDetails wc (publicKey keyPair)).
  destruct (challenge_POST _ _ _ _ _ server) as [challengeResponse server1].
  destruct (negb (response_ok challengeResponse)); [discriminate|].
  destruct (body challengeResponse) as [ | challenge | ]; try discriminate.
  destruct (authenticate_POST _ _ _ _ _ server1) as [authResponse server2] eqn:Ha.
  destruct (negb (response_ok authResponse)); [discriminate|].
  destruct (body authResponse) as [ | | token] eqn:Hb; try discriminate.
  intros [= -> -> ->].
  assert (Htok : jwt = generateJWT env (now_iat (auth_clock inp)) (now_exp (auth_clock inp))
                         (pkd_fingerprint details)).
  { apply (f_equal fst) in Ha. cbn [fst] in Ha. rewrite <- Ha in Hb.
    apply authenticate_POST_token in Hb.
    rewrite lookup_insert_eq in Hb. exact Hb. }
  exists keyPair. split; [exact (getOrCreateKey_Ok_slot wc _ _ _ _ Hk)|].
  subst jwt. split.
  - intros now payload. rewrite verifyJWT_generateJWT.
    destruct (_ <=? _); [discriminate|]. intros [= <-]. reflexivity.
  - intros now Hnow. rewrite generateJWT_claims in Hnow. cbn [exp] in Hnow.
    rewrite verifyJWT_generateJWT.
    destruct (Z.leb_spec (now_exp (auth_clock inp) / 1000 + 3600) (now / 1000)); [lia|].
    eexists. split; reflexivity.
Qed.

Lemma truthy_encode (bs : list byte) :
  bs <> [] -> truthy (Some (Base64.encode bs)) = true.
Proof.
  destruct bs as [|a [|b [|c rest]]]; [congruence| | |]; intros _; cbn [Base64.encode].
  - destruct (Base64.split3 a x00 x00) as [[[s1 s2] s3] s4]. reflexivity.
  - destruct (Base64.split3 a b x00) as [[[s1 s2] s3] s4]. reflexivity.
  - destruct (Base64.split3 a b c) as [[[s1 s2] s3] s4]. reflexivity.
Qed.

Lemma truthy_spec_derive (canonical : list byte) :
  truthy (Some (spec_derive canonical)) = true.
Proof.
  pose proof (spec_derive_length canonical) as H.
  destruct (spec_derive canonical); [discriminate H | reflexivity].
Qed.

(** The flow succeeds when the store holds (or can take) the key pair, the
    signature scheme accepts what the pair signs, the server keeps users in
    memory, knows no other key under the identifier and has a session
    object, and the challenge is still alive when checked. *)
Lemma authenticate_succeeds
    (wc : WebCrypto) (env : Env) (inp : FlowInputs)
    (browser browser1 : BrowserOf wc) (server : Server)
    (keyPair : KeyPair wc) (imported : PublicKey wc)
    (data : gmap string UserSession) :
  let details := getPublicKeyDetails wc (publicKey keyPair) in
  getOrCreateKey wc (key_entropy inp) browser = (Ok keyPair, browser1) ->
  exportKey_spki wc (publicKey keyPair) <> [] ->
  importKey_spki wc (exportKey_spki wc (publicKey keyPair)) = Ok imported ->
  (forall msg,
      subtle_sign wc (privateKey keyPair) (sign_entropy inp) msg <> []
      /\ subtle_verify wc imported
           (subtle_sign wc (privateKey keyPair) (sign_entropy inp) msg) msg = Ok true) ->
  USE_MONGODB env = false ->
  (forall user, inMemoryUsers server !! pkd_fingerprint details = Some user ->
                user_publicKey user = pkd_fullPublicKey details) ->
  astro_session server = Some data ->
  now_get (auth_clock inp) <= now_timestamp (challenge_clock inp) + 120000 ->
  now_check (auth_clock inp) - now_timestamp (challenge_clock inp) <= 120000 ->
  fst (authenticate wc env challenges.api inp (browser, server))
  = Ok (generateJWT env (now_iat (auth_clock inp)) (now_exp (auth_clock inp))
          (pkd_fingerprint details)).
Proof.
  intros details Hk Hspki Himp Hsig Hmem Huser Hsess Hget Hcheck.
  unfold authenticate. rewrite Hk. fold details.
  assert (Hfp : pkd_fingerprint details = spec_derive (exportKey_spki wc (publicKey keyPair)))
    by apply getPublicKeyDetails_fingerprint.
  assert (Hpk : pkd_fullPublicKey details = Base64.encode (exportKey_spki wc (publicKey keyPair)))
    by apply getPublicKeyDetails_fullPublicKey.
  set (fp := pkd_fingerprint details) in *.
  set (pk := pkd_fullPublicKey details) in *.
  (* the challenge request *)
  rewrite challenge_POST_cases.
  rewrite lookup_insert_eq, lookup_insert_ne, lookup_insert_eq by discriminate.
  change (default EmptyString (Some fp)) with fp.
  change (default EmptyString (Some pk)) with pk.
  rewrite Hfp at 1. rewrite truthy_spec_derive.
  rewrite Hpk at 1. rewrite truthy_encode by exact Hspki.
  cbn [negb orb].
  rewrite bool_decide_eq_true_2
    by (rewrite Hfp, Hpk, Base64Facts.decode_encode; reflexivity).
  cbn [negb].
  set (cd := mkChallengeData fp _ _ _).
  set (newUser := mkUser fp pk _).
  unfold users.get, users.set. rewrite Hmem. cbn [fst].
  (* the server after the challenge request, and the user it knows *)
  assert (Hstep : exists server1 user,
             (match inMemoryUsers server !! fp with
              | Some _ =>
                  (mkResponse 200 (ChallengeJson (Base64.encode (nonce_bytes inp))),
                   set_timers (fun ts => ts ++ [(120000, fp)])
                     (set_inMemoryChallenges (insert fp cd) server))
              | None =>
                  (mkResponse 200 (ChallengeJson (Base64.encode (nonce_bytes inp))),
                   set_timers (fun ts => ts ++ [(120000, fp)])
                     (set_inMemoryChallenges (insert fp cd)
                        (set_inMemoryUsers (insert fp newUser) server)))
              end) = (mkResponse 200 (ChallengeJson (Base64.encode (nonce_bytes inp))), server1)
             /\ inMemoryUsers server1 !! fp = Some user
             /\ user_publicKey user = pk
             /\ inMemoryChallenges server1 !! fp = Some cd
             /\ astro_session server1 = Some data).
  { destruct (inMemoryUsers server !! fp) as [user|] eqn:Hu.
    - eexists _, user. split; [reflexivity|]. cbn.
      rewrite lookup_insert_eq. auto.
    - eexists _, newUser. split; [reflexivity|]. cbn.
      rewrite !lookup_insert_eq. auto. }
  destruct Hstep as (server1 & user & -> & Hu1 & Hupk & Hc1 & Hs1).
  cbn [response_ok status body negb andb Z.leb Z.compare Pos.compare Pos.compare_cont].
  (* the authenticate request *)
  set (challenge := Base64.encode (nonce_bytes inp)) in *.
  set (signature := signData wc (privateKey keyPair) (sign_entropy inp) challenge).
  rewrite authenticate_POST_cases.
  rewrite lookup_insert_eq, lookup_insert_ne, lookup_insert_eq by discriminate.
  change (default EmptyString (Some fp)) with fp.
  change (default EmptyString (Some signature)) with signature.
  destruct (Hsig (utf8_bytes challenge)) as (Hnonempty & Hverify).
  assert (Hsignature : signature
            = Base64.encode (subtle_sign wc (privateKey keyPair) (sign_entropy inp)
                               (utf8_bytes challenge)))
    by apply arrayBufferToBase64_encode.
  rewrite Hfp at 1. rewrite truthy_spec_derive.
  rewrite Hsignature at 1. rewrite truthy_encode by exact Hnonempty.
  cbn [negb orb].
  unfold users.get. rewrite Hmem. cbn [fst]. rewrite Hu1, Hc1.
  subst cd. cbn [cd_timestamp cd_expiresIn cd_challenge].
  destruct (Z.ltb_spec (now_timestamp (challenge_clock inp) + 120000)
              (now_get (auth_clock inp))); [lia|].
  destruct (Z.ltb_spec 120000
              (now_check (auth_clock inp) - now_timestamp (challenge_clock inp))); [lia|].
  rewrite (verifySignature_accepts wc _ _ _ imported), Hs1; [reflexivity | |].
  - rewrite Hupk, Hpk, Base64Facts.decode_encode. exact Himp.
  - rewrite Hsignature, Base64Facts.decode_encode. exact Hverify.
Qed.

(** ** Examples *)

Example demo_fingerprint :
  pkd_fingerprint demo_details = "C8d3efDYLzVy4B5lZTnWK15b+w3V7qcxB9qc3C7F"%string.
Proof. vm_compute. reflexivity. Qed.

Example demo_challenge_issued :
  inMemoryChallenges demo_issued !! pkd_fingerprint demo_details
  = Some (mkChallengeData (pkd_fingerprint demo_details) demo_challenge 1000 120000).
Proof. vm_compute. reflexivity. Qed.

Example demo_signature_valid :
  verifySignature mac_crypto (pkd_fullPublicKey demo_details) demo_challenge
    (signData mac_crypto (privateKey demo_keyPair) (sign_entropy demo_inputs) demo_challenge)
  = Ok true.
Proof. vm_compute. reflexivity. Qed.


(** Counterexample to C2 as stated: the challenge was issued at instant 1000
    with 120000 ms to live and never consumed, the request arrives at
    instant 121001 with the honest client's signature, and the answer is
    [NoChallenge], not [ChallengeExpired]. *)
Lemma expired_challenge_answers_NoChallenge :
  inMemoryChallenges demo_issued !! pkd_fingerprint demo_details
  = Some (mkChallengeData (pkd_fingerprint demo_details) demo_challenge 1000 120000)
  /\ demo_auth_request !! "signature"
     = Some (signData mac_crypto (privateKey demo_keyPair) (sign_entropy demo_inputs)
               demo_challenge)
  /\ verifySignature mac_crypto (pkd_fullPublicKey demo_details) demo_challenge
       (signData mac_crypto (privateKey demo_keyPair) (sign_entropy demo_inputs)
          demo_challenge)
     = Ok true
  /\ 1000 + 120000 < now_get demo_late_clock
  /\ fst (authenticate_POST mac_crypto dev_env challenges.api demo_late_clock
            (Ok (JsonObject demo_auth_request)) demo_issued) = NoChallenge
  /\ fst (authenticate_POST mac_crypto dev_env challenges.api demo_late_clock
            (Ok (JsonObject demo_auth_request)) demo_issued) <> ChallengeExpired.
Proof.
  assert (H : fst (authenticate_POST mac_crypto dev_env challenges.api demo_late_clock
                     (Ok (JsonObject demo_auth_request)) demo_issued) = NoChallenge)
    by (vm_compute; reflexivity).
  split; [exact demo_challenge_issued|].
  split; [vm_compute; reflexivity|].
  split; [exact demo_signature_valid|].
  split; [reflexivity|].
  split; [exact H|]. rewrite H. discriminate.
Qed.

(** Witness of C2 as amended, on the same request. *)
Lemma expired_challenge_rejected_witness :
  fst (authenticate_POST mac_crypto dev_env challenges.api demo_late_clock
         (Ok (JsonObject demo_auth_request)) demo_issued)
  = (if 1000 + 120000 <? now_get demo_late_clock then NoChallenge else ChallengeExpired)
  /\ status (fst (authenticate_POST mac_crypto dev_env challenges.api demo_late_clock
                    (Ok (JsonObject demo_auth_request)) demo_issued)) = 401
  /\ inMemoryChallenges
       (snd (authenticate_POST mac_crypto dev_env challenges.api demo_late_clock
               (Ok (JsonObject demo_auth_request)) demo_issued))
     !! pkd_fingerprint demo_details = None.
Proof.
  refine (expired_challenge_rejected mac_crypto dev_env demo_late_clock
            demo_auth_request demo_issued (pkd_fingerprint demo_details)
            (mkUser (pkd_fingerprint demo_details) (pkd_fullPublicKey demo_details) 1000)
            (mkChallengeData (pkd_fingerprint demo_details) demo_challenge 1000 120000)
            _ _ _ _ _ _).
  - vm_compute; reflexivity.
  - vm_compute; reflexivity.
  - vm_compute; reflexivity.
  - vm_compute; reflexivity.
  - vm_compute; reflexivity.
  - left. vm_compute; reflexivity.
Defined.

(** Witness of C3: another identifier with the client's public key. *)
Lemma challenge_identity_mismatch_witness :
  demo_spoof_request !! "fingerprint" = Some "AAAAAAAAAAAAAAAAAAAAAAAAAAAAAAAAAAAAAAAA"%string
  /\ demo_spoof_request !! "fullPublicKey" = Some (pkd_fullPublicKey demo_details)
  /\ "AAAAAAAAAAAAAAAAAAAAAAAAAAAAAAAAAAAAAAAA"%string
     <> spec_derive (Base64.decode (pkd_fullPublicKey demo_details))
  /\ snd (challenge_POST dev_env challenges.api (nonce_bytes demo_inputs)
            (challenge_clock demo_inputs) (Ok (JsonObject demo_spoof_request)) fresh_server)
     = fresh_server
  /\ status (fst (challenge_POST dev_env challenges.api (nonce_bytes demo_inputs)
                    (challenge_clock demo_inputs) (Ok (JsonObject demo_spoof_request))
                    fresh_server)) = 400
  /\ fst (challenge_POST dev_env challenges.api (nonce_bytes demo_inputs)
            (challenge_clock demo_inputs) (Ok (JsonObject demo_spoof_request))
            fresh_server)
     = IdentityMismatch.
Proof.
  assert (H1 : demo_spoof_request !! "fingerprint"
               = Some "AAAAAAAAAAAAAAAAAAAAAAAAAAAAAAAAAAAAAAAA"%string)
    by (vm_compute; reflexivity).
  assert (H2 : demo_spoof_request !! "fullPublicKey" = Some (pkd_fullPublicKey demo_details))
    by (vm_compute; reflexivity).
  assert (H3 : "AAAAAAAAAAAAAAAAAAAAAAAAAAAAAAAAAAAAAAAA"%string
               <> spec_derive (Base64.decode (pkd_fullPublicKey demo_details)))
    by (intros H; vm_compute in H; discriminate H).
  assert (H4 : pkd_fullPublicKey demo_details <> EmptyString)
    by (intros H; vm_compute in H; discriminate H).
  destruct (challenge_identity_mismatch dev_env challenges.api (nonce_bytes demo_inputs)
              (challenge_clock demo_inputs) demo_spoof_request fresh_server
              "AAAAAAAAAAAAAAAAAAAAAAAAAAAAAAAAAAAAAAAA" (pkd_fullPublicKey demo_details)
              H1 H2 H3)
    as (Hsame & H400 & Hmismatch).
  refine (conj H1 (conj H2 (conj H3 (conj Hsame (conj H400 (Hmismatch _ H4)))))).
  intros H; discriminate H.
Defined.


(** Counterexample to C4 as stated: the read fails (the [get] request
    errors), yet [getOrCreateKey] returns a key pair, a newly generated one
    that takes the slot of the stored pair. *)
Lemma getOrCreateKey_read_failure_returns_pair :
  transaction_fails mac_crypto demo_browser_read_fails = true
  /\ idb_slot demo_browser_read_fails = Some demo_keyPair
  /\ getOrCreateKey mac_crypto (utf8_bytes "more entropy") demo_browser_read_fails
     = (Ok demo_new_keyPair, mkBrowser (Some demo_new_keyPair) [])
  /\ (forall e, fst (getOrCreateKey mac_crypto (utf8_bytes "more entropy")
                       demo_browser_read_fails) <> Throw e).
Proof.
  assert (H : getOrCreateKey mac_crypto (utf8_bytes "more entropy") demo_browser_read_fails
              = (Ok demo_new_keyPair, mkBrowser (Some demo_new_keyPair) []))
    by (vm_compute; reflexivity).
  split; [reflexivity|]. split; [reflexivity|]. split; [exact H|].
  intros e. rewrite H. discriminate.
Qed.

(** Witness of C4 as amended: with the database down the call fails and the
    slot keeps the pair; with the database up two calls return the pair. *)
Lemma getOrCreateKey_storage_witness :
  (fst (getOrCreateKey mac_crypto [] demo_browser_down) = Throw IDBError
   /\ idb_slot (snd (getOrCreateKey mac_crypto [] demo_browser_down)) = Some demo_keyPair)
  /\ fst (getOrCreateKey_calls mac_crypto [[]; []] demo_browser_up)
     = [Ok demo_keyPair; Ok demo_keyPair]
  /\ idb_slot (snd (getOrCreateKey_calls mac_crypto [[]; []] demo_browser_up))
     = Some demo_keyPair.
Proof.
  split.
  - apply (proj1 (getOrCreateKey_storage mac_crypto demo_browser_down demo_keyPair [] [])).
    + reflexivity.
    + reflexivity.
  - apply (proj2 (getOrCreateKey_storage mac_crypto demo_browser_up demo_keyPair []
                    [[]; []])).
    + unfold accessible. cbn. repeat constructor.
    + reflexivity.
Defined.

(** Witness of C8: the run of [demo_inputs] from a new browser profile
    against the development server. *)
Lemma authenticate_round_trip_witness :
  authenticate mac_crypto dev_env challenges.api demo_inputs
    (mkBrowser None [], fresh_server)
  = (Ok (generateJWT dev_env 3000 3000 (pkd_fingerprint demo_details)),
     (mkBrowser (Some demo_keyPair) [],
      snd (snd (authenticate mac_crypto dev_env challenges.api demo_inputs
                  (mkBrowser None [], fresh_server)))))
  /\ exists payload,
       verifyJWT dev_env 5000 (generateJWT dev_env 3000 3000 (pkd_fingerprint demo_details))
       = Some payload
       /\ sub payload = pkd_fingerprint (getPublicKeyDetails mac_crypto (publicKey demo_keyPair)).
Proof.
  assert (H : authenticate mac_crypto dev_env challenges.api demo_inputs
                (mkBrowser None [], fresh_server)
              = (Ok (generateJWT dev_env 3000 3000 (pkd_fingerprint demo_details)),
                 (mkBrowser (Some demo_keyPair) [],
                  snd (snd (authenticate mac_crypto dev_env challenges.api demo_inputs
                              (mkBrowser None [], fresh_server))))))
    by (vm_compute; reflexivity).
  split; [exact H|].
  destruct (authenticate_round_trip mac_crypto dev_env challenges.api demo_inputs
              (mkBrowser None []) (mkBrowser (Some demo_keyPair) []) fresh_server _ _ H)
    as (keyPair & Hslot & _ & Hlive).
  injection Hslot as <-.
  apply (Hlive 5000). rewrite generateJWT_claims. reflexivity.
Defined.

(** ** Answers with [response.ok] *)

Lemma challenge_POST_ok_body
    (env : Env) (store : ChallengesApi) (random32 : list byte) (clk : ChallengeClock)
    (request_json : result Json) (s : Server) :
  response_ok (fst (challenge_POST env store random32 clk request_json s)) = true ->
  body (fst (challenge_POST env store random32 clk request_json s))
  = ChallengeJson (Base64.encode random32).
Proof.
  unfold challenge_POST, run_handler, catch, mbind, lift, destructure, ret.
  destruct request_json as [[|fields]|e]; try discriminate.
  destruct (negb (truthy (fields !! "fingerprint"))
            || negb (truthy (fields !! "fullPublicKey"))); [discriminate|].
  rewrite verifyFingerprint_spec.
  destruct (bool_decide _); cbn [negb]; [|discriminate].
  destruct (users.get env _ s) as [[[user|]|e] s0]; try discriminate.
  - destruct (challenges_set store _ _ s0) as [[[]|e] s1]; [reflexivity | discriminate].
  - destruct (users.set env _ _ s0) as [[[]|e] s1]; [|discriminate].
    destruct (challenges_set store _ _ s1) as [[[]|e] s2]; [reflexivity | discriminate].
Qed.

Lemma authenticate_POST_ok_body
    (wc : WebCrypto) (env : Env) (store : ChallengesApi) (clk : AuthClock)
    (request_json : result Json) (s : Server) :
  response_ok (fst (authenticate_POST wc env store clk request_json s)) = true ->
  exists jwt,
    body (fst (authenticate_POST wc env store clk request_json s)) = JwtJson jwt.
Proof.
  unfold authenticate_POST, run_handler, catch, mbind, lift, destructure, ret.
  destruct request_json as [[|fields]|e]; try discriminate.
  destruct (negb (truthy (fields !! "fingerprint")) || negb (truthy (fields !! "signature")));
    [discriminate|].
  set (fingerprint := default EmptyString (fields !! "fingerprint")).
  destruct (users.get env fingerprint s) as [[[user|]|e] s0]; try discriminate.
  destruct (challenges_get store (now_get clk) fingerprint s0) as [[[d|]|e] s1];
    try discriminate.
  destruct (cd_expiresIn d <? now_check clk - cd_timestamp d).
  { destruct (challenges_delete store fingerprint s1) as [[[]|e] s2]; discriminate. }
  destruct (challenges_delete store fingerprint s1) as [[[]|e] s2]; [|discriminate].
  destruct (verifySignature wc _ _ _) as [[|]|e]; try discriminate.
  cbn [negb].
  destruct (createUserSession (now_session clk) fingerprint 3600 s2) as [[[]|e] s3];
    [|discriminate].
  intros _. eexists. reflexivity.
Qed.

(** The stand-in scheme accepts what it signs. *)
Lemma mac_crypto_accepts (entropy sign_entropy msg : list byte) :
  let '(pk, sk) := generateKey mac_crypto entropy in
  exportKey_spki mac_crypto pk <> []
  /\ importKey_spki mac_crypto (exportKey_spki mac_crypto pk) = Ok pk
  /\ subtle_sign mac_crypto sk sign_entropy msg <> []
  /\ subtle_verify mac_crypto pk (subtle_sign mac_crypto sk sign_entropy msg) msg = Ok true.
Proof.
  cbn [generateKey exportKey_spki importKey_spki subtle_sign subtle_verify mac_crypto].
  assert (Hne : forall m, SHA256.digest m <> []).
  { intros m H. apply (f_equal (@length byte)) in H.
    rewrite sha256_digest_length in H. discriminate H. }
  rewrite sha256_digest_length, bytes_eqb_refl.
  repeat split; try apply Hne.
Qed.

(** The run of [demo_inputs] meets the conditions of [authenticate_succeeds]. *)
Example demo_flow_succeeds :
  fst (authenticate mac_crypto dev_env challenges.api demo_inputs
         (mkBrowser None [], fresh_server))
  = Ok (generateJWT dev_env 3000 3000 (pkd_fingerprint demo_details)).
Proof.
  pose proof (mac_crypto_accepts (key_entropy demo_inputs) (sign_entropy demo_inputs)) as Hacc.
  refine (authenticate_succeeds mac_crypto dev_env demo_inputs
            (mkBrowser None []) (mkBrowser (Some demo_keyPair) []) fresh_server
            demo_keyPair (publicKey demo_keyPair) ∅ _ _ _ _ _ _ _ _ _).
  - reflexivity.
  - apply (Hacc []).
  - apply (Hacc []).
  - intros msg. split; apply (Hacc msg).
  - reflexivity.
  - intros user H. change (inMemoryUsers fresh_server) with (∅ : gmap string User) in H.
    rewrite lookup_empty in H. discriminate H.
  - reflexivity.
  - cbn. lia.
  - cbn. lia.
Qed.

(* ===================================================================== *)
(** * Further properties of the endpoints and their stores *)
(* ===================================================================== *)

(** ** Registration records *)

Lemma users_get_registered (env : Env) (fingerprint : string) (s : Server)
    (found : option User) :
  fst (users.get env fingerprint s) = Ok found -> found = registered env s fingerprint.
Proof.
  unfold users.get, mongo, registered. destruct (USE_MONGODB env); cbn.
  - destruct (mongo_reachable s); cbn; congruence.
  - congruence.
Qed.

(** [users.set] either throws and changes nothing, or inserts the record
    and touches nothing but the users store. *)
Lemma users_set_effect (env : Env) (fingerprint : string) (user : User) (s : Server) :
  users.set env fingerprint user s = (Throw MongoError, s)
  \/ (fst (users.set env fingerprint user s) = Ok tt
      /\ (forall other, registered env (snd (users.set env fingerprint user s)) other
                        = if decide (fingerprint = other) then Some user
                          else registered env s other)
      /\ inMemoryChallenges (snd (users.set env fingerprint user s)) = inMemoryChallenges s
      /\ timers (snd (users.set env fingerprint user s)) = timers s
      /\ astro_session (snd (users.set env fingerprint user s)) = astro_session s
      /\ mongo_reachable (snd (users.set env fingerprint user s)) = mongo_reachable s).
Proof.
  unfold users.set, mongo, registered. destruct (USE_MONGODB env).
  - destruct (mongo_reachable s) eqn:Hm; [right | left; reflexivity].
    cbn. repeat split; try assumption. intros other.
    destruct (decide (fingerprint = other)) as [-> | Hne].
    + now rewrite lookup_insert_eq.
    + now rewrite lookup_insert_ne.
  - right. cbn. repeat split. intros other.
    destruct (decide (fingerprint = other)) as [-> | Hne].
    + now rewrite lookup_insert_eq.
    + now rewrite lookup_insert_ne.
Qed.

Lemma challenge_POST_effect
    (env : Env) (random32 : list byte) (clk : ChallengeClock)
    (request_json : result Json) (s : Server) :
  challenge_effect env s
    (snd (challenge_POST env challenges.api random32 clk request_json s)).
Proof.
  destruct request_json as [[|fields]|e]; try (apply challenge_refused; reflexivity).
  rewrite challenge_POST_cases.
  set (fingerprint := default EmptyString (fields !! "fingerprint")).
  set (fullPublicKey := default EmptyString (fields !! "fullPublicKey")).
  destruct (negb _ || negb _); [apply challenge_refused; reflexivity|].
  case_bool_decide as Hderive; cbn [negb]; [|apply challenge_refused; reflexivity].
  set (newUser := mkUser fingerprint fullPublicKey (now_createdAt clk)).
  assert (Hbound : bound fingerprint newUser) by (split; [reflexivity | exact Hderive]).
  destruct (fst (users.get env fingerprint s)) as [[user|]|e] eqn:Hget.
  - eapply (challenge_stored env _ _ fingerprint _ newUser Hbound); cbn; try reflexivity.
    intros other. now left.
  - apply users_get_registered in Hget.
    destruct (users_set_effect env fingerprint newUser s)
      as [Hthrow | (Hok & Hreg & Hch & Htm & Hse & Hre)].
    + rewrite Hthrow. apply challenge_refused. reflexivity.
    + destruct (users.set env fingerprint newUser s) as [r s1]. cbn [fst snd] in *.
      subst r.
      eapply (challenge_stored env _ _ fingerprint _ newUser Hbound); cbn.
      * intros other. change (registered env (set_timers _ (set_inMemoryChallenges _ s1)) other)
          with (registered env s1 other).
        rewrite Hreg. destruct (decide (fingerprint = other)) as [<- | Hne].
        -- right. repeat split. now symmetry.
        -- now left.
      * rewrite Hch. reflexivity.
      * exact Hse.
  - apply challenge_refused. reflexivity.
Qed.

(** The authenticate endpoint and the timer callbacks never touch a
    registration record. *)
Lemma authenticate_POST_registered
    (wc : WebCrypto) (env : Env) (clk : AuthClock) (request_json : result Json)
    (s : Server) (other : string) :
  registered env (snd (authenticate_POST wc env challenges.api clk request_json s)) other
  = registered env s other.
Proof.
  destruct request_json as [[|fields]|e]; try reflexivity.
  rewrite authenticate_POST_cases.
  destruct (negb _ || negb _); [reflexivity|].
  destruct (fst (users.get env _ s)) as [[user|]|e]; try reflexivity.
  destruct (inMemoryChallenges s !! _) as [d|]; [|reflexivity].
  destruct (_ <? _); [reflexivity|].
  destruct (_ <? _); [reflexivity|].
  destruct (verifySignature wc _ _ _) as [[|]|e]; try reflexivity.
  destruct (astro_session s); reflexivity.
Qed.

Lemma run_timer_registered (env : Env) (i : nat) (s : Server) (other : string) :
  registered env (challenges.run_timer i s) other = registered env s other.
Proof.
  unfold challenges.run_timer. destruct (timers s !! i) as [[delay fp]|]; reflexivity.
Qed.

Lemma serve_registered (wc : WebCrypto) (env : Env) (r : request) (s : Server)
    (other : string) :
  registered env (serve wc env r s) other = registered env s other
  \/ (registered env s other = None
      /\ exists newUser, registered env (serve wc env r s) other = Some newUser
                         /\ bound other newUser).
Proof.
  destruct r as [random32 clk request_json | clk request_json | i]; cbn [serve].
  - destruct (challenge_POST_effect env random32 clk request_json s)
      as [-> | fingerprint data newUser Hbound Hreg _ _]; [now left|].
    destruct (Hreg other) as [H | (-> & Hnone & Hsome)]; [now left|].
    right. eauto.
  - left. apply authenticate_POST_registered.
  - left. apply run_timer_registered.
Qed.


(** X2. Identity binding is an invariant of the server: if every registered
    record carries its identifier and that identifier is the fingerprint of
    the record's public key, the same holds after any run. *)
Theorem users_bound_invariant
    (wc : WebCrypto) (env : Env) (rs : list request) (s : Server) :
  users_bound env s -> users_bound env (serve_all wc env rs s).
Proof.
  unfold serve_all. revert s. induction rs as [|r rs IH]; intros s H; [exact H|].
  cbn [fold_left]. apply IH. intros fingerprint user Hreg.
  destruct (serve_registered wc env r s fingerprint)
    as [Hsame | (_ & newUser & Hnew & Hbound)].
  - apply H. congruence.
  - congruence.
Qed.

(** ** Issuing a challenge *)

(** The effect of a challenge request that is answered 200. *)
Lemma challenge_POST_ok_effect
    (env : Env) (random32 : list byte) (clk : ChallengeClock)
    (request_json : result Json) (s : Server) :
  status (fst (challenge_POST env challenges.api random32 clk request_json s)) = 200 ->
  exists fields,
    request_json = Ok (JsonObject fields)
    /\ let fingerprint := default EmptyString (fields !! "fingerprint") in
       let s' := snd (challenge_POST env challenges.api random32 clk request_json s) in
       fingerprint
       = spec_derive (Base64.decode (default EmptyString (fields !! "fullPublicKey")))
       /\ inMemoryChallenges s'
          = <[fingerprint := mkChallengeData fingerprint (Base64.encode random32)
                               (now_timestamp clk) 120000]> (inMemoryChallenges s)
       /\ timers s' = timers s ++ [(120000, fingerprint)]
       /\ is_Some (registered env s' fingerprint).
Proof.
  destruct request_json as [[|fields]|e]; try discriminate.
  rewrite challenge_POST_cases. intros H. exists fields. split; [reflexivity|].
  revert H.
  set (fingerprint := default EmptyString (fields !! "fingerprint")).
  set (fullPublicKey := default EmptyString (fields !! "fullPublicKey")).
  destruct (negb _ || negb _); [discriminate|].
  case_bool_decide as Hderive; cbn [negb]; [|discriminate].
  destruct (fst (users.get env fingerprint s)) as [[user|]|e] eqn:Hget; try discriminate.
  - intros _. apply users_get_registered in Hget. cbn.
    repeat split; try assumption.
    change (registered env _ fingerprint) with (registered env s fingerprint).
    rewrite <- Hget. eauto.
  - destruct (users_set_effect env fingerprint
                (mkUser fingerprint fullPublicKey (now_createdAt clk)) s)
      as [Hthrow | (Hok & Hreg & Hch & Htm & Hse & Hre)].
    + rewrite Hthrow. discriminate.
    + destruct (users.set env fingerprint _ s) as [r s1]. cbn [fst snd] in *. subst r.
      intros _. cbn. rewrite Hch, Htm. repeat split; try assumption.
      change (registered env _ fingerprint) with (registered env s1 fingerprint).
      rewrite Hreg. rewrite decide_True by reflexivity. eauto.
Qed.

(** X3. A challenge request answered 200 names an identifier that is the
    fingerprint of the key it carries, leaves that identifier registered,
    and makes the returned nonce, with the request's timestamp and a time to
    live of 120 000 ms, the one stored challenge of that identifier,
    whatever was stored for it before; no other identifier's challenge
    changes, and one removal is scheduled. The nonce of 32 random bytes has
    44 characters. *)
Theorem challenge_POST_issues
    (env : Env) (random32 : list byte) (clk : ChallengeClock)
    (request_json : result Json) (s : Server) :
  status (fst (challenge_POST env challenges.api random32 clk request_json s)) = 200 ->
  exists fields,
    request_json = Ok (JsonObject fields)
    /\ let fingerprint := default EmptyString (fields !! "fingerprint") in
       let s' := snd (challenge_POST env challenges.api random32 clk request_json s) in
       fingerprint
       = spec_derive (Base64.decode (default EmptyString (fields !! "fullPublicKey")))
       /\ is_Some (registered env s' fingerprint)
       /\ body (fst (challenge_POST env challenges.api random32 clk request_json s))
          = ChallengeJson (Base64.encode random32)
       /\ inMemoryChallenges s' !! fingerprint
          = Some (mkChallengeData fingerprint (Base64.encode random32)
                    (now_timestamp clk) 120000)
       /\ (forall other, other <> fingerprint ->
                         inMemoryChallenges s' !! other = inMemoryChallenges s !! other)
       /\ timers s' = timers s ++ [(120000, fingerprint)]
       /\ (length random32 = 32%nat ->
           String.length (Base64.encode random32) = 44%nat).
Proof.
  intros H.
  destruct (challenge_POST_ok_effect env random32 clk request_json s H)
    as (fields & Hreq & Hfp & Hch & Htm & Hreg).
  exists fields. split; [exact Hreq|]. cbn zeta.
  split; [exact Hfp|]. split; [exact Hreg|]. split.
  { apply challenge_POST_ok_body. unfold response_ok. rewrite H. reflexivity. }
  rewrite Hch. repeat split.
  - apply lookup_insert_eq.
  - intros other Hne. now apply lookup_insert_ne.
  - exact Htm.
  - intros Hlen. rewrite Base64Facts.length_encode, Hlen. reflexivity.
Qed.

(** No challenge stored for the identifier: the authenticate endpoint never
    answers 200. *)
Lemma authenticate_POST_absent_not_200
    (wc : WebCrypto) (env : Env) (clk : AuthClock)
    (fields : gmap string string) (s : Server) :
  inMemoryChallenges s !! default EmptyString (fields !! "fingerprint") = None ->
  status (fst (authenticate_POST wc env challenges.api clk (Ok (JsonObject fields)) s))
  <> 200.
Proof.
  intros Habs. rewrite authenticate_POST_cases.
  destruct (negb _ || negb _); [discriminate|].
  destruct (fst (users.get env _ s)) as [[user|]|e]; try discriminate.
  rewrite Habs. discriminate.
Qed.

(** X4. The removal scheduled by a challenge request is never cancelled:
    when a second challenge is issued for the same identifier and the first
    request's timer then runs, it removes the second, newer challenge,
    however recent, and no authenticate request for the identifier is
    answered 200 until another challenge is issued. *)
Theorem stale_timer_removes_newer_challenge
    (wc : WebCrypto) (env : Env) (random1 random2 : list byte)
    (clk1 clk2 : ChallengeClock) (fields : gmap string string) (s : Server) :
  let request := Ok (JsonObject fields) in
  let fingerprint := default EmptyString (fields !! "fingerprint") in
  let s1 := snd (challenge_POST env challenges.api random1 clk1 request s) in
  let s2 := snd (challenge_POST env challenges.api random2 clk2 request s1) in
  let first_timer := length (timers s) in
  status (fst (challenge_POST env challenges.api random1 clk1 request s)) = 200 ->
  status (fst (challenge_POST env challenges.api random2 clk2 request s1)) = 200 ->
  timers s2 !! first_timer = Some (120000, fingerprint)
  /\ inMemoryChallenges s2 !! fingerprint
     = Some (mkChallengeData fingerprint (Base64.encode random2)
               (now_timestamp clk2) 120000)
  /\ inMemoryChallenges (challenges.run_timer first_timer s2) !! fingerprint = None
  /\ forall (clk : AuthClock) (answer : gmap string string),
       default EmptyString (answer !! "fingerprint") = fingerprint ->
       status (fst (authenticate_POST wc env challenges.api clk (Ok (JsonObject answer))
                      (challenges.run_timer first_timer s2))) <> 200.
Proof.
  intros request fingerprint s1 s2 first_timer H1 H2.
  destruct (challenge_POST_ok_effect env random1 clk1 request s H1)
    as (fields1 & Hreq1 & _ & _ & Htm1 & _).
  destruct (challenge_POST_ok_effect env random2 clk2 request s1 H2)
    as (fields2 & Hreq2 & _ & Hch2 & Htm2 & _).
  injection Hreq1 as <-. injection Hreq2 as <-. cbn zeta in *.
  fold fingerprint s1 in Htm1, Htm2, Hch2. fold s2 in Htm2, Hch2.
  assert (Htimer : timers s2 !! first_timer = Some (120000, fingerprint)).
  { rewrite Htm2, Htm1. rewrite lookup_app_l.
    - apply list_lookup_middle. reflexivity.
    - rewrite length_app. cbn. unfold first_timer. lia. }
  assert (Hgone : inMemoryChallenges (challenges.run_timer first_timer s2) !! fingerprint
                  = None).
  { unfold challenges.run_timer. rewrite Htimer. cbn. apply lookup_delete_eq. }
  split; [exact Htimer|]. split; [rewrite Hch2; apply lookup_insert_eq|].
  split; [exact Hgone|].
  intros clk answer Hfp. apply authenticate_POST_absent_not_200. rewrite Hfp. exact Hgone.
Qed.

(** ** The challenges store *)

(** X5. [challenges.get] never returns an expired challenge and never
    throws: a challenge it returns is the stored one, still within its time
    to live at the reading of the clock (the instant of expiry included),
    and the store is unchanged; when it returns undefined no challenge is
    left for the identifier; other identifiers are never touched. *)
Theorem challenges_get_sound (now : Z) (fingerprint : string) (s : Server) :
  match challenges.get now fingerprint s with
  | (Ok (Some d), s') =>
      inMemoryChallenges s !! fingerprint = Some d
      /\ now <= cd_timestamp d + cd_expiresIn d
      /\ s' = s
  | (Ok None, s') =>
      inMemoryChallenges s' !! fingerprint = None
      /\ (forall other, other <> fingerprint ->
                        inMemoryChallenges s' !! other = inMemoryChallenges s !! other)
      /\ (forall d, inMemoryChallenges s !! fingerprint = Some d ->
                    cd_timestamp d + cd_expiresIn d < now)
  | (Throw _, _) => False
  end.
Proof.
  unfold challenges.get.
  destruct (inMemoryChallenges s !! fingerprint) as [d|] eqn:Hd.
  - destruct (cd_timestamp d + cd_expiresIn d <? now) eqn:Hexp.
    + cbn. split; [apply lookup_delete_eq|]. split.
      * intros other Hne. now apply lookup_delete_ne.
      * intros d' [= <-]. lia.
    + repeat split. lia.
  - repeat split; [exact Hd | discriminate].
Qed.

(** ** The session of an answered request *)

(** X6. The authenticate endpoint writes the session exactly when it
    answers 200: then the request carried a session object, and its
    [user] entry becomes the requested identifier with the instant of
    authentication and an expiry one hour later; with any other status the
    session is left as it was. *)
Theorem authenticate_POST_session
    (wc : WebCrypto) (env : Env) (clk : AuthClock)
    (fields : gmap string string) (s : Server) :
  let answered := authenticate_POST wc env challenges.api clk (Ok (JsonObject fields)) s in
  let fingerprint := default EmptyString (fields !! "fingerprint") in
  astro_session (snd answered)
  = (if status (fst answered) =? 200
     then option_map
            (insert "user" (mkUserSession fingerprint (now_session clk)
                              (now_session clk + 3600 * 1000)))
            (astro_session s)
     else astro_session s)
  /\ (if status (fst answered) =? 200
      then bool_decide (is_Some (astro_session s)) else true) = true.
Proof.
  intros answered fingerprint. subst answered. rewrite authenticate_POST_cases.
  fold fingerprint.
  destruct (negb _ || negb _); [split; reflexivity|].
  destruct (fst (users.get env fingerprint s)) as [[user|]|e]; try (split; reflexivity).
  destruct (inMemoryChallenges s !! fingerprint) as [d|]; [|split; reflexivity].
  destruct (_ <? _); [split; reflexivity|].
  destruct (_ <? _); [split; reflexivity|].
  destruct (verifySignature wc _ _ _) as [[|]|e]; try (split; reflexivity).
  destruct (astro_session s) eqn:Hs; cbn; rewrite ?Hs; split; reflexivity.
Qed.

(** ** Signatures and encodings in transit *)

(** X7. Base64 transport loses nothing: verifying what [signData] returns
    against the [fullPublicKey] of [getPublicKeyDetails] is the platform's
    verification of the raw signature over the UTF-8 bytes of the data under
    the re-imported key, and false when import or verification throws. *)
Theorem verifySignature_signData
    (wc : WebCrypto) (pk : PublicKey wc) (sk : PrivateKey wc)
    (entropy : list byte) (data : string) :
  verifySignature wc (pkd_fullPublicKey (getPublicKeyDetails wc pk)) data
    (signData wc sk entropy data)
  = match importKey_spki wc (exportKey_spki wc pk) with
    | Ok key =>
        match subtle_verify wc key (subtle_sign wc sk entropy (utf8_bytes data))
                (utf8_bytes data) with
        | Ok isValid => Ok isValid
        | Throw _ => Ok false
        end
    | Throw _ => Ok false
    end.
Proof.
  unfold verifySignature, signData, getPublicKeyDetails, try_catch, bind.
  cbn [pkd_fullPublicKey].
  rewrite !base64ToArrayBuffer_arrayBufferToBase64.
  destruct (importKey_spki wc (exportKey_spki wc pk)) as [key|e]; [|reflexivity].
  destruct (subtle_verify wc key _ _) as [b|e]; reflexivity.
Qed.

(** X8. [arrayBufferToBase64] is injective: two different byte strings,
    two different texts, so a [fullPublicKey] names one encoded key. *)
Theorem arrayBufferToBase64_injective (a b : list byte) :
  arrayBufferToBase64 a = arrayBufferToBase64 b -> a = b.
Proof.
  intros H.
  rewrite <- (base64ToArrayBuffer_arrayBufferToBase64 a),
          <- (base64ToArrayBuffer_arrayBufferToBase64 b), H.
  reflexivity.
Qed.


(** ** Instances *)


Lemma demo_issued_users_bound : users_bound dev_env demo_issued.
Proof.
  assert (Husers : inMemoryUsers demo_issued = {[pkd_fingerprint demo_details := demo_user]})
    by (vm_compute; reflexivity).
  intros fingerprint user. unfold registered.
  change (USE_MONGODB dev_env) with false. cbv iota. rewrite Husers.
  intros [<- <-]%lookup_singleton_Some. split; [reflexivity|].
  unfold demo_user, demo_details. cbn [user_publicKey].
  rewrite getPublicKeyDetails_fingerprint, getPublicKeyDetails_fullPublicKey.
  rewrite Base64Facts.decode_encode. reflexivity.
Qed.

Lemma users_bound_invariant_witness :
  users_bound dev_env demo_issued
  /\ users_bound dev_env (serve_all mac_crypto dev_env demo_requests demo_issued).
Proof.
  exact (conj demo_issued_users_bound
           (users_bound_invariant mac_crypto dev_env demo_requests demo_issued
              demo_issued_users_bound)).
Defined.

Lemma demo_challenge_status :
  status (fst (challenge_POST dev_env challenges.api (nonce_bytes demo_inputs)
                 (challenge_clock demo_inputs) (Ok (JsonObject demo_challenge_request))
                 fresh_server)) = 200.
Proof. vm_compute. reflexivity. Qed.

Lemma challenge_POST_issues_witness :
  let fingerprint := default EmptyString (demo_challenge_request !! "fingerprint") in
  status (fst (challenge_POST dev_env challenges.api (nonce_bytes demo_inputs)
                 (challenge_clock demo_inputs) (Ok (JsonObject demo_challenge_request))
                 fresh_server)) = 200
  /\ inMemoryChallenges demo_issued !! fingerprint
     = Some (mkChallengeData fingerprint (Base64.encode (nonce_bytes demo_inputs))
               (now_timestamp (challenge_clock demo_inputs)) 120000)
  /\ String.length (Base64.encode (nonce_bytes demo_inputs)) = 44%nat.
Proof.
  destruct (challenge_POST_issues dev_env (nonce_bytes demo_inputs)
              (challenge_clock demo_inputs) (Ok (JsonObject demo_challenge_request))
              fresh_server demo_challenge_status)
    as (fields & Hreq & _ & _ & _ & Hstored & _ & _ & Hlen).
  injection Hreq as <-.
  exact (conj demo_challenge_status (conj Hstored (Hlen eq_refl))).
Defined.

Lemma stale_timer_removes_newer_challenge_witness :
  let request := Ok (JsonObject demo_challenge_request) in
  let fingerprint := default EmptyString (demo_challenge_request !! "fingerprint") in
  let s1 := snd (challenge_POST dev_env challenges.api (nonce_bytes demo_inputs)
                   (challenge_clock demo_inputs) request fresh_server) in
  let s2 := snd (challenge_POST dev_env challenges.api
                   (utf8_bytes "another nonce of thirty-two byte")
                   (mkChallengeClock 100000 100000) request s1) in
  inMemoryChallenges s2 !! fingerprint
  = Some (mkChallengeData fingerprint
            (Base64.encode (utf8_bytes "another nonce of thirty-two byte"))
            (now_timestamp (mkChallengeClock 100000 100000)) 120000)
  /\ status (fst (authenticate_POST mac_crypto dev_env challenges.api
                    (mkAuthClock 121000 121000 121000 121000 121000)
                    (Ok (JsonObject demo_auth_request))
                    (challenges.run_timer (length (timers fresh_server)) s2))) <> 200.
Proof.
  intros request fingerprint s1 s2.
  assert (H2 : status (fst (challenge_POST dev_env challenges.api
                              (utf8_bytes "another nonce of thirty-two byte")
                              (mkChallengeClock 100000 100000) request s1)) = 200)
    by (vm_compute; reflexivity).
  assert (H3 : default EmptyString (demo_auth_request !! "fingerprint") = fingerprint).
  { unfold fingerprint, demo_auth_request, demo_challenge_request.
    rewrite !lookup_insert_eq. reflexivity. }
  destruct (stale_timer_removes_newer_challenge mac_crypto dev_env
              (nonce_bytes demo_inputs) (utf8_bytes "another nonce of thirty-two byte")
              (challenge_clock demo_inputs) (mkChallengeClock 100000 100000)
              demo_challenge_request fresh_server demo_challenge_status H2)
    as (_ & Hstored & _ & Hrefused).
  exact (conj Hstored
           (Hrefused (mkAuthClock 121000 121000 121000 121000 121000)
              demo_auth_request H3)).
Defined.

Lemma arrayBufferToBase64_injective_witness :
  arrayBufferToBase64 (utf8_bytes "key") = arrayBufferToBase64 [x6b; x65; x79]
  /\ utf8_bytes "key" = [x6b; x65; x79].
Proof.
  assert (H : arrayBufferToBase64 (utf8_bytes "key") = arrayBufferToBase64 [x6b; x65; x79])
    by reflexivity.
  exact (conj H (arrayBufferToBase64_injective _ _ H)).
Defined.


Lemma challenges_get_sound_witness :
  challenges.get 121000 "visitor" demo_pending
  = (Ok (Some (mkChallengeData "visitor" "bm9uY2U=" 1000 120000)), demo_pending)
  /\ 121000 <= 1000 + 120000
  /\ fst (challenges.get 121001 "visitor" demo_pending) = Ok None
  /\ inMemoryChallenges (snd (challenges.get 121001 "visitor" demo_pending)) !! "visitor"
     = None.
Proof.
  pose proof (challenges_get_sound 121000 "visitor" demo_pending) as Hlive.
  pose proof (challenges_get_sound 121001 "visitor" demo_pending) as Hdead.
  assert (E1 : challenges.get 121000 "visitor" demo_pending
               = (Ok (Some (mkChallengeData "visitor" "bm9uY2U=" 1000 120000)),
                  demo_pending)) by reflexivity.
  destruct (challenges.get 121001 "visitor" demo_pending) as [[[d|]|e] s'] eqn:E2;
    try discriminate E2.
  rewrite E1 in Hlive. destruct Hlive as (_ & Hle & _). destruct Hdead as (Hgone & _).
  exact (conj eq_refl (conj Hle (conj eq_refl Hgone))).
Defined.

(* ===================================================================== *)
(** * Sessions *)
(* ===================================================================== *)

Lemma getUserSession_user (now : Z) (s : Server) (data : gmap string UserSession)
    (userData : UserSession) :
  astro_session s = Some data ->
  data !! "user" = Some userData ->
  getUserSession now s
  = if expiresAt userData <? now then (Ok None, set_astro_session (Some ∅) s)
    else (Ok (Some userData), s).
Proof.
  intros Hs Hu. unfold getUserSession, session_destroy, mbind, ret.
  rewrite Hs, Hu. destruct (expiresAt userData <? now); reflexivity.
Qed.

Lemma getUserSession_destroyed (now : Z) (s : Server) :
  getUserSession now (set_astro_session (Some ∅) s)
  = (Ok None, set_astro_session (Some ∅) s).
Proof. reflexivity. Qed.


(** X11. Logging out answers 200 exactly when the request has a session
    object, and 500 without one. After a 200 the session holds nothing and
    [isAuthenticated] is false at every reading of the clock; registered
    users and pending challenges are as before. *)
Theorem logout_POST_ends_session (s : Server) (now : Z) :
  match astro_session s with
  | Some _ =>
      fst (logout_POST s) = mkMessageResponse 200 (MessageJson "Logged out successfully")
      /\ astro_session (snd (logout_POST s)) = Some ∅
      /\ isAuthenticated now (snd (logout_POST s)) = (Ok false, snd (logout_POST s))
      /\ inMemoryUsers (snd (logout_POST s)) = inMemoryUsers s
      /\ mongo_users (snd (logout_POST s)) = mongo_users s
      /\ inMemoryChallenges (snd (logout_POST s)) = inMemoryChallenges s
  | None =>
      logout_POST s
      = (mkMessageResponse 500 (MessageErrorJson "Internal server error"), s)
  end.
Proof.
  unfold logout_POST, destroyUserSession, session_destroy.
  destruct (astro_session s) as [data|] eqn:Hs; [|reflexivity].
  cbn [fst snd]. repeat split.
Qed.

(** X12. After the authenticate endpoint answered 200, [getUserSession]
    returns the requested identifier with the instant of authentication for
    one hour, the last millisecond included, and nothing afterwards; once
    the user logs out it returns nothing at any instant. *)
Theorem authenticated_session_window
    (wc : WebCrypto) (env : Env) (clk : AuthClock)
    (fields : gmap string string) (s : Server) (now : Z) :
  let answered := authenticate_POST wc env challenges.api clk (Ok (JsonObject fields)) s in
  let fingerprint := default EmptyString (fields !! "fingerprint") in
  status (fst answered) = 200 ->
  fst (getUserSession now (snd answered))
  = Ok (if now_session clk + 3600 * 1000 <? now then None
        else Some (mkUserSession fingerprint (now_session clk)
                     (now_session clk + 3600 * 1000)))
  /\ fst (logout_POST (snd answered))
     = mkMessageResponse 200 (MessageJson "Logged out successfully")
  /\ fst (getUserSession now (snd (logout_POST (snd answered)))) = Ok None.
Proof.
  intros answered fingerprint. subst answered. rewrite authenticate_POST_cases.
  fold fingerprint.
  destruct (negb _ || negb _); [discriminate|].
  destruct (fst (users.get env fingerprint s)) as [[user|]|e]; try discriminate.
  destruct (inMemoryChallenges s !! fingerprint) as [d|]; [|discriminate].
  destruct (_ <? _); [discriminate|].
  destruct (_ <? _); [discriminate|].
  destruct (verifySignature wc _ _ _) as [[|]|e]; try discriminate.
  destruct (astro_session s) as [data|] eqn:Hs; [|discriminate].
  intros _. cbn [fst snd].
  set (session := mkUserSession fingerprint (now_session clk)
                    (now_session clk + 3600 * 1000)).
  set (s' := set_astro_session _ _).
  rewrite (getUserSession_user now s' (<["user" := session]> data) session)
    by (try reflexivity; apply lookup_insert_eq).
  cbn [expiresAt session].
  split; [destruct (_ <? _); reflexivity|].
  split; reflexivity.
Qed.

(** ** Instances *)


Lemma demo_authenticate_status :
  status (fst (authenticate_POST mac_crypto dev_env challenges.api (auth_clock demo_inputs)
                 (Ok (JsonObject demo_auth_request)) demo_issued)) = 200.
Proof. vm_compute. reflexivity. Qed.

Lemma authenticated_session_window_witness :
  let answered := authenticate_POST mac_crypto dev_env challenges.api
                    (auth_clock demo_inputs) (Ok (JsonObject demo_auth_request))
                    demo_issued in
  let fingerprint := default EmptyString (demo_auth_request !! "fingerprint") in
  status (fst answered) = 200
  /\ fst (getUserSession 3603000 (snd answered))
     = Ok (if now_session (auth_clock demo_inputs) + 3600 * 1000 <? 3603000 then None
           else Some (mkUserSession fingerprint (now_session (auth_clock demo_inputs))
                        (now_session (auth_clock demo_inputs) + 3600 * 1000)))
  /\ fst (getUserSession 3603000 (snd (logout_POST (snd answered)))) = Ok None.
Proof.
  intros answered fingerprint.
  destruct (authenticated_session_window mac_crypto dev_env (auth_clock demo_inputs)
              demo_auth_request demo_issued 3603000 demo_authenticate_status)
    as (Hsession & _ & Hout).
  exact (conj demo_authenticate_status (conj Hsession Hout)).
Defined.

(* ===================================================================== *)
(** * The client's token *)
(* ===================================================================== *)

Lemma setJwt_currentJwt (jwt : string) (st : TokenStore) :
  currentJwt (snd (setJwt jwt st)) = Some jwt.
Proof.
  unfold setJwt. destruct (sessionStorage st) as [storage|]; [|reflexivity].
  destruct (quota_exceeded storage); reflexivity.
Qed.

Lemma setJwt_stored (jwt : string) (st : TokenStore) :
  fst (setJwt jwt st) = inr tt ->
  match sessionStorage (snd (setJwt jwt st)) with
  | Some storage => is_Some (sessionStorage st) /\ items storage !! "jwt" = Some jwt
  | None => sessionStorage st = None
  end.
Proof.
  unfold setJwt. destruct (sessionStorage st) as [storage|]; [|reflexivity].
  destruct (quota_exceeded storage); [discriminate|].
  intros _. cbn. split; [eauto | apply lookup_insert_eq].
Qed.

Lemma getJwt_truthy (jwt : string) (st : TokenStore) :
  currentJwt st = Some jwt -> jwt <> EmptyString -> getJwt st = (Some jwt, st).
Proof.
  intros Hc Hne. unfold getJwt. rewrite Hc, truthy_Some.
  destruct (String.eqb_spec jwt EmptyString); [contradiction | reflexivity].
Qed.

(** X13. A token stored without error is the one [getJwt] returns, the
    empty token included; after a page load it is still returned exactly
    when the page has a [sessionStorage]; after [clearJwt] nothing is
    returned, before or after a page load. *)
Theorem setJwt_getJwt (jwt : string) (st : TokenStore) :
  fst (setJwt jwt st) = inr tt ->
  let st1 := snd (setJwt jwt st) in
  fst (getJwt st1) = Some jwt
  /\ fst (getJwt (reload st1))
     = match sessionStorage st with Some _ => Some jwt | None => None end
  /\ fst (getJwt (clearJwt st1)) = None
  /\ fst (getJwt (reload (clearJwt st1))) = None.
Proof.
  intros Hok st1.
  pose proof (setJwt_currentJwt jwt st) as Hc.
  pose proof (setJwt_stored jwt st Hok) as Hs.
  fold st1 in Hc, Hs.
  destruct st1 as [current storage]. cbn [currentJwt sessionStorage] in *. subst current.
  repeat split.
  - unfold getJwt. cbn [currentJwt sessionStorage]. rewrite truthy_Some.
    destruct (String.eqb_spec jwt EmptyString) as [-> | Hne]; cbn [negb]; [|reflexivity].
    destruct storage as [storage|]; [|reflexivity].
    destruct Hs as [_ Hs]. cbn [fst]. exact Hs.
  - unfold getJwt, reload. cbn.
    destruct storage as [storage|].
    + destruct Hs as [[w ->] Hs]. exact Hs.
    + rewrite Hs. reflexivity.
  - unfold getJwt, clearJwt. cbn. destruct storage as [storage|]; cbn; [|reflexivity].
    apply lookup_delete_eq.
  - unfold getJwt, clearJwt, reload. cbn. destruct storage as [storage|]; cbn; [|reflexivity].
    apply lookup_delete_eq.
Qed.

(** X14. [setJwt] assigns the module variable before it writes to
    [sessionStorage]: when the write exceeds the quota, [setJwt] throws, yet
    [getJwt] returns the new token until the page is loaded again, and then
    the token of the earlier login, if one was stored. *)
Theorem setJwt_quota_exceeded (jwt : string) (st : TokenStore) (storage : WebStorage) :
  sessionStorage st = Some storage ->
  quota_exceeded storage = true ->
  jwt <> EmptyString ->
  fst (setJwt jwt st) = inl QuotaExceededError
  /\ fst (getJwt (snd (setJwt jwt st))) = Some jwt
  /\ fst (getJwt (reload (snd (setJwt jwt st)))) = items storage !! "jwt".
Proof.
  intros Hs Hq Hne. unfold setJwt. rewrite Hs, Hq. cbn [fst snd].
  split; [reflexivity|]. split.
  - rewrite (getJwt_truthy jwt); [reflexivity | reflexivity | exact Hne].
  - reflexivity.
Qed.

(** X15. [authenticatedFetch] needs a token: with none in the module
    variable and none in [sessionStorage], or an empty one, it throws before
    it builds headers or calls [fetch], whatever the platform; so it does
    after [clearJwt]. With a non-empty token set, the request goes out with
    [Authorization] set to [Bearer] and that token, and fails only where
    [Headers] or [fetch] fail. *)
Theorem authenticatedFetch_token
    (api : FetchApi) (url : string) (options_headers : option (HeadersInit api))
    (st : TokenStore) (jwt : string) :
  (truthy (fst (getJwt st)) = false ->
   authenticatedFetch api url options_headers st = (inl NoTokenError, snd (getJwt st)))
  /\ fst (authenticatedFetch api url options_headers (clearJwt st)) = inl NoTokenError
  /\ (jwt <> EmptyString ->
      fst (authenticatedFetch api url options_headers (snd (setJwt jwt st)))
      = match Headers_new api options_headers with
        | inl e => inl e
        | inr headers =>
            match Headers_set api headers "Authorization" ("Bearer " ++ jwt) with
            | inl e => inl e
            | inr headers => fetch api url headers
            end
        end).
Proof.
  split; [|split].
  - intros Hno. unfold authenticatedFetch.
    destruct (getJwt st) as [found st1]. cbn [fst snd] in *. rewrite Hno. reflexivity.
  - unfold authenticatedFetch, getJwt, clearJwt.
    destruct (sessionStorage st) as [storage|]; cbn; [|reflexivity].
    rewrite lookup_delete_eq. reflexivity.
  - intros Hne. unfold authenticatedFetch.
    rewrite (getJwt_truthy jwt _ (setJwt_currentJwt jwt st) Hne).
    rewrite truthy_Some.
    destruct (String.eqb_spec jwt EmptyString); [contradiction|]. cbn [negb default].
    destruct (Headers_new api options_headers) as [e|headers]; [reflexivity|].
    destruct (Headers_set api headers _ _); reflexivity.
Qed.

(** ** Instances *)

Lemma setJwt_getJwt_witness :
  let st1 := snd (setJwt "new.token" demo_page) in
  fst (setJwt "new.token" demo_page) = inr tt
  /\ fst (getJwt st1) = Some "new.token"%string
  /\ fst (getJwt (reload st1)) = Some "new.token"%string
  /\ fst (getJwt (reload (clearJwt st1))) = None.
Proof.
  intros st1.
  assert (H : fst (setJwt "new.token" demo_page) = inr tt) by reflexivity.
  destruct (setJwt_getJwt "new.token" demo_page H) as (Hget & Hreload & _ & Hclear).
  exact (conj H (conj Hget (conj Hreload Hclear))).
Defined.

Lemma setJwt_quota_exceeded_witness :
  fst (setJwt "new.token" demo_page_full) = inl QuotaExceededError
  /\ fst (getJwt (snd (setJwt "new.token" demo_page_full))) = Some "new.token"%string
  /\ fst (getJwt (reload (snd (setJwt "new.token" demo_page_full))))
     = Some "old.token"%string.
Proof.
  assert (Hne : "new.token"%string <> EmptyString) by discriminate.
  exact (setJwt_quota_exceeded "new.token" demo_page_full
           (mkWebStorage (<["jwt" := "old.token"%string]> ∅) true) eq_refl eq_refl Hne).
Defined.

Lemma authenticatedFetch_token_witness :
  authenticatedFetch echo_api "/api/characters" None demo_page
  = (inl NoTokenError, snd (getJwt demo_page))
  /\ fst (authenticatedFetch echo_api "/api/characters" None
            (snd (setJwt "new.token" demo_page)))
     = inr ("/api/characters"%string, [("Authorization"%string, "Bearer new.token"%string)]).
Proof.
  destruct (authenticatedFetch_token echo_api "/api/characters" None demo_page "new.token")
    as (Hnone & _ & Hsome).
  assert (H1 : truthy (fst (getJwt demo_page)) = false) by reflexivity.
  assert (H2 : "new.token"%string <> EmptyString) by discriminate.
  exact (conj (Hnone H1) (Hsome H2)).
Defined.

(* ===================================================================== *)
(** * The key pair over successive calls *)
(* ===================================================================== *)

Section KeyStoreRuns.

Variable wc : WebCrypto.
Implicit Types (b : BrowserOf wc) (kp : KeyPair wc).

Lemma createAndStoreKey_accessible entropy b :
  accessible wc b ->
  fst (createAndStoreKey wc entropy b) = Ok (generatedKeyPair wc entropy)
  /\ idb_slot (snd (createAndStoreKey wc entropy b)) = Some (generatedKeyPair wc entropy)
  /\ accessible wc (snd (createAndStoreKey wc entropy b)).
Proof.
  unfold generatedKeyPair, accessible, createAndStoreKey, mbind, openDatabase, idb_request, ret.
  destruct (generateKey wc entropy) as [pk sk].
  destruct b as [slot [|o1 [|o2 rest]]]; cbn; intros H.
  - auto.
  - inversion H as [|? ? -> H']; subst. cbn. auto.
  - inversion H as [|? ? -> H']; subst.
    inversion H' as [|? ? -> H'']; subst. cbn. auto.
Qed.

Lemma getOrCreateKey_calls_stored b kp (entropies : list (list byte)) :
  accessible wc b -> idb_slot b = Some kp ->
  fst (getOrCreateKey_calls wc entropies b) = map (fun _ => Ok kp) entropies
  /\ idb_slot (snd (getOrCreateKey_calls wc entropies b)) = Some kp.
Proof.
  revert b. induction entropies as [|e rest IH]; intros b Hacc Hslot.
  - cbn. auto.
  - destruct (getOrCreateKey_stored wc b kp e Hacc Hslot) as (Hr & Hs & Ha).
    cbn [getOrCreateKey_calls].
    destruct (getOrCreateKey wc e b) as [r b1]. cbn [fst snd] in *. subst r.
    destruct (IH b1 Ha Hs) as (IH1 & IH2).
    destruct (getOrCreateKey_calls wc rest b1) as [rs b2]. cbn [fst snd map] in *.
    now rewrite IH1.
Qed.

Lemma getOrCreateKey_creates b (entropy : list byte) :
  fst (getStoredKey wc b) = Ok None ->
  accessible wc (snd (getStoredKey wc b)) ->
  fst (getOrCreateKey wc entropy b) = Ok (generatedKeyPair wc entropy)
  /\ idb_slot (snd (getOrCreateKey wc entropy b)) = Some (generatedKeyPair wc entropy)
  /\ accessible wc (snd (getOrCreateKey wc entropy b)).
Proof.
  intros Hr Ha. unfold getOrCreateKey, mbind.
  destruct (getStoredKey wc b) as [r b1]. cbn [fst snd] in *. subst r.
  exact (createAndStoreKey_accessible entropy b1 Ha).
Qed.

Lemma getOrCreateKey_calls_creates b (entropy : list byte) (entropies : list (list byte)) :
  fst (getStoredKey wc b) = Ok None ->
  accessible wc (snd (getStoredKey wc b)) ->
  fst (getOrCreateKey_calls wc (entropy :: entropies) b)
  = map (fun _ => Ok (generatedKeyPair wc entropy)) (entropy :: entropies)
  /\ idb_slot (snd (getOrCreateKey_calls wc (entropy :: entropies) b))
     = Some (generatedKeyPair wc entropy).
Proof.
  intros Hr Ha.
  destruct (getOrCreateKey_creates b entropy Hr Ha) as (Hc & Hk & Hb).
  cbn [getOrCreateKey_calls].
  destruct (getOrCreateKey wc entropy b) as [r b1]. cbn [fst snd] in *. subst r.
  destruct (getOrCreateKey_calls_stored b1 (generatedKeyPair wc entropy) entropies Hb Hk)
    as (H1 & H2).
  destruct (getOrCreateKey_calls wc entropies b1) as [rs b2]. cbn [fst snd map] in *.
  now rewrite H1.
Qed.

(** X16. First use: on an accessible store that holds no key, the first
    call of [getOrCreateKey] generates a pair from its entropy and stores
    it, and every later call returns that pair, whatever entropy it is
    given. *)
Theorem getOrCreateKey_first_use b (entropy : list byte) (entropies : list (list byte)) :
  accessible wc b -> idb_slot b = None ->
  fst (getOrCreateKey_calls wc (entropy :: entropies) b)
  = map (fun _ => Ok (generatedKeyPair wc entropy)) (entropy :: entropies)
  /\ idb_slot (snd (getOrCreateKey_calls wc (entropy :: entropies) b))
     = Some (generatedKeyPair wc entropy).
Proof.
  intros Hacc Hslot.
  destruct (getStoredKey_accessible wc b Hacc) as (Hr & _ & Ha).
  apply getOrCreateKey_calls_creates; [congruence | exact Ha].
Qed.

(** X17. A failed read replaces the identity: when the transaction of
    [getStoredKey] fails and the store is accessible afterwards,
    [getOrCreateKey] returns a pair generated from its entropy and stores it
    over whatever the slot held; later calls return the new pair. *)
Theorem getOrCreateKey_read_failure_replaces
    b (entropy : list byte) (entropies : list (list byte)) :
  transaction_fails wc b = true ->
  accessible wc (snd (getStoredKey wc b)) ->
  fst (getOrCreateKey_calls wc (entropy :: entropies) b)
  = map (fun _ => Ok (generatedKeyPair wc entropy)) (entropy :: entropies)
  /\ idb_slot (snd (getOrCreateKey_calls wc (entropy :: entropies) b))
     = Some (generatedKeyPair wc entropy).
Proof.
  intros Hfail Ha.
  destruct (getStoredKey_read_fails wc b Hfail) as (Hr & _).
  apply getOrCreateKey_calls_creates; [exact Hr | exact Ha].
Qed.

End KeyStoreRuns.

(** ** Instances *)

Lemma getOrCreateKey_first_use_witness :
  let b : BrowserOf mac_crypto := mkBrowser None [true; true] in
  fst (getOrCreateKey_calls mac_crypto [[x01]; [x02]; [x03]] b)
  = [Ok (generatedKeyPair mac_crypto [x01]); Ok (generatedKeyPair mac_crypto [x01]);
     Ok (generatedKeyPair mac_crypto [x01])].
Proof.
  intros b.
  assert (Hacc : accessible mac_crypto b) by (repeat constructor).
  exact (proj1 (getOrCreateKey_first_use mac_crypto b [x01] [[x02]; [x03]] Hacc eq_refl)).
Defined.

Lemma getOrCreateKey_read_failure_replaces_witness :
  transaction_fails mac_crypto demo_browser_read_fails = true
  /\ idb_slot demo_browser_read_fails = Some demo_keyPair
  /\ fst (getOrCreateKey_calls mac_crypto [[x01]; [x02]] demo_browser_read_fails)
     = [Ok (generatedKeyPair mac_crypto [x01]); Ok (generatedKeyPair mac_crypto [x01])]
  /\ idb_slot (snd (getOrCreateKey_calls mac_crypto [[x01]; [x02]] demo_browser_read_fails))
     = Some (generatedKeyPair mac_crypto [x01]).
Proof.
  assert (Hfail : transaction_fails mac_crypto demo_browser_read_fails = true)
    by reflexivity.
  assert (Hacc : accessible mac_crypto (snd (getStoredKey mac_crypto demo_browser_read_fails)))
    by constructor.
  exact (conj Hfail (conj eq_refl
           (getOrCreateKey_read_failure_replaces mac_crypto demo_browser_read_fails
              [x01] [[x02]] Hfail Hacc))).
Defined.

(* ===================================================================== *)
(** * Texture names *)
(* ===================================================================== *)

Lemma string_length_append (a b : string) :
  String.length (a ++ b) = (String.length a + String.length b)%nat.
Proof. induction a as [|c a IH]; simpl; [reflexivity | now rewrite IH]. Qed.

(** Two texts with suffixes of one length are equal only part by part. *)
Lemma string_append_inj_suffix (a b c d : string) :
  String.length c = String.length d ->
  (a ++ c = b ++ d)%string -> a = b /\ c = d.
Proof.
  intros Hlen. revert b. induction a as [|x a IH]; intros [|y b] H.
  - auto.
  - exfalso. apply (f_equal String.length) in H.
    rewrite !string_length_append in H. simpl in H. lia.
  - exfalso. apply (f_equal String.length) in H.
    rewrite !string_length_append in H. simpl in H. lia.
  - change (String x (a ++ c) = String y (b ++ d))%string in H.
    injection H as -> H. destruct (IH b H) as [-> ->]. auto.
Qed.

(** The three digits of a texture index in range. *)
Lemma texture_digits (colorIndex skinTone : Z) :
  0 <= skinTone < 9 -> 0 <= colorIndex <= 4 ->
  padStart 3 "0" (Number_toString (skinTone / 3 * 100 + Z.rem skinTone 3 * 10 + colorIndex))
  = (Number_toString (skinTone / 3) ++ Number_toString (skinTone mod 3)
     ++ Number_toString colorIndex)%string.
Proof.
  intros Hs Hc.
  assert (Hs' : skinTone = 0 \/ skinTone = 1 \/ skinTone = 2 \/ skinTone = 3
                \/ skinTone = 4 \/ skinTone = 5 \/ skinTone = 6 \/ skinTone = 7
                \/ skinTone = 8) by lia.
  assert (Hc' : colorIndex = 0 \/ colorIndex = 1 \/ colorIndex = 2 \/ colorIndex = 3
                \/ colorIndex = 4) by lia.
  clear Hs Hc.
  repeat (destruct Hs' as [-> | Hs']); try subst skinTone;
    repeat (destruct Hc' as [-> | Hc']); try subst colorIndex; reflexivity.
Qed.

Lemma texture_digits_length (colorIndex skinTone : Z) :
  0 <= skinTone < 9 -> 0 <= colorIndex <= 4 ->
  String.length
    (padStart 3 "0" (Number_toString (skinTone / 3 * 100 + Z.rem skinTone 3 * 10
                                      + colorIndex))) = 3%nat.
Proof.
  intros Hs Hc.
  assert (Hs' : skinTone = 0 \/ skinTone = 1 \/ skinTone = 2 \/ skinTone = 3
                \/ skinTone = 4 \/ skinTone = 5 \/ skinTone = 6 \/ skinTone = 7
                \/ skinTone = 8) by lia.
  assert (Hc' : colorIndex = 0 \/ colorIndex = 1 \/ colorIndex = 2 \/ colorIndex = 3
                \/ colorIndex = 4) by lia.
  clear Hs Hc.
  repeat (destruct Hs' as [-> | Hs']); try subst skinTone;
    repeat (destruct Hc' as [-> | Hc']); try subst colorIndex; reflexivity.
Qed.

(** The index a three-digit suffix stands for. *)
Lemma texture_digits_inj (c1 s1 c2 s2 : Z) :
  0 <= s1 < 9 -> 0 <= c1 <= 4 -> 0 <= s2 < 9 -> 0 <= c2 <= 4 ->
  padStart 3 "0" (Number_toString (s1 / 3 * 100 + Z.rem s1 3 * 10 + c1))
  = padStart 3 "0" (Number_toString (s2 / 3 * 100 + Z.rem s2 3 * 10 + c2)) ->
  c1 = c2 /\ s1 = s2.
Proof.
  intros Hs1 Hc1 Hs2 Hc2 H.
  rewrite !texture_digits in H by assumption.
  assert (Hdigit : forall a b, 0 <= a < 10 -> 0 <= b < 10 ->
                               Number_toString a = Number_toString b -> a = b).
  { intros a b Ha Hb Hab.
    assert (Ha' : a = 0 \/ a = 1 \/ a = 2 \/ a = 3 \/ a = 4 \/ a = 5 \/ a = 6 \/ a = 7
                  \/ a = 8 \/ a = 9) by lia.
    assert (Hb' : b = 0 \/ b = 1 \/ b = 2 \/ b = 3 \/ b = 4 \/ b = 5 \/ b = 6 \/ b = 7
                  \/ b = 8 \/ b = 9) by lia.
    clear Ha Hb.
    repeat (destruct Ha' as [-> | Ha']); try subst a;
      repeat (destruct Hb' as [-> | Hb']); try subst b;
      first [reflexivity | discriminate Hab]. }
  assert (Hlen : forall a, 0 <= a < 10 -> String.length (Number_toString a) = 1%nat).
  { intros a Ha.
    assert (Ha' : a = 0 \/ a = 1 \/ a = 2 \/ a = 3 \/ a = 4 \/ a = 5 \/ a = 6 \/ a = 7
                  \/ a = 8 \/ a = 9) by lia.
    clear Ha. repeat (destruct Ha' as [-> | Ha']); try subst a; reflexivity. }
  assert (Hq1 : 0 <= s1 / 3 < 10) by (split; [apply Z.div_pos; lia | apply Z.div_lt_upper_bound; lia]).
  assert (Hq2 : 0 <= s2 / 3 < 10) by (split; [apply Z.div_pos; lia | apply Z.div_lt_upper_bound; lia]).
  assert (Hr1 : 0 <= s1 mod 3 < 3) by (apply Z.mod_pos_bound; lia).
  assert (Hr2 : 0 <= s2 mod 3 < 3) by (apply Z.mod_pos_bound; lia).
  destruct (Number_toString (s1 / 3)) as [|a1 [|? ?]] eqn:E1;
    try (pose proof (Hlen _ Hq1) as L; rewrite E1 in L; discriminate L).
  destruct (Number_toString (s2 / 3)) as [|a2 [|? ?]] eqn:E2;
    try (pose proof (Hlen _ Hq2) as L; rewrite E2 in L; discriminate L).
  destruct (Number_toString (s1 mod 3)) as [|b1 [|? ?]] eqn:E3;
    try (pose proof (Hlen (s1 mod 3) ltac:(lia)) as L; rewrite E3 in L; discriminate L).
  destruct (Number_toString (s2 mod 3)) as [|b2 [|? ?]] eqn:E4;
    try (pose proof (Hlen (s2 mod 3) ltac:(lia)) as L; rewrite E4 in L; discriminate L).
  cbn in H. injection H as -> -> Hc.
  assert (Hq : s1 / 3 = s2 / 3) by (apply Hdigit; [lia | lia | congruence]).
  assert (Hr : s1 mod 3 = s2 mod 3) by (apply Hdigit; [lia | lia | congruence]).
  split.
  - apply Hdigit; [lia | lia | exact Hc].
  - rewrite (Z.div_mod s1 3), (Z.div_mod s2 3) by lia. rewrite Hq, Hr. reflexivity.
Qed.

(** X18. The name of a texture is the variation, an underscore and three
    digits: the skin tone's group of three, its place in the group, and the
    colour, for the nine skin tones and five colours of the configuration;
    it is four characters longer than the variation. *)
Theorem getTextureName_digits (variation : string) (colorIndex skinTone : Z) :
  0 <= skinTone < 9 -> 0 <= colorIndex <= 4 ->
  getTextureName variation colorIndex skinTone
  = (variation ++ "_" ++ Number_toString (skinTone / 3)
     ++ Number_toString (skinTone mod 3) ++ Number_toString colorIndex)%string
  /\ String.length (getTextureName variation colorIndex skinTone)
     = (String.length variation + 4)%nat.
Proof.
  intros Hs Hc. unfold getTextureName. cbv zeta. split.
  - rewrite texture_digits by assumption. reflexivity.
  - rewrite !string_length_append, texture_digits_length by assumption. simpl. lia.
Qed.

(** X19. Within those ranges the texture name determines the variation,
    the colour and the skin tone. *)
Theorem getTextureName_injective (v1 v2 : string) (c1 s1 c2 s2 : Z) :
  0 <= s1 < 9 -> 0 <= c1 <= 4 -> 0 <= s2 < 9 -> 0 <= c2 <= 4 ->
  getTextureName v1 c1 s1 = getTextureName v2 c2 s2 ->
  v1 = v2 /\ c1 = c2 /\ s1 = s2.
Proof.
  intros Hs1 Hc1 Hs2 Hc2 H. unfold getTextureName in H. cbv zeta in H.
  apply string_append_inj_suffix in H.
  - destruct H as [-> H]. split; [reflexivity|].
    change ("_" ++ ?x)%string with (String "_" x) in H. injection H as H.
    exact (texture_digits_inj c1 s1 c2 s2 Hs1 Hc1 Hs2 Hc2 H).
  - rewrite !string_length_append, !texture_digits_length by assumption. reflexivity.
Qed.

(** X20. [findCharacterClass] returns the first class with the given id,
    races taken in order, and null only when no race has such a class; this
    holds for any table of races. *)
Theorem findCharacterClass_in_spec (races : list RaceConfig) (classId : string) :
  match findCharacterClass_in races classId with
  | Some found =>
      class_id found = classId
      /\ exists before race after,
           races = before ++ race :: after
           /\ In found (classes race)
           /\ (forall earlier c, In earlier before -> In c (classes earlier) ->
                                 class_id c <> classId)
  | None =>
      forall race c, In race races -> In c (classes race) -> class_id c <> classId
  end.
Proof.
  induction races as [|race rest IH]; cbn [findCharacterClass_in].
  - intros race c [].
  - destruct (find (fun c => String.eqb (class_id c) classId) (classes race))
      as [found|] eqn:Hfind.
    + apply find_some in Hfind. destruct Hfind as [Hin Heq].
      apply String.eqb_eq in Heq. split; [exact Heq|].
      exists [], race, rest. repeat split; [exact Hin|]. intros earlier c [].
    + assert (Hnone : forall c, In c (classes race) -> class_id c <> classId).
      { intros c Hin Heq. apply (find_none _ _ Hfind) in Hin.
        apply String.eqb_neq in Hin. contradiction. }
      destruct (findCharacterClass_in rest classId) as [found|].
      * destruct IH as (Hid & before & race' & after & -> & Hin & Hearlier).
        split; [exact Hid|].
        exists (race :: before), race', after. repeat split; [exact Hin|].
        intros earlier c [<- | Hb] Hc; [now apply Hnone | now apply (Hearlier earlier)].
      * intros race' c [<- | Hr] Hc; [now apply Hnone | now apply (IH race')].
Qed.

(** ** Instances *)

Lemma getTextureName_digits_witness :
  getTextureName "pc_000" 3 7 = "pc_000_213"%string.
Proof.
  assert (H1 : 0 <= 7 < 9) by lia. assert (H2 : 0 <= 3 <= 4) by lia.
  exact (proj1 (getTextureName_digits "pc_000" 3 7 H1 H2)).
Defined.

Lemma getTextureName_injective_witness :
  getTextureName "pc_000" (1 + 2) 7 = getTextureName "pc_000" 3 (8 - 1)
  /\ 1 + 2 = 3 /\ 7 = 8 - 1.
Proof.
  assert (H1 : 0 <= 7 < 9) by lia. assert (H2 : 0 <= 1 + 2 <= 4) by lia.
  assert (H3 : 0 <= 8 - 1 < 9) by lia. assert (H4 : 0 <= 3 <= 4) by lia.
  assert (H : getTextureName "pc_000" (1 + 2) 7 = getTextureName "pc_000" 3 (8 - 1))
    by reflexivity.
  exact (conj H (proj2 (getTextureName_injective "pc_000" "pc_000" (1 + 2) 7 3 (8 - 1)
                          H1 H2 H3 H4 H))).
Defined.

Lemma findCharacterClass_in_spec_witness :
  (exists found, findCharacterClass "RAcast" = Some found /\ class_id found = "RAcast"%string)
  /\ findCharacterClass "RAnewm" = None
  /\ class_id (mkCharacterClass "HUmar" "HUmar" "pc_00"
                 ["pc_000"; "pc_001"; "pc_002"; "pc_003"] class_colors 9)
     <> "RAnewm"%string.
Proof.
  pose proof (findCharacterClass_in_spec CHARACTER_RACES "RAcast") as Hsome.
  pose proof (findCharacterClass_in_spec CHARACTER_RACES "RAnewm") as Hnone.
  fold (findCharacterClass "RAcast") in Hsome. fold (findCharacterClass "RAnewm") in Hnone.
  destruct (findCharacterClass "RAcast") as [found|] eqn:E1; [|discriminate E1].
  destruct (findCharacterClass "RAnewm") as [other|] eqn:E2; [discriminate E2|].
  destruct Hsome as [Hid _].
  split; [exists found; split; [reflexivity | exact Hid]|]. split; [reflexivity|].
  apply (Hnone (mkRaceConfig "human" "Human"
                  [mkCharacterClass "HUmar" "HUmar" "pc_00"
                     ["pc_000"; "pc_001"; "pc_002"; "pc_003"] class_colors 9;
                   mkCharacterClass "HUmarl" "HUmarl" "pc_01"
                     ["pc_010"; "pc_011"; "pc_012"; "pc_013"] class_colors 9;
                   mkCharacterClass "RAmar" "RAmar" "pc_02"
                     ["pc_020"; "pc_021"; "pc_022"; "pc_023"] class_colors 9;
                   mkCharacterClass "RAmarl" "RAmarl" "pc_03"
                     ["pc_030"; "pc_031"; "pc_032"; "pc_033"] class_colors 9;
                   mkCharacterClass "FOmar" "FOmar" "pc_04"
                     ["pc_040"; "pc_041"; "pc_042"; "pc_043"] class_colors 9;
                   mkCharacterClass "FOmarl" "FOmarl" "pc_05"
                     ["pc_050"; "pc_051"; "pc_052"; "pc_053"] class_colors 9])).
  - now left.
  - now left.
Defined.

(* ===================================================================== *)
(** * The asset cache *)
(* ===================================================================== *)

Lemma cache_call_frame (st : AssetStore) :
  glbCache (snd (cache_call st)) = glbCache st
  /\ textureCache (snd (cache_call st)) = textureCache st
  /\ objectURLs (snd (cache_call st)) = objectURLs st.
Proof.
  unfold cache_call. destruct (cache_outcomes st) as [|ok rest]; cbn; auto.
Qed.

Lemma cache_call_succeeds (st : AssetStore) :
  head (cache_outcomes st) <> Some false -> fst (cache_call st) = inr tt.
Proof.
  unfold cache_call. destruct (cache_outcomes st) as [|[|] rest]; cbn; congruence.
Qed.

Lemma cache_of_frame (i : instance) (st st' : AssetStore) :
  glbCache st' = glbCache st -> textureCache st' = textureCache st ->
  cache_of i st' = cache_of i st.
Proof. intros Hg Ht. destruct i; cbn; assumption. Qed.

Lemma cache_of_set_cache_of (i i' : instance) f (st : AssetStore) :
  cache_of i' (set_cache_of i f st)
  = match i, i' with
    | glb, glb | texture, texture => f (cache_of i' st)
    | _, _ => cache_of i' st
    end.
Proof. destruct i, i'; reflexivity. Qed.

(** A load that returns an object URL: the URL stands for a blob, and that
    blob is cached under the asset's URL in the loader's instance. *)
Lemma load_returns_cached
    (i : instance) (network : Network) (now : Z) (url : string)
    (st st1 : AssetStore) (objectURL : nat) :
  load i network now url st = (inr objectURL, st1) ->
  exists blob entry,
    blob_of objectURL st1 = Some blob
    /\ cache_of i st1 !! url = Some entry
    /\ ca_blob entry = Some blob.
Proof.
  unfold load, createObjectURL, blob_of.
  destruct (cache_call_frame st) as (Hg & Ht & Ho).
  destruct (cache_call st) as [[e|[]] sa]; [discriminate|]. cbn [snd] in *.
  destruct (cache_of i sa !! url) as [[u [blob|] t]|] eqn:Hc.
  - intros [= <- <-]. exists blob, (mkCachedAsset u (Some blob) t). cbn.
    split; [apply list_lookup_middle; reflexivity|].
    split; [|reflexivity].
    rewrite <- Hc. destruct i; reflexivity.
  - destruct (network url) as [e|response]; [discriminate|].
    destruct (resp_ok response); [|discriminate].
    destruct (resp_blob response) as [e|blob]; [discriminate|].
    destruct (cache_call_frame sa) as (Hg' & Ht' & Ho').
    destruct (cache_call sa) as [[e|[]] sb]; [discriminate|]. cbn [snd] in *.
    intros [= <- <-]. exists blob, (mkCachedAsset url (Some blob) now).
    split; [destruct i; cbn; apply list_lookup_middle; reflexivity|].
    split; [|reflexivity].
    destruct i; cbn; apply lookup_insert_eq.
  - destruct (network url) as [e|response]; [discriminate|].
    destruct (resp_ok response); [|discriminate].
    destruct (resp_blob response) as [e|blob]; [discriminate|].
    destruct (cache_call_frame sa) as (Hg' & Ht' & Ho').
    destruct (cache_call sa) as [[e|[]] sb]; [discriminate|]. cbn [snd] in *.
    intros [= <- <-]. exists blob, (mkCachedAsset url (Some blob) now).
    split; [destruct i; cbn; apply list_lookup_middle; reflexivity|].
    split; [|reflexivity].
    destruct i; cbn; apply lookup_insert_eq.
Qed.

(** A load of an asset that is cached with its blob does not look at the
    network. *)
Lemma load_hit
    (i : instance) (network : Network) (now : Z) (url : string)
    (st : AssetStore) (entry : CachedAsset) (blob : Blob) :
  head (cache_outcomes st) <> Some false ->
  cache_of i st !! url = Some entry ->
  ca_blob entry = Some blob ->
  fst (load i network now url st) = inr (length (objectURLs st))
  /\ blob_of (length (objectURLs st)) (snd (load i network now url st)) = Some blob
  /\ glbCache (snd (load i network now url st)) = glbCache st
  /\ textureCache (snd (load i network now url st)) = textureCache st.
Proof.
  intros Hok Hc Hb. unfold load, createObjectURL, blob_of.
  pose proof (cache_call_succeeds st Hok) as Hcall.
  destruct (cache_call_frame st) as (Hg & Ht & Ho).
  destruct (cache_call st) as [r sa]. cbn [fst snd] in *. subst r.
  rewrite (cache_of_frame i st sa Hg Ht), Hc.
  destruct entry as [u b t]. cbn in Hb. subst b. cbn. rewrite Ho.
  repeat split; try assumption. apply list_lookup_middle. reflexivity.
Qed.

(** X21. Once loaded, an asset needs no network: after [loadGLB] or
    [loadTexture] returned an object URL for an asset, a later call for the
    same asset whose cache read succeeds returns an object URL for the same
    blob whatever the network does then, and leaves both caches as they
    are. *)
Theorem load_cached_offline
    (i : instance) (network network' : Network) (now now' : Z) (url : string)
    (st st1 : AssetStore) (objectURL : nat) :
  load i network now url st = (inr objectURL, st1) ->
  head (cache_outcomes st1) <> Some false ->
  exists blob objectURL',
    blob_of objectURL st1 = Some blob
    /\ fst (load i network' now' url st1) = inr objectURL'
    /\ blob_of objectURL' (snd (load i network' now' url st1)) = Some blob
    /\ glbCache (snd (load i network' now' url st1)) = glbCache st1
    /\ textureCache (snd (load i network' now' url st1)) = textureCache st1.
Proof.
  intros Hload Hok.
  destruct (load_returns_cached i network now url st st1 objectURL Hload)
    as (blob & entry & Hurl & Hc & Hb).
  exists blob, (length (objectURLs st1)). split; [exact Hurl|].
  exact (load_hit i network' now' url st1 entry blob Hok Hc Hb).
Qed.

(** X22. A load writes at most the entry of its asset in its own
    instance, and never removes an object URL; a load that throws, be it at
    the cache, at the network or at a full cache after the download, writes
    nothing at all. *)
Theorem load_frame
    (i : instance) (network : Network) (now : Z) (url : string) (st : AssetStore) :
  let st' := snd (load i network now url st) in
  (forall i' url', (i', url') <> (i, url) ->
                   cache_of i' st' !! url' = cache_of i' st !! url')
  /\ (forall objectURL blob, blob_of objectURL st = Some blob ->
                             blob_of objectURL st' = Some blob)
  /\ match fst (load i network now url st) with
     | inl _ =>
         glbCache st' = glbCache st /\ textureCache st' = textureCache st
         /\ objectURLs st' = objectURLs st
     | inr objectURL => objectURL = length (objectURLs st)
     end.
Proof.
  unfold load, createObjectURL, blob_of.
  destruct (cache_call_frame st) as (Hg & Ht & Ho).
  destruct (cache_call st) as [[e|[]] sa]; cbn [fst snd] in *.
  { split; [intros i' url' _; now rewrite (cache_of_frame i' st sa)|].
    split; [intros u b; now rewrite Ho | auto]. }
  assert (Hmiss :
    let r := match network url with
             | inl e => (inl e, sa)
             | inr response =>
                 if negb (resp_ok response)
                 then (inl (HttpError url (resp_statusText response)), sa)
                 else match resp_blob response with
                      | inl e => (inl e, sa)
                      | inr blob =>
                          match cache_call sa with
                          | (inl e, st2) => (inl e, st2)
                          | (inr _, st2) =>
                              (inr (length (objectURLs
                                      (set_cache_of i
                                         (insert url (mkCachedAsset url (Some blob) now))
                                         st2))),
                               mkAssetStore
                                 (glbCache (set_cache_of i
                                    (insert url (mkCachedAsset url (Some blob) now)) st2))
                                 (textureCache (set_cache_of i
                                    (insert url (mkCachedAsset url (Some blob) now)) st2))
                                 (cache_outcomes (set_cache_of i
                                    (insert url (mkCachedAsset url (Some blob) now)) st2))
                                 (objectURLs (set_cache_of i
                                    (insert url (mkCachedAsset url (Some blob) now)) st2)
                                  ++ [blob]))
                          end
                      end
             end in
    (forall i' url', (i', url') <> (i, url) ->
                     cache_of i' (snd r) !! url' = cache_of i' st !! url')
    /\ (forall objectURL blob, objectURLs st !! objectURL = Some blob ->
                               objectURLs (snd r) !! objectURL = Some blob)
    /\ match fst r with
       | inl _ =>
           glbCache (snd r) = glbCache st /\ textureCache (snd r) = textureCache st
           /\ objectURLs (snd r) = objectURLs st
       | inr objectURL => objectURL = length (objectURLs st)
       end).
  { assert (Hsame : (forall i' url', (i', url') <> (i, url) ->
                                     cache_of i' sa !! url' = cache_of i' st !! url')
                    /\ (forall objectURL blob, objectURLs st !! objectURL = Some blob ->
                                               objectURLs sa !! objectURL = Some blob)
                    /\ glbCache sa = glbCache st /\ textureCache sa = textureCache st
                       /\ objectURLs sa = objectURLs st).
    { split; [intros i' url' _; now rewrite (cache_of_frame i' st sa)|].
      split; [intros u b; now rewrite Ho | auto]. }
    destruct (network url) as [e|response]; [exact Hsame|].
    destruct (resp_ok response); cbn [negb]; [|exact Hsame].
    destruct (resp_blob response) as [e|blob]; [exact Hsame|].
    destruct (cache_call_frame sa) as (Hg' & Ht' & Ho').
    destruct (cache_call sa) as [[e|[]] sb]; cbn [fst snd] in *.
    - split; [intros i' url' _; rewrite (cache_of_frame i' sa sb) by assumption;
              now rewrite (cache_of_frame i' st sa)|].
      split; [intros u b; now rewrite Ho', Ho|].
      repeat split; congruence.
    - split.
      + intros i' url' Hne.
        transitivity (cache_of i' (set_cache_of i
                        (insert url (mkCachedAsset url (Some blob) now)) sb) !! url').
        { destruct i, i'; reflexivity. }
        rewrite cache_of_set_cache_of.
        rewrite (cache_of_frame i' sa sb Hg' Ht'), (cache_of_frame i' st sa Hg Ht).
        destruct i, i'; try reflexivity;
          (apply lookup_insert_ne; intros ->; now apply Hne).
      + split.
        * intros u b Hu.
          replace (objectURLs (set_cache_of i _ sb)) with (objectURLs st)
            by (destruct i; cbn; congruence).
          apply lookup_app_l_Some. exact Hu.
        * destruct i; cbn; congruence. }
  cbv zeta in Hmiss.
  destruct (cache_of i sa !! url) as [[u [blob|] t]|] eqn:Hc; try exact Hmiss.
  cbn [fst snd].
  split; [intros i' url' _; destruct i'; cbn; congruence|].
  split; [|congruence].
  intros objectURL b Hu. cbn. rewrite Ho. apply lookup_app_l_Some. exact Hu.
Qed.

Lemma getCacheStats_counts (st : AssetStore) :
  match fst (getCacheStats st) with
  | inr stats =>
      glbCount stats = size (glbCache st) /\ textureCount stats = size (textureCache st)
  | inl e => e = CacheError
  end.
Proof.
  unfold getCacheStats, cache_call.
  destruct st as [g t outcomes urls]. cbn.
  destruct outcomes as [|[|] [|[|] rest]]; cbn; auto.
Qed.

(** X23. [clearCache] clears the GLB instance, then the texture instance:
    when it returns, both are empty and [getCacheStats], unless it throws,
    counts zero and zero; when it throws, the texture instance is untouched
    while the GLB instance is untouched or already empty. Object URLs handed
    out before stay valid either way. *)
Theorem clearCache_effect (st : AssetStore) :
  let st' := snd (clearCache st) in
  objectURLs st' = objectURLs st
  /\ match fst (clearCache st) with
     | inr _ =>
         glbCache st' = ∅ /\ textureCache st' = ∅
         /\ (fst (getCacheStats st') = inr (mkCacheStats 0 0)
             \/ fst (getCacheStats st') = inl CacheError)
     | inl _ =>
         textureCache st' = textureCache st
         /\ (glbCache st' = glbCache st \/ glbCache st' = ∅)
     end.
Proof.
  unfold clearCache.
  destruct (cache_call_frame st) as (Hg & Ht & Ho).
  destruct (cache_call st) as [[e|[]] sa]; cbn [fst snd] in *; [auto|].
  set (s2 := set_cache_of glb (fun _ => ∅) sa).
  assert (H2g : glbCache s2 = ∅) by reflexivity.
  assert (H2t : textureCache s2 = textureCache sa) by reflexivity.
  assert (H2o : objectURLs s2 = objectURLs sa) by reflexivity.
  clearbody s2.
  destruct (cache_call_frame s2) as (Hg' & Ht' & Ho').
  destruct (cache_call s2) as [[e|[]] sb]; cbn [fst snd] in *.
  - split; [congruence|]. split; [congruence|]. right. congruence.
  - set (sc := set_cache_of texture (fun _ => ∅) sb).
    assert (Hgc : glbCache sc = ∅) by (cbn; congruence).
    assert (Htc : textureCache sc = ∅) by reflexivity.
    assert (Hoc : objectURLs sc = objectURLs st) by (cbn; congruence).
    clearbody sc.
    split; [exact Hoc|]. split; [exact Hgc|]. split; [exact Htc|].
    pose proof (getCacheStats_counts sc) as Hstats.
    destruct (fst (getCacheStats sc)) as [e|[g t]]; [right; congruence|].
    left. cbn in Hstats. destruct Hstats as [-> ->].
    rewrite Hgc, Htc, !map_size_empty. reflexivity.
Qed.

(** ** Instances *)

Lemma load_cached_offline_witness :
  loadGLB demo_network 1000 (getModelPath "pc_000") empty_store
  = (inr 0%nat, snd (loadGLB demo_network 1000 (getModelPath "pc_000") empty_store))
  /\ exists blob objectURL',
       blob_of 0 (snd (loadGLB demo_network 1000 (getModelPath "pc_000") empty_store))
       = Some blob
       /\ fst (loadGLB offline 2000 (getModelPath "pc_000")
                 (snd (loadGLB demo_network 1000 (getModelPath "pc_000") empty_store)))
          = inr objectURL'
       /\ blob_of objectURL'
            (snd (loadGLB offline 2000 (getModelPath "pc_000")
                    (snd (loadGLB demo_network 1000 (getModelPath "pc_000") empty_store))))
          = Some blob.
Proof.
  assert (H : loadGLB demo_network 1000 (getModelPath "pc_000") empty_store
              = (inr 0%nat,
                 snd (loadGLB demo_network 1000 (getModelPath "pc_000") empty_store)))
    by reflexivity.
  assert (Hok : head (cache_outcomes
                        (snd (loadGLB demo_network 1000 (getModelPath "pc_000") empty_store)))
                <> Some false) by discriminate.
  destruct (load_cached_offline glb demo_network offline 1000 2000 (getModelPath "pc_000")
              empty_store _ 0%nat H Hok)
    as (blob & objectURL' & H1 & H2 & H3 & _).
  exact (conj H (ex_intro _ blob (ex_intro _ objectURL' (conj H1 (conj H2 H3))))).
Defined.

Lemma load_frame_witness :
  let st := snd (loadGLB demo_network 1000 (getModelPath "pc_000") empty_store) in
  let st' := snd (loadTexture demo_network 2000 (getTexturePath "pc_000" "pc_000_000") st) in
  fst (loadTexture demo_network 2000 (getTexturePath "pc_000" "pc_000_000") st)
  = inl (HttpError (getTexturePath "pc_000" "pc_000_000") "Not Found")
  /\ glbCache st' = glbCache st /\ textureCache st' = textureCache st
  /\ blob_of 0 st' = Some [x67; x6c; x54; x46].
Proof.
  intros st st'.
  destruct (load_frame texture demo_network 2000 (getTexturePath "pc_000" "pc_000_000") st)
    as (_ & Hurls & Hthrow).
  fold (loadTexture demo_network 2000 (getTexturePath "pc_000" "pc_000_000") st)
    in Hurls, Hthrow.
  fold st' in Hurls, Hthrow.
  destruct (fst (loadTexture demo_network 2000 (getTexturePath "pc_000" "pc_000_000") st))
    as [e|objectURL] eqn:E; [|discriminate E].
  destruct Hthrow as (Hg & Ht & _).
  assert (Hblob : blob_of 0 st = Some [x67; x6c; x54; x46]) by reflexivity.
  injection E as <-.
  exact (conj eq_refl (conj Hg (conj Ht (Hurls 0%nat _ Hblob)))).
Defined.

(* ===================================================================== *)
(** * The database connection and the characters endpoints *)
(* ===================================================================== *)

(** ** What initialization leaves alone *)

Lemma same_data_refl (b : Backend) : same_data b b.
Proof. repeat split. Qed.

Lemma same_data_trans (b1 b2 b3 : Backend) :
  same_data b1 b2 -> same_data b2 b3 -> same_data b1 b3.
Proof. unfold same_data. intros (? & ? & ?) (? & ? & ?). repeat split; congruence. Qed.

(** Initialization writes nothing but [db_collections]. *)
Section InitializationFrame.

Variable P : Backend -> Prop.
Hypothesis P_set_db_collections : forall b f, P b -> P (set_db_collections f b).

Lemma createIndex_preserves name key options (b : Backend) :
  P b -> P (snd (createIndex name key options b)).
Proof.
  intros H. unfold createIndex, driver.
  destruct (mongo_reachable (server b)); [|exact H].
  destruct (existsb (index_eqb _) _); [exact H|].
  destruct (existsb (fun i => _ || _) _); [exact H|].
  destruct (has_duplicates _ _); [exact H|]. now apply P_set_db_collections.
Qed.

Lemma ensure_indexes_preserves name indexes (b : Backend) :
  P b -> P (snd (ensure_indexes name indexes b)).
Proof.
  revert b. induction indexes as [|index rest IH]; intros b H; [exact H|].
  cbn [ensure_indexes]. unfold mbind.
  pose proof (createIndex_preserves name (def_key index) (createIndex_options index) b H)
    as H1.
  destruct (createIndex name _ _ b) as [[[]|e] b1]; cbn [snd] in *; [|exact H1].
  now apply IH.
Qed.

Lemma initializeCollection_preserves definition (b : Backend) :
  P b -> P (snd (initializeCollection definition b)).
Proof.
  intros H. unfold initializeCollection, mbind, driver at 1.
  destruct (mongo_reachable (server b)) eqn:Hr; [|exact H].
  destruct (collection_exists (coll_name definition) b); cbn [negb].
  - assert (H1 : P (snd (collMod (coll_name definition) b))).
    { unfold collMod, driver. rewrite Hr.
      destruct (db_collMod b); try exact H. now apply P_set_db_collections. }
    destruct (collMod (coll_name definition) b) as [[[]|e] b1]; cbn [snd] in *.
    + now apply ensure_indexes_preserves.
    + destruct (_ && _); [|exact H1]. now apply ensure_indexes_preserves.
  - assert (H1 : P (snd (createCollection (coll_name definition) b))).
    { unfold createCollection, driver. rewrite Hr.
      destruct (collection_exists _ b); [exact H|]. now apply P_set_db_collections. }
    destruct (createCollection (coll_name definition) b) as [[[]|e] b1]; cbn [snd] in *;
      [|exact H1].
    now apply ensure_indexes_preserves.
Qed.

Lemma initialize_all_preserves definitions (b : Backend) :
  P b -> P (snd (initialize_all definitions b)).
Proof.
  revert b. induction definitions as [|definition rest IH]; intros b H; [exact H|].
  cbn [initialize_all]. unfold mbind.
  pose proof (initializeCollection_preserves definition b H) as H1.
  destruct (initializeCollection definition b) as [[[]|e] b1]; cbn [snd] in *; [|exact H1].
  now apply IH.
Qed.

End InitializationFrame.

Lemma connectToDatabase_same_data (b : Backend) :
  same_data b (snd (connectToDatabase b)).
Proof.
  unfold connectToDatabase. destruct (cachedDb b); [apply same_data_refl|].
  destruct (mongo_reachable (server b)); cbn [negb]; [|apply same_data_refl].
  destruct (collectionsInitialized (set_cachedDb true b)); cbn [negb]; [repeat split|].
  assert (H : same_data b (snd (initializeCollections (set_cachedDb true b)))).
  { apply (initialize_all_preserves (same_data b)); [intros b0 f H; exact H | repeat split]. }
  destruct (initializeCollections (set_cachedDb true b)) as [[[]|e] b1];
    cbn [snd] in *; exact H.
Qed.

Lemma connectToDatabase_cached (b : Backend) :
  cachedDb b = true -> connectToDatabase b = (Ok tt, b).
Proof. intros H. unfold connectToDatabase. rewrite H. reflexivity. Qed.

Lemma initializeCollections_module_variables (b : Backend) :
  cachedDb (snd (initializeCollections b)) = cachedDb b
  /\ collectionsInitialized (snd (initializeCollections b)) = collectionsInitialized b.
Proof.
  apply (initialize_all_preserves
           (fun b' => cachedDb b' = cachedDb b
                      /\ collectionsInitialized b' = collectionsInitialized b)).
  - intros b0 f H. exact H.
  - split; reflexivity.
Qed.

Lemma connectToDatabase_Ok_cached (b : Backend) :
  fst (connectToDatabase b) = Ok tt -> cachedDb (snd (connectToDatabase b)) = true.
Proof.
  unfold connectToDatabase. destruct (cachedDb b) eqn:Hc; [auto|].
  destruct (mongo_reachable (server b)); cbn [negb]; [|discriminate].
  intros _.
  destruct (collectionsInitialized (set_cachedDb true b)); cbn [negb]; [reflexivity|].
  destruct (initializeCollections_module_variables (set_cachedDb true b)) as [H _].
  destruct (initializeCollections (set_cachedDb true b)) as [[[]|e] b1];
    cbn [snd] in *; exact H.
Qed.

(** ** The effect of each endpoint on the documents *)

Lemma getUserSession_frame (now : Z) (s : Server) :
  mongo_reachable (snd (getUserSession now s)) = mongo_reachable s
  /\ mongo_users (snd (getUserSession now s)) = mongo_users s.
Proof.
  unfold getUserSession, session_destroy, mbind, ret.
  destruct (astro_session s) as [data|] eqn:Hs; [|auto].
  destruct (data !! "user") as [u|]; [|auto].
  destruct (expiresAt u <? now); auto.
Qed.

Section CharactersFacts.

Variable validator : CharacterDocument -> bool.
Variable ObjectId_isValid : string -> bool.
Variable ObjectId_new : string -> result ObjectId.

Ltac refused :=
  left; split; [cbn; discriminate | cbn; first [reflexivity | assumption]].

(** The document a POST request creates. *)
Lemma characters_POST_effect
    (now createdAt : Z) (newId : ObjectId) (request_json : result RequestBody)
    (b : Backend) :
  let r := fst (characters_POST validator now createdAt newId request_json b) in
  let b' := snd (characters_POST validator now createdAt newId request_json b) in
  (characters_status r <> 201 /\ characters_docs b' = characters_docs b)
  \/ (exists session fields slot class_id name texture,
        fst (getUserSession now (server b)) = Ok (Some session)
        /\ request_json = Ok (BodyObject fields)
        /\ fields !! "slot" = Some (JsInteger slot) /\ 0 <= slot <= 3
        /\ fields !! "class_id" = Some (JsString class_id) /\ In class_id validClasses
        /\ fields !! "name" = Some name /\ truthy_value (Some name) = true
        /\ fields !! "texture_id" = Some texture /\ truthy_value (Some texture) = true
        /\ (forall d, In d (characters_docs b) ->
                      doc_userId d = us_fingerprint session -> doc_slot d = slot ->
                      active d = false)
        /\ (forall d, In d (characters_docs b) -> doc_id d <> newId)
        /\ let doc := mkCharacterDocument newId (us_fingerprint session) name slot class_id
                        texture 1 0 createdAt None in
           r = mkCharactersResponse 201 (CharacterCreated (view_of doc))
           /\ characters_docs b' = characters_docs b ++ [doc]
           /\ (meta_validator (characters_meta (connected now b)) = true ->
               validator doc = true)
           /\ (forall index, In index (meta_indexes (characters_meta (connected now b))) ->
                             duplicate_key index (characters_docs b) doc = false)).
Proof.
  cbv zeta. unfold connected, characters_POST, run_characters, mbind, on_server, ret, lift.
  destruct (getUserSession now (server b)) as [[[session|]|e] s1] eqn:Hs; cbn [fst snd];
    try refused.
  destruct request_json as [[|fields|]|e]; try refused.
  set (b1 := set_server (fun _ => s1) b).
  destruct (fields !! "slot") as [slotv|] eqn:Hslot; [|refused].
  destruct (fields !! "name") as [name|] eqn:Hname; [|refused].
  destruct (truthy_value (Some name)) eqn:Htn; [|refused].
  destruct (fields !! "class_id") as [classv|] eqn:Hclass; [|refused].
  destruct (truthy_value (Some classv)) eqn:Htc; [|refused].
  destruct (fields !! "texture_id") as [texturev|] eqn:Htex; [|refused].
  destruct (truthy_value (Some texturev)) eqn:Htt; [|refused].
  replace (bool_decide (Some slotv = None)) with false
    by (symmetry; apply bool_decide_eq_false; discriminate).
  cbn [negb orb].
  destruct (valid_slot (Some slotv)) as [slot|] eqn:Hvs; [|refused].
  assert (Hslotv : slotv = JsInteger slot /\ 0 <= slot <= 3).
  { unfold valid_slot in Hvs. destruct slotv; try discriminate.
    destruct (Z.ltb_spec z 0); [discriminate|].
    destruct (Z.ltb_spec 3 z); [discriminate|]. cbn in Hvs. injection Hvs as <-.
    split; [reflexivity | lia]. }
  destruct Hslotv as [-> Hrange].
  destruct (includes_class (Some classv)) as [class_id|] eqn:Hic; [|refused].
  assert (Hclassv : classv = JsString class_id /\ In class_id validClasses).
  { unfold includes_class in Hic. destruct classv; try discriminate.
    destruct (existsb (String.eqb s) validClasses) eqn:Hex; [|discriminate].
    injection Hic as <-. split; [reflexivity|].
    apply existsb_exists in Hex. destruct Hex as (x & Hin & Heq).
    apply String.eqb_eq in Heq. now subst x. }
  destruct Hclassv as [-> Hvalid].
  unfold getCollection.
  pose proof (connectToDatabase_same_data b1) as (Hsrv & Hdocs & _).
  change (characters_docs b1) with (characters_docs b) in Hdocs.
  destruct (connectToDatabase b1) as [[[]|e] b2]; cbn [fst snd] in *; [|refused].
  unfold findOne, insertOne, driver.
  destruct (mongo_reachable (server b2)) eqn:Hr; [|refused].
  destruct (find _ (characters_docs b2)) as [existing|] eqn:Hfind; [refused|].
  rewrite Hr.
  destruct (existsb _ (characters_docs b2)) eqn:Hid; [refused|].
  destruct (_ && _) eqn:Hval; [refused|].
  destruct (existsb _ (meta_indexes _)) eqn:Hdup; [refused|].
  right. exists session, fields, slot, class_id, name, texturev. cbn [fst snd default].
  split; [reflexivity|]. split; [reflexivity|]. split; [exact Hslot|].
  split; [exact Hrange|]. split; [exact Hclass|]. split; [exact Hvalid|].
  split; [exact Hname|]. split; [exact Htn|]. split; [exact Htex|]. split; [exact Htt|].
  split; [|split; [|split; [|split; [|split]]]].
  - intros d Hin Hu Hsl. rewrite <- Hdocs in Hin.
    pose proof (find_none _ _ Hfind d Hin) as Hf. cbn beta in Hf.
    rewrite Hu, Hsl, String.eqb_refl, Z.eqb_refl in Hf. exact Hf.
  - intros d Hin Heq. rewrite <- Hdocs in Hin.
    assert (Hex : existsb (fun d0 => String.eqb (doc_id d0) newId) (characters_docs b2)
                  = true).
    { apply existsb_exists. exists d. split; [exact Hin|]. now apply String.eqb_eq. }
    cbn in Hid. congruence.
  - reflexivity.
  - cbn. rewrite Hdocs. reflexivity.
  - intros Hmeta. rewrite Hmeta in Hval. cbn in Hval.
    now apply negb_false_iff in Hval.
  - intros index Hin. rewrite <- Hdocs.
    match goal with |- ?x = false => destruct x eqn:Hd; [|reflexivity] end.
    assert (Hex : existsb
                    (fun index0 => duplicate_key index0 (characters_docs b2)
                       (mkCharacterDocument newId (us_fingerprint session) name slot
                          class_id texturev 1 0 createdAt None))
                    (meta_indexes (characters_meta b2)) = true).
    { apply existsb_exists. exists index. split; [exact Hin | exact Hd]. }
    cbn in Hdup. congruence.
Qed.

(** ** Soft deletion *)

(** [set_deletedAt] rewrites the first document with the [_id], if any. *)
Lemma set_deletedAt_spec (id : ObjectId) (deletedAt : Z) (docs : list CharacterDocument) :
  (set_deletedAt id deletedAt docs = (0, docs)
   /\ forall d, In d docs -> doc_id d <> id)
  \/ exists before d after,
       docs = before ++ d :: after
       /\ doc_id d = id
       /\ (forall x, In x before -> doc_id x <> id)
       /\ set_deletedAt id deletedAt docs
          = ((if bool_decide (doc_deletedAt d = Some deletedAt) then 0 else 1),
             before ++ deleted_at deletedAt d :: after).
Proof.
  induction docs as [|d rest IH]; cbn [set_deletedAt].
  - left. split; [reflexivity | intros d []].
  - destruct (String.eqb_spec (doc_id d) id) as [Heq | Hne].
    + right. exists [], d, rest. repeat split; [exact Heq | intros x []].
    + destruct IH as [[Hz Hall] | (before & d0 & after & -> & Hid & Hbefore & Hset)].
      * left. rewrite Hz. split; [reflexivity|].
        intros x [<- | Hin]; [exact Hne | now apply Hall].
      * right. exists (d :: before), d0, after. rewrite Hset.
        repeat split; [exact Hid|].
        intros x [<- | Hin]; [exact Hne | now apply Hbefore].
Qed.

Lemma set_deletedAt_unmodified (id : ObjectId) (deletedAt : Z)
    (docs : list CharacterDocument) :
  fst (set_deletedAt id deletedAt docs) = 0 -> snd (set_deletedAt id deletedAt docs) = docs.
Proof.
  destruct (set_deletedAt_spec id deletedAt docs)
    as [[-> _] | (before & d & after & -> & _ & _ & ->)]; [reflexivity|].
  cbn [fst snd]. case_bool_decide as Hd; [|discriminate].
  intros _. destruct d. cbn in Hd. subst. reflexivity.
Qed.

(** What a DELETE request does to the documents. *)
Lemma characters_DELETE_effect (now deletedAt : Z) (params_id : option string) (b : Backend) :
  let r := fst (characters_DELETE ObjectId_isValid ObjectId_new now deletedAt params_id b) in
  let b' := snd (characters_DELETE ObjectId_isValid ObjectId_new now deletedAt params_id b) in
  (characters_status r <> 200 /\ characters_docs b' = characters_docs b)
  \/ (exists session characterId id d,
        fst (getUserSession now (server b)) = Ok (Some session)
        /\ params_id = Some characterId
        /\ ObjectId_new characterId = Ok id
        /\ find (fun d => String.eqb (doc_id d) id
                           && String.eqb (doc_userId d) (us_fingerprint session)
                           && active d) (characters_docs b) = Some d
        /\ r = mkCharactersResponse 200 CharacterDeleted
        /\ characters_docs b' = snd (set_deletedAt id deletedAt (characters_docs b))).
Proof.
  cbv zeta. unfold characters_DELETE, run_characters, mbind, on_server, ret, lift.
  destruct (getUserSession now (server b)) as [[[session|]|e] s1] eqn:Hs; cbn [fst snd];
    try refused.
  set (b1 := set_server (fun _ => s1) b).
  destruct params_id as [characterId|]; [|refused].
  destruct (truthy (Some characterId)); cbn [negb]; [|refused].
  change (default EmptyString (Some characterId)) with characterId.
  destruct (ObjectId_isValid characterId); cbn [negb]; [|refused].
  unfold getCollection.
  pose proof (connectToDatabase_same_data b1) as (Hsrv & Hdocs & _).
  change (characters_docs b1) with (characters_docs b) in Hdocs.
  destruct (connectToDatabase b1) as [[[]|e] b2]; cbn [fst snd] in *; [|refused].
  destruct (ObjectId_new characterId) as [id|e] eqn:Hnew; [|refused].
  unfold findOne, updateOne_deletedAt, driver.
  destruct (mongo_reachable (server b2)) eqn:Hr; [|refused].
  destruct (find _ (characters_docs b2)) as [d|] eqn:Hfind; [|refused].
  rewrite Hr.
  destruct (set_deletedAt id deletedAt (characters_docs b2)) as [modifiedCount docs]
    eqn:Hset.
  destruct (Z.eqb_spec modifiedCount 0) as [-> | Hmod].
  - left. split; [cbn; discriminate|]. cbn.
    pose proof (set_deletedAt_unmodified id deletedAt (characters_docs b2)) as Hun.
    rewrite Hset in Hun. cbn in Hun. rewrite Hun by reflexivity. exact Hdocs.
  - right. exists session, characterId, id, d. cbn [fst snd].
    rewrite <- Hdocs, Hset. repeat split; assumption.
Qed.

(** A GET request changes no document; answered 200, it lists the active
    characters of the session's user by slot. *)
Lemma characters_GET_effect (now : Z) (b : Backend) :
  characters_docs (snd (characters_GET now b)) = characters_docs b
  /\ (characters_status (fst (characters_GET now b)) = 200 ->
      exists session,
        fst (getUserSession now (server b)) = Ok (Some session)
        /\ characters_body (fst (characters_GET now b))
           = CharactersList
               (map view_of
                  (sort_by_slot
                     (List.filter
                        (fun d => String.eqb (doc_userId d) (us_fingerprint session)
                                  && active d)
                        (characters_docs b))))).
Proof.
  unfold characters_GET, run_characters, mbind, on_server, ret.
  destruct (getUserSession now (server b)) as [[[session|]|e] s1] eqn:Hs; cbn [fst snd];
    try (split; [reflexivity | cbn; discriminate]).
  set (b1 := set_server (fun _ => s1) b).
  unfold getCollection.
  pose proof (connectToDatabase_same_data b1) as (Hsrv & Hdocs & _).
  change (characters_docs b1) with (characters_docs b) in Hdocs.
  destruct (connectToDatabase b1) as [[[]|e] b2]; cbn [fst snd] in *;
    [|split; [exact Hdocs | cbn; discriminate]].
  unfold find_sorted, driver.
  destruct (mongo_reachable (server b2)); cbn [fst snd];
    [|split; [exact Hdocs | cbn; discriminate]].
  split; [exact Hdocs|]. intros _. exists session. rewrite Hdocs. split; reflexivity.
Qed.

(** ** Creating a character *)

(** X24. A POST request answered 201 was made under a live session, with
    an integer slot from 0 to 3, a class of the list, and a name and a
    texture that are not falsy; the user had no active character in the slot
    and no document had the new [_id]. Exactly one document is appended: it
    belongs to the session's user, is at level 1 with no experience, is not
    deleted, and is the one the response shows. *)
Theorem characters_POST_created
    (now createdAt : Z) (newId : ObjectId) (request_json : result RequestBody)
    (b : Backend) :
  let r := fst (characters_POST validator now createdAt newId request_json b) in
  let b' := snd (characters_POST validator now createdAt newId request_json b) in
  characters_status r = 201 ->
  exists session fields slot class_id name texture,
        fst (getUserSession now (server b)) = Ok (Some session)
        /\ request_json = Ok (BodyObject fields)
        /\ fields !! "slot" = Some (JsInteger slot) /\ 0 <= slot <= 3
        /\ fields !! "class_id" = Some (JsString class_id) /\ In class_id validClasses
        /\ fields !! "name" = Some name /\ truthy_value (Some name) = true
        /\ fields !! "texture_id" = Some texture /\ truthy_value (Some texture) = true
        /\ (forall d, In d (characters_docs b) ->
                      doc_userId d = us_fingerprint session -> doc_slot d = slot ->
                      active d = false)
        /\ (forall d, In d (characters_docs b) -> doc_id d <> newId)
        /\ let doc := mkCharacterDocument newId (us_fingerprint session) name slot class_id
                        texture 1 0 createdAt None in
           r = mkCharactersResponse 201 (CharacterCreated (view_of doc))
           /\ characters_docs b' = characters_docs b ++ [doc]
           /\ (meta_validator (characters_meta (connected now b)) = true ->
               validator doc = true)
           /\ (forall index, In index (meta_indexes (characters_meta (connected now b))) ->
                             duplicate_key index (characters_docs b) doc = false).
Proof.
  intros r b' H201.
  destruct (characters_POST_effect now createdAt newId request_json b) as [[Hno _] | H].
  - contradiction.
  - exact H.
Qed.

(** ** One active character per slot *)







(** ** Ownership and soft deletion *)

Lemma insert_by_slot_In (x d : CharacterDocument) (sorted : list CharacterDocument) :
  In x (insert_by_slot d sorted) <-> x = d \/ In x sorted.
Proof.
  induction sorted as [|d' rest IH]; cbn [insert_by_slot].
  - cbn. split; [intros [<- | []]; now left | intros [-> | []]; now left].
  - destruct (doc_slot d <=? doc_slot d'); cbn [In].
    + split; [intros [<- | H]; [now left | now right] | intros [-> | H]; [now left | now right]].
    + rewrite IH. clear. tauto.
Qed.

Lemma sort_by_slot_In (x : CharacterDocument) (docs : list CharacterDocument) :
  In x (sort_by_slot docs) <-> In x docs.
Proof.
  unfold sort_by_slot. induction docs as [|d rest IH]; cbn [fold_right In]; [reflexivity|].
  rewrite insert_by_slot_In, IH. clear.
  split; (intros [H | H]; [left; congruence | now right]).
Qed.

Lemma unique_ids_same_id (before after : list CharacterDocument) (d0 d : CharacterDocument) :
  unique_ids (before ++ d0 :: after) ->
  In d (before ++ d0 :: after) -> doc_id d = doc_id d0 -> d = d0.
Proof.
  unfold unique_ids. rewrite map_app. cbn [map]. intros Hnd Hin Hid.
  apply NoDup_app in Hnd. destruct Hnd as (_ & Hsep & Hnd).
  apply NoDup_cons in Hnd. destruct Hnd as [Hnotin _].
  apply in_app_or in Hin. destruct Hin as [Hin | [-> | Hin]]; [|reflexivity|].
  - exfalso. apply (Hsep (doc_id d)).
    + apply list_elem_of_In, in_map. exact Hin.
    + rewrite Hid. apply list_elem_of_here.
  - exfalso. apply Hnotin. rewrite <- Hid. apply list_elem_of_In, in_map. exact Hin.
Qed.

(** With unique ids, a DELETE request answered 200 rewrites the document it
    found: an active one of the session's user. *)
Lemma characters_DELETE_deleted
    (now deletedAt : Z) (params_id : option string) (b : Backend) :
  unique_ids (characters_docs b) ->
  characters_status
    (fst (characters_DELETE ObjectId_isValid ObjectId_new now deletedAt params_id b)) = 200 ->
  exists session characterId before d after,
    fst (getUserSession now (server b)) = Ok (Some session)
    /\ params_id = Some characterId
    /\ ObjectId_new characterId = Ok (doc_id d)
    /\ characters_docs b = before ++ d :: after
    /\ doc_userId d = us_fingerprint session
    /\ active d = true
    /\ characters_docs
         (snd (characters_DELETE ObjectId_isValid ObjectId_new now deletedAt params_id b))
       = before ++ deleted_at deletedAt d :: after.
Proof.
  intros Huniq H200.
  destruct (characters_DELETE_effect now deletedAt params_id b)
    as [[Hno _] | (session & characterId & id & d & Hs & Hp & Hnew & Hfind & _ & Hdocs)];
    [contradiction|].
  apply find_some in Hfind. destruct Hfind as [Hin Hpred].
  apply andb_prop in Hpred. destruct Hpred as [Hpred Hact].
  apply andb_prop in Hpred. destruct Hpred as [Hid Huser].
  apply String.eqb_eq in Hid. apply String.eqb_eq in Huser.
  destruct (set_deletedAt_spec id deletedAt (characters_docs b))
    as [[_ Hall] | (before & d0 & after & Hsplit & Hid0 & _ & Hset)].
  { exfalso. exact (Hall d Hin Hid). }
  rewrite Hsplit in Huniq, Hin.
  assert (Heq : d = d0) by (apply (unique_ids_same_id before after); congruence).
  subst d0. exists session, characterId, before, d, after.
  rewrite Hdocs, Hset. cbn [snd]. repeat split; try assumption. congruence.
Qed.

Lemma of_others_app (fingerprint : string) (docs docs' : list CharacterDocument) :
  of_others fingerprint (docs ++ docs')
  = of_others fingerprint docs ++ of_others fingerprint docs'.
Proof. apply List.filter_app. Qed.

Lemma of_others_own (fingerprint : string) (d : CharacterDocument)
    (rest : list CharacterDocument) :
  doc_userId d = fingerprint ->
  of_others fingerprint (d :: rest) = of_others fingerprint rest.
Proof.
  intros <-. unfold of_others. cbn [List.filter]. rewrite String.eqb_refl. reflexivity.
Qed.

Lemma insert_by_slot_sorted (d : CharacterDocument) (sorted : list CharacterDocument) :
  StronglySorted (fun d d' => doc_slot d <= doc_slot d') sorted ->
  StronglySorted (fun d d' => doc_slot d <= doc_slot d') (insert_by_slot d sorted).
Proof.
  induction 1 as [|d' rest Hsorted IH Hall]; cbn [insert_by_slot].
  - repeat constructor.
  - destruct (Z.leb_spec (doc_slot d) (doc_slot d')).
    + constructor; [constructor; assumption|].
      constructor; [assumption|].
      rewrite List.Forall_forall in *. intros x Hx. specialize (Hall x Hx). lia.
    + constructor; [exact IH|].
      rewrite List.Forall_forall in *. intros x Hx. apply insert_by_slot_In in Hx.
      destruct Hx as [-> | Hx]; [lia | now apply Hall].
Qed.

Lemma sort_by_slot_sorted (docs : list CharacterDocument) :
  StronglySorted (fun d d' => doc_slot d <= doc_slot d') (sort_by_slot docs).
Proof.
  unfold sort_by_slot. induction docs as [|d rest IH]; cbn [fold_right]; [constructor|].
  now apply insert_by_slot_sorted.
Qed.

(** X26. Requests touch only the characters of the session's user. With
    unique ids in the collection, a request made under a live session leaves
    every document of every other user as it is, in place and content; a
    request without a live session changes no document at all; ids stay
    unique. What a GET lists are active characters of the session's user,
    each of them, by ascending slot. *)
Theorem characters_isolation (r : characters_request) (b : Backend) :
  unique_ids (characters_docs b) ->
  let docs' :=
    characters_docs (snd (serve_characters validator ObjectId_isValid ObjectId_new r b)) in
  unique_ids docs'
  /\ match fst (getUserSession (request_now r) (server b)) with
     | Ok (Some session) =>
         of_others (us_fingerprint session) docs'
         = of_others (us_fingerprint session) (characters_docs b)
     | _ => docs' = characters_docs b
     end
  /\ forall views,
       characters_body (fst (characters_GET (request_now r) b)) = CharactersList views ->
       exists session listed,
         fst (getUserSession (request_now r) (server b)) = Ok (Some session)
         /\ views = map view_of listed
         /\ (forall d, In d listed <->
                       In d (characters_docs b)
                       /\ doc_userId d = us_fingerprint session /\ active d = true)
         /\ StronglySorted (fun d d' => doc_slot d <= doc_slot d') listed.
Proof.
  intros Huniq docs'. subst docs'. split; [|split].
  - destruct r as [now | now createdAt newId request_json | now deletedAt params_id];
      cbn [serve_characters request_now].
    + destruct (characters_GET_effect now b) as [-> _]. exact Huniq.
    + destruct (characters_POST_effect now createdAt newId request_json b)
        as [[_ ->] | (session & fields & slot & class_id & name & texture & _ & _ & _ & _
                      & _ & _ & _ & _ & _ & _ & _ & Hfresh & _ & -> & _)]; [exact Huniq|].
      unfold unique_ids. rewrite map_app. apply NoDup_app. split; [exact Huniq|].
      split; [|apply NoDup_singleton].
      intros id Hin Hnew. apply list_elem_of_singleton in Hnew. cbn in Hnew. subst id.
      apply list_elem_of_In, in_map_iff in Hin. destruct Hin as (d & Hid & Hd).
      exact (Hfresh d Hd Hid).
    + destruct (characters_DELETE_effect now deletedAt params_id b)
        as [[_ ->] | (session & characterId & id & d & _ & _ & _ & _ & _ & ->)];
        [exact Huniq|].
      destruct (set_deletedAt_spec id deletedAt (characters_docs b))
        as [[-> _] | (before & d0 & after & Hsplit & _ & _ & ->)]; [exact Huniq|].
      cbn [snd]. unfold unique_ids in *. rewrite Hsplit in Huniq.
      rewrite map_app in *. exact Huniq.
  - destruct r as [now | now createdAt newId request_json | now deletedAt params_id];
      cbn [serve_characters request_now].
    + destruct (characters_GET_effect now b) as [-> _].
      destruct (fst (getUserSession now (server b))) as [[session|]|e]; reflexivity.
    + destruct (characters_POST_effect now createdAt newId request_json b)
        as [[_ ->] | (session & fields & slot & class_id & name & texture & -> & _ & _ & _
                      & _ & _ & _ & _ & _ & _ & _ & _ & _ & -> & _)].
      * destruct (fst (getUserSession now (server b))) as [[session|]|e]; reflexivity.
      * rewrite of_others_app, of_others_own by reflexivity. cbn. apply app_nil_r.
    + destruct (fst (characters_DELETE ObjectId_isValid ObjectId_new now deletedAt params_id b))
        as [status body] eqn:Hanswer.
      destruct (Z.eq_dec status 200) as [-> | Hne].
      * destruct (characters_DELETE_deleted now deletedAt params_id b Huniq)
          as (session & characterId & before & d & after & -> & _ & _ & Hsplit & Hu & _ & ->).
        { rewrite Hanswer. reflexivity. }
        rewrite Hsplit, !of_others_app, !of_others_own by assumption. reflexivity.
      * destruct (characters_DELETE_effect now deletedAt params_id b)
          as [[_ ->] | (session & characterId & id & d & _ & _ & _ & _ & Hr & _)].
        -- destruct (fst (getUserSession now (server b))) as [[session|]|e]; reflexivity.
        -- rewrite Hanswer in Hr. injection Hr as -> _. contradiction.
  - intros views Hbody.
    assert (H200 : characters_status (fst (characters_GET (request_now r) b)) = 200).
    { revert Hbody. unfold characters_GET, run_characters, mbind, on_server, ret.
      destruct (getUserSession (request_now r) (server b)) as [[[session'|]|e] s1]; cbn;
        try discriminate.
      unfold getCollection.
      destruct (connectToDatabase _) as [[[]|e] b2]; cbn; try discriminate.
      unfold find_sorted, driver. destruct (mongo_reachable (server b2)); cbn;
        [reflexivity | discriminate]. }
    destruct (characters_GET_effect (request_now r) b) as [_ Hlist].
    destruct (Hlist H200) as (session & Hs & Hbody'). rewrite Hbody' in Hbody.
    injection Hbody as <-. exists session. eexists. split; [exact Hs|].
    split; [reflexivity|]. split.
    + intros d. rewrite sort_by_slot_In, filter_In, andb_true_iff, String.eqb_eq. tauto.
    + apply sort_by_slot_sorted.
Qed.

(** X27. Deletion is soft and final. With unique ids, a DELETE request
    answered 200 found an active character of the session's user under the
    id; the document stays in the collection, in its place, with only
    [deletedAt] set; no GET lists it afterwards, and no later DELETE for the
    id is answered 200. *)
Theorem characters_DELETE_soft
    (now deletedAt now' deletedAt' : Z) (params_id : option string) (b : Backend) :
  unique_ids (characters_docs b) ->
  characters_status
    (fst (characters_DELETE ObjectId_isValid ObjectId_new now deletedAt params_id b)) = 200 ->
  let b' := snd (characters_DELETE ObjectId_isValid ObjectId_new now deletedAt params_id b) in
  exists session before d after,
    fst (getUserSession now (server b)) = Ok (Some session)
    /\ characters_docs b = before ++ d :: after
    /\ doc_userId d = us_fingerprint session
    /\ active d = true
    /\ characters_docs b' = before ++ deleted_at deletedAt d :: after
    /\ (forall views v,
          characters_body (fst (characters_GET now' b')) = CharactersList views ->
          In v views -> character_id v <> doc_id d)
    /\ characters_status
         (fst (characters_DELETE ObjectId_isValid ObjectId_new now' deletedAt' params_id b'))
       <> 200.
Proof.
  intros Huniq H200 b'.
  destruct (characters_DELETE_deleted now deletedAt params_id b Huniq H200)
    as (session & characterId & before & d & after & Hs & Hp & Hnew & Hsplit & Hu & Ha
        & Hdocs).
  fold b' in Hdocs.
  assert (Huniq' : unique_ids (characters_docs b')).
  { rewrite Hdocs. unfold unique_ids in *. rewrite Hsplit in Huniq.
    rewrite map_app in *. exact Huniq. }
  assert (Hgone : forall x, In x (characters_docs b') -> doc_id x = doc_id d ->
                            active x = false).
  { intros x Hx Hid. rewrite Hdocs in Hx, Huniq'.
    rewrite (unique_ids_same_id before after (deleted_at deletedAt d) x Huniq' Hx Hid).
    reflexivity. }
  exists session, before, d, after. repeat split; try assumption.
  - intros views v Hbody Hv Hid.
    destruct (characters_GET_effect now' b') as [_ Hlist].
    assert (H200' : characters_status (fst (characters_GET now' b')) = 200).
    { revert Hbody. unfold characters_GET, run_characters, mbind, on_server, ret.
      destruct (getUserSession now' (server b')) as [[[session'|]|e] s1]; cbn;
        try discriminate.
      unfold getCollection.
      destruct (connectToDatabase _) as [[[]|e] b2]; cbn; try discriminate.
      unfold find_sorted, driver. destruct (mongo_reachable (server b2)); cbn;
        [reflexivity | discriminate]. }
    destruct (Hlist H200') as (session' & _ & Hbody'). rewrite Hbody' in Hbody.
    injection Hbody as <-. apply in_map_iff in Hv. destruct Hv as (x & <- & Hx).
    apply sort_by_slot_In, filter_In in Hx. destruct Hx as [Hx Hpred].
    apply andb_prop in Hpred. destruct Hpred as [_ Hact].
    rewrite (Hgone x Hx Hid) in Hact. discriminate.
  - intros H200'.
    destruct (characters_DELETE_deleted now' deletedAt' params_id b' Huniq' H200')
      as (session' & characterId' & before' & d' & after' & _ & Hp' & Hnew' & Hsplit' & _
          & Ha' & _).
    assert (Hid : doc_id d' = doc_id d) by congruence.
    assert (Hin : In d' (characters_docs b')).
    { rewrite Hsplit'. apply in_or_app. right. now left. }
    rewrite (Hgone d' Hin Hid) in Ha'. discriminate.
Qed.

(** ** Initialization *)

Lemma has_index_insert_same (name : string) (index : DbIndex) (b : Backend)
    (meta : CollectionMeta) :
  In index (meta_indexes meta) ->
  has_index name index (set_db_collections (insert name meta) b).
Proof. unfold has_index. cbn. rewrite lookup_insert_eq. auto. Qed.

Lemma has_index_insert (n name : string) (index : DbIndex) (b : Backend)
    (validated : bool) (more : list DbIndex) :
  has_index n index b ->
  has_index n index
    (set_db_collections
       (insert name
          (mkCollectionMeta validated
             (meta_indexes (default (mkCollectionMeta false []) (db_collections b !! name))
              ++ more)))
       b).
Proof.
  unfold has_index. cbn. intros H.
  destruct (decide (name = n)) as [-> | Hne].
  - rewrite lookup_insert_eq. cbn. apply in_or_app. now left.
  - rewrite lookup_insert_ne by exact Hne. exact H.
Qed.

Lemma index_eqb_eq (i j : DbIndex) : index_eqb i j = true -> i = j.
Proof.
  unfold index_eqb. intros H.
  apply andb_prop in H. destruct H as [H Hp].
  apply andb_prop in H. destruct H as [H Hu].
  apply andb_prop in H. destruct H as [Hk Hn].
  apply bool_decide_eq_true in Hk. apply String.eqb_eq in Hn.
  apply Bool.eqb_prop in Hu. apply Bool.eqb_prop in Hp.
  destruct i, j. cbn in *. congruence.
Qed.

Lemma createIndex_mono (n name : string) key options (index : DbIndex) (b : Backend) :
  has_index n index b -> has_index n index (snd (createIndex name key options b)).
Proof.
  intros H. unfold createIndex, driver.
  destruct (mongo_reachable (server b)); [|exact H].
  destruct (existsb _ _); [exact H|].
  destruct (existsb _ _); [exact H|].
  destruct (has_duplicates _ _); [exact H|].
  cbn [snd]. now apply has_index_insert.
Qed.

Lemma createIndex_has (name : string) key options (b : Backend) :
  fst (createIndex name key options b) = Ok tt ->
  has_index name
    (mkDbIndex key (opt_name options) (default false (opt_unique options))
       (opt_partialFilterExpression options))
    (snd (createIndex name key options b)).
Proof.
  unfold createIndex, driver.
  destruct (mongo_reachable (server b)); [|discriminate].
  destruct (existsb (index_eqb _) _) eqn:Hex.
  - intros _. cbn [snd]. apply existsb_exists in Hex. destruct Hex as (i & Hin & Heq).
    apply index_eqb_eq in Heq. subst i. exact Hin.
  - destruct (existsb (fun i => _ || _) _); [cbn; discriminate|].
    destruct (has_duplicates _ _); [cbn; discriminate|].
    intros _. cbn [snd]. apply has_index_insert_same. cbn. apply in_or_app. right. now left.
Qed.

Lemma ensure_indexes_mono (n name : string) indexes (index : DbIndex) (b : Backend) :
  has_index n index b -> has_index n index (snd (ensure_indexes name indexes b)).
Proof.
  revert b. induction indexes as [|i rest IH]; intros b H; [exact H|].
  cbn [ensure_indexes]. unfold mbind.
  pose proof (createIndex_mono n name (def_key i) (createIndex_options i) index b H) as H1.
  destruct (createIndex name _ _ b) as [[[]|e] b1]; cbn [snd] in *; [|exact H1].
  now apply IH.
Qed.

Lemma collMod_mono (n name : string) (index : DbIndex) (b : Backend) :
  has_index n index b -> has_index n index (snd (collMod name b)).
Proof.
  intros H. unfold collMod, driver.
  destruct (mongo_reachable (server b)); [|exact H].
  destruct (db_collMod b); try exact H. cbn [snd].
  pose proof (has_index_insert n name index b true [] H) as H'.
  rewrite app_nil_r in H'. exact H'.
Qed.

Lemma createCollection_mono (n name : string) (index : DbIndex) (b : Backend) :
  has_index n index b -> has_index n index (snd (createCollection name b)).
Proof.
  intros H. unfold createCollection, driver.
  destruct (mongo_reachable (server b)); [|exact H].
  destruct (collection_exists name b) eqn:Hex; [exact H|]. cbn [snd].
  unfold has_index in *. cbn.
  destruct (decide (name = n)) as [-> | Hne].
  - exfalso. unfold collection_exists in Hex. apply orb_false_elim in Hex.
    destruct Hex as [Hex _]. apply bool_decide_eq_false in Hex.
    destruct (db_collections b !! n); [apply Hex; eauto | destruct H].
  - rewrite lookup_insert_ne by exact Hne. exact H.
Qed.

Lemma initializeCollection_mono (n : string) definition (index : DbIndex) (b : Backend) :
  has_index n index b -> has_index n index (snd (initializeCollection definition b)).
Proof.
  intros H. unfold initializeCollection, mbind, driver at 1.
  destruct (mongo_reachable (server b)); [|exact H].
  destruct (collection_exists (coll_name definition) b); cbn [negb].
  - pose proof (collMod_mono n (coll_name definition) index b H) as H1.
    destruct (collMod (coll_name definition) b) as [[[]|e] b1]; cbn [snd] in *.
    + now apply ensure_indexes_mono.
    + destruct (_ && _); [|exact H1]. now apply ensure_indexes_mono.
  - pose proof (createCollection_mono n (coll_name definition) index b H) as H1.
    destruct (createCollection (coll_name definition) b) as [[[]|e] b1]; cbn [snd] in *;
      [|exact H1].
    now apply ensure_indexes_mono.
Qed.

Lemma initialize_all_mono (n : string) definitions (index : DbIndex) (b : Backend) :
  has_index n index b -> has_index n index (snd (initialize_all definitions b)).
Proof.
  revert b. induction definitions as [|definition rest IH]; intros b H; [exact H|].
  cbn [initialize_all]. unfold mbind.
  pose proof (initializeCollection_mono n definition index b H) as H1.
  destruct (initializeCollection definition b) as [[[]|e] b1]; cbn [snd] in *; [|exact H1].
  now apply IH.
Qed.

Lemma connectToDatabase_mono (n : string) (index : DbIndex) (b : Backend) :
  has_index n index b -> has_index n index (snd (connectToDatabase b)).
Proof.
  intros H. unfold connectToDatabase. destruct (cachedDb b); [exact H|].
  destruct (mongo_reachable (server b)); cbn [negb]; [|exact H].
  destruct (collectionsInitialized (set_cachedDb true b)); cbn [negb]; [exact H|].
  pose proof (initialize_all_mono n COLLECTIONS index (set_cachedDb true b) H) as H1.
  unfold initializeCollections.
  destruct (initialize_all COLLECTIONS (set_cachedDb true b)) as [[[]|e] b1];
    cbn [snd] in *; exact H1.
Qed.

(** Where [ensure_indexes] returns, the first index of the list exists as
    [createIndex_options] describes it. *)
Lemma ensure_indexes_first (name : string) (i : IndexDefinition) rest (b : Backend) :
  fst (ensure_indexes name (i :: rest) b) = Ok tt ->
  has_index name
    (mkDbIndex (def_key i) (def_name i) (default false (def_unique i)) false)
    (snd (ensure_indexes name (i :: rest) b)).
Proof.
  cbn [ensure_indexes]. unfold mbind.
  pose proof (createIndex_has name (def_key i) (createIndex_options i) b) as H.
  destruct (createIndex name _ _ b) as [[[]|e] b1]; cbn [fst snd] in *; [|discriminate].
  intros _. apply ensure_indexes_mono. now apply H.
Qed.

(** X28. The unique index on (userId, slot) is created without its
    filter: [CharactersIndexes] defines it with
    [partialFilterExpression: { deletedAt: null }], but where
    [initializeCollections] returns, and so where a first connection records
    the collections as initialized, [characters] has that index ranging over
    deleted characters too. *)
Theorem initializeCollections_drops_partial_filter (b : Backend) :
  In (mkIndexDefinition ["userId"; "slot"] (Some true) "user_slot_unique" true None)
     CharactersIndexes
  /\ (fst (initializeCollections b) = Ok tt ->
      has_index "characters" user_slot_index (snd (initializeCollections b)))
  /\ (cachedDb b = false -> collectionsInitialized b = false ->
      collectionsInitialized (snd (connectToDatabase b)) = true ->
      has_index "characters" user_slot_index (snd (connectToDatabase b))).
Proof.
  assert (Hinit : forall b0, fst (initializeCollections b0) = Ok tt ->
                             has_index "characters" user_slot_index
                               (snd (initializeCollections b0))).
  { intros b0. unfold initializeCollections, COLLECTIONS.
    cbn [initialize_all]. unfold mbind.
    destruct (initializeCollection _ b0) as [[[]|e] b1]; cbn [fst snd]; [|discriminate].
    destruct (initializeCollection (mkCollectionDefinition "characters" CharactersIndexes) b1)
      as [r b2] eqn:Hchars. cbn [ret].
    assert (Hgoal : r = Ok tt -> has_index "characters" user_slot_index b2).
    { revert Hchars. unfold initializeCollection, mbind, driver at 1.
      cbn [coll_name coll_indexes].
      destruct (mongo_reachable (server b1)); [|intros [= <- <-]; discriminate].
      assert (Hens : forall b3 r3 b4,
                 ensure_indexes "characters" CharactersIndexes b3 = (r3, b4) ->
                 r3 = Ok tt -> has_index "characters" user_slot_index b4).
      { intros b3 r3 b4 He Hr.
        pose proof (ensure_indexes_first "characters"
                      (mkIndexDefinition ["userId"; "slot"] (Some true) "user_slot_unique"
                         true None)
                      [mkIndexDefinition ["userId"; "deletedAt"] None "user_active_idx"
                         false None;
                       mkIndexDefinition ["createdAt"] None "created_at_idx" false None]
                      b3) as H.
        change (ensure_indexes "characters" (_ :: _) b3)
          with (ensure_indexes "characters" CharactersIndexes b3) in H.
        rewrite He in H. cbn [fst snd] in H. apply H. exact Hr. }
      destruct (collection_exists "characters" b1); cbn [negb].
      - destruct (collMod "characters" b1) as [[[]|e] b3]; cbn [snd].
        + intros He. now apply (Hens b3).
        + destruct (_ && _).
          * intros He. now apply (Hens b3).
          * intros [= <- <-]. discriminate.
      - destruct (createCollection "characters" b1) as [[[]|e] b3]; cbn [snd].
        + intros He. now apply (Hens b3).
        + intros [= <- <-]. discriminate. }
    destruct r as [[]|e]; cbn [fst snd]; [|discriminate]. intros _. now apply Hgoal. }
  split; [now left|]. split; [apply Hinit|].
  intros Hc Hi. unfold connectToDatabase. rewrite Hc.
  destruct (mongo_reachable (server b)); cbn [negb snd]; [|congruence].
  change (collectionsInitialized (set_cachedDb true b)) with (collectionsInitialized b).
  rewrite Hi. cbn [negb].
  pose proof (Hinit (set_cachedDb true b)) as H.
  destruct (initializeCollections_module_variables (set_cachedDb true b)) as [_ Hkeep].
  change (collectionsInitialized (set_cachedDb true b)) with (collectionsInitialized b)
    in Hkeep.
  destruct (initializeCollections (set_cachedDb true b)) as [[[]|e] b1]; cbn [fst snd] in *.
  - intros _. unfold has_index in *. cbn. now apply H.
  - congruence.
Qed.

(** ** After the first connection *)

Ltac same_schema_leaf :=
  repeat split; cbn;
  try reflexivity;
  unfold characters_meta; cbn; rewrite ?lookup_insert_eq; reflexivity.

Lemma serve_characters_same_schema (r : characters_request) (b : Backend) :
  cachedDb b = true ->
  same_schema b (snd (serve_characters validator ObjectId_isValid ObjectId_new r b)).
Proof.
  intros Hc.
  destruct r as [now | now createdAt newId request_json | now deletedAt params_id];
    cbn [serve_characters].
  - unfold characters_GET, run_characters, mbind, on_server, ret, getCollection.
    destruct (getUserSession now (server b)) as [[[session|]|e] s1]; try same_schema_leaf.
    rewrite connectToDatabase_cached by exact Hc.
    unfold find_sorted, driver. cbn [server set_server].
    destruct (mongo_reachable s1); same_schema_leaf.
  - unfold characters_POST, run_characters, mbind, on_server, ret, lift, getCollection.
    destruct (getUserSession now (server b)) as [[[session|]|e] s1]; try same_schema_leaf.
    destruct request_json as [[|fields|]|e]; try same_schema_leaf.
    destruct (_ || _); [same_schema_leaf|].
    destruct (valid_slot _) as [slot|]; [|same_schema_leaf].
    destruct (includes_class _) as [class_id|]; [|same_schema_leaf].
    rewrite connectToDatabase_cached by exact Hc.
    unfold findOne, insertOne, driver. cbn [server set_server].
    destruct (mongo_reachable s1) eqn:Hr; [|same_schema_leaf].
    destruct (find _ _); [same_schema_leaf|].
    cbn [server set_server]. rewrite Hr.
    destruct (existsb (fun d => String.eqb _ _) _); [same_schema_leaf|].
    destruct (_ && _); [same_schema_leaf|].
    destruct (existsb (fun index => duplicate_key _ _ _) _); same_schema_leaf.
  - unfold characters_DELETE, run_characters, mbind, on_server, ret, lift, getCollection.
    destruct (getUserSession now (server b)) as [[[session|]|e] s1]; try same_schema_leaf.
    destruct (negb (truthy params_id)); [same_schema_leaf|].
    destruct (negb (ObjectId_isValid _)); [same_schema_leaf|].
    rewrite connectToDatabase_cached by exact Hc.
    destruct (ObjectId_new _) as [id|e]; [|same_schema_leaf].
    unfold findOne, updateOne_deletedAt, driver. cbn [server set_server].
    destruct (mongo_reachable s1) eqn:Hr; [|same_schema_leaf].
    destruct (find _ _); [|same_schema_leaf].
    cbn [server set_server]. rewrite Hr.
    destruct (set_deletedAt _ _ _) as [modifiedCount docs].
    destruct (modifiedCount =? 0); same_schema_leaf.
Qed.

(** X29. Collections are initialized on the first connection or never:
    once a connection is cached, no run of GET, POST and DELETE requests
    changes [collectionsInitialized] or the validator and indexes of
    [characters]; where initialization failed, the flag stays false and
    [characters] stays without validator and indexes, the write that
    creates the collection included. *)
Theorem no_late_initialization (rs : list characters_request) (b : Backend) :
  cachedDb b = true ->
  same_schema b (serve_characters_all validator ObjectId_isValid ObjectId_new rs b)
  /\ connectToDatabase
       (serve_characters_all validator ObjectId_isValid ObjectId_new rs b)
     = (Ok tt, serve_characters_all validator ObjectId_isValid ObjectId_new rs b).
Proof.
  intros Hc.
  assert (H : same_schema b
                (serve_characters_all validator ObjectId_isValid ObjectId_new rs b)).
  { unfold serve_characters_all. revert b Hc.
    induction rs as [|r rs IH]; intros b Hc; [repeat split|].
    cbn [fold_left].
    destruct (serve_characters_same_schema r b Hc) as (H1 & H2 & H3).
    destruct (IH (snd (serve_characters validator ObjectId_isValid ObjectId_new r b)))
      as (H4 & H5 & H6); [congruence|].
    repeat split; congruence. }
  split; [exact H|]. apply connectToDatabase_cached.
  destruct H as (H & _). congruence.
Qed.

(** ** A slot once used *)

(** X30. With the index on (userId, slot) as initialization creates it, a
    slot once used is used for good: while the collection holds a character
    of the session's user in the slot, deleted or not, no POST for that slot
    is answered 201. *)
Theorem slot_reuse_blocked
    (now createdAt : Z) (newId : ObjectId) (fields : gmap string JsValue) (b : Backend)
    (session : UserSession) (d : CharacterDocument) :
  has_index "characters" user_slot_index b ->
  fst (getUserSession now (server b)) = Ok (Some session) ->
  In d (characters_docs b) ->
  doc_userId d = us_fingerprint session ->
  fields !! "slot" = Some (JsInteger (doc_slot d)) ->
  characters_status
    (fst (characters_POST validator now createdAt newId (Ok (BodyObject fields)) b))
  <> 201.
Proof.
  intros Hindex Hs Hd Hu Hslot H201.
  destruct (characters_POST_effect now createdAt newId (Ok (BodyObject fields)) b)
    as [[Hno _] | (session' & fields' & slot & class_id & name & texture & Hs' & Hbody
                   & Hslot' & _ & _ & _ & _ & _ & _ & _ & _ & _ & _ & _ & _ & Hdup)];
    [contradiction|].
  injection Hbody as <-. rewrite Hs in Hs'. injection Hs' as <-.
  rewrite Hslot in Hslot'. injection Hslot' as <-.
  assert (Hin : In user_slot_index (meta_indexes (characters_meta (connected now b)))).
  { unfold connected. apply (connectToDatabase_mono "characters"). exact Hindex. }
  specialize (Hdup user_slot_index Hin).
  assert (Htrue : duplicate_key user_slot_index (characters_docs b)
                    (mkCharacterDocument newId (us_fingerprint session) name (doc_slot d)
                       class_id texture 1 0 createdAt None) = true).
  { unfold duplicate_key, indexed. cbn [user_slot_index idx_unique idx_partial negb orb andb].
    apply existsb_exists. exists d. split; [exact Hd|].
    cbn [idx_key same_key forallb]. unfold field_value. cbn. rewrite Hu, !String.eqb_refl.
    reflexivity. }
  congruence.
Qed.

End CharactersFacts.

(** ** Instances *)

Lemma with_ash_docs :
  characters_docs with_ash
  = [mkCharacterDocument ash_id "player" (JsString "Ash") 2 "HUmar" (JsString "pc_000_000")
       1 0 2000 None].
Proof. vm_compute. reflexivity. Qed.

Lemma characters_POST_created_witness :
  characters_status
    (fst (characters_POST accept_all 2000 2000 ash_id (Ok ash_body) new_backend)) = 201
  /\ exists doc,
       characters_docs with_ash = characters_docs new_backend ++ [doc]
       /\ doc_level doc = 1 /\ doc_experience doc = 0 /\ doc_deletedAt doc = None.
Proof.
  assert (H : characters_status
                (fst (characters_POST accept_all 2000 2000 ash_id (Ok ash_body) new_backend))
              = 201) by (vm_compute; reflexivity).
  destruct (characters_POST_created accept_all 2000 2000 ash_id (Ok ash_body) new_backend H)
    as (session & fields & slot & class_id & name & texture & _ & _ & _ & _ & _ & _ & _ & _
        & _ & _ & _ & _ & _ & Hdocs & _).
  split; [exact H|]. eexists. split; [exact Hdocs|]. repeat split.
Defined.


Lemma with_ash_unique_ids : unique_ids (characters_docs with_ash).
Proof. rewrite with_ash_docs. apply NoDup_singleton. Qed.


Lemma characters_isolation_witness :
  unique_ids (characters_docs with_ash)
  /\ unique_ids
       (characters_docs
          (snd (serve_characters accept_all length24 as_written
                  (DeleteCharacter 3000 3000 (Some ash_id)) with_ash)))
  /\ of_others "player"
       (characters_docs
          (snd (serve_characters accept_all length24 as_written
                  (DeleteCharacter 3000 3000 (Some ash_id)) with_ash)))
     = of_others "player" (characters_docs with_ash).
Proof.
  destruct (characters_isolation accept_all length24 as_written
              (DeleteCharacter 3000 3000 (Some ash_id)) with_ash with_ash_unique_ids)
    as (Hu & Ho & _).
  assert (Hs : fst (getUserSession 3000 (server with_ash))
               = Ok (Some (mkUserSession "player" 1000 3601000)))
    by (vm_compute; reflexivity).
  cbn [request_now] in Ho. rewrite Hs in Ho.
  exact (conj with_ash_unique_ids (conj Hu Ho)).
Defined.

Lemma characters_DELETE_soft_witness :
  characters_status
    (fst (characters_DELETE length24 as_written 3000 3000 (Some ash_id) with_ash)) = 200
  /\ characters_status
       (fst (characters_DELETE length24 as_written 3500 3500 (Some ash_id) without_ash))
     <> 200.
Proof.
  assert (H : characters_status
                (fst (characters_DELETE length24 as_written 3000 3000 (Some ash_id) with_ash))
              = 200) by (vm_compute; reflexivity).
  destruct (characters_DELETE_soft length24 as_written 3000 3000 3500 3500 (Some ash_id)
              with_ash with_ash_unique_ids H)
    as (session & before & d & after & _ & _ & _ & _ & _ & _ & Hagain).
  exact (conj H Hagain).
Defined.

Lemma initializeCollections_drops_partial_filter_witness :
  fst (initializeCollections new_backend) = Ok tt
  /\ has_index "characters" user_slot_index (snd (initializeCollections new_backend))
  /\ has_index "characters" user_slot_index (snd (connectToDatabase new_backend)).
Proof.
  assert (H : fst (initializeCollections new_backend) = Ok tt) by (vm_compute; reflexivity).
  assert (Hi : collectionsInitialized (snd (connectToDatabase new_backend)) = true)
    by (vm_compute; reflexivity).
  destruct (initializeCollections_drops_partial_filter new_backend) as (_ & H1 & H2).
  exact (conj H (conj (H1 H) (H2 eq_refl eq_refl Hi))).
Defined.

Lemma no_late_initialization_witness :
  cachedDb unindexed_backend = true
  /\ same_schema unindexed_backend
       (serve_characters_all accept_all length24 as_written
          [PostCharacter 2000 2000 ash_id (Ok ash_body); GetCharacters 2500;
           DeleteCharacter 3000 3000 (Some ash_id)]
          unindexed_backend).
Proof.
  exact (conj eq_refl
           (proj1 (no_late_initialization accept_all length24 as_written _
                     unindexed_backend eq_refl))).
Defined.

Lemma without_ash_index : has_index "characters" user_slot_index without_ash.
Proof. unfold has_index. vm_compute. auto. Qed.

Lemma slot_reuse_blocked_witness :
  has_index "characters" user_slot_index without_ash
  /\ characters_docs without_ash
     = [mkCharacterDocument ash_id "player" (JsString "Ash") 2 "HUmar"
          (JsString "pc_000_000") 1 0 2000 (Some 3000)]
  /\ characters_status
       (fst (characters_POST accept_all 4000 4000 "65a000000000000000000002"
               (Ok ash_body) without_ash)) <> 201
  /\ characters_status
       (fst (characters_POST accept_all 4000 4000 "65a000000000000000000002"
               (Ok ash_body) unindexed_without_ash)) = 201.
Proof.
  assert (Hdocs : characters_docs without_ash
                  = [mkCharacterDocument ash_id "player" (JsString "Ash") 2 "HUmar"
                       (JsString "pc_000_000") 1 0 2000 (Some 3000)])
    by (vm_compute; reflexivity).
  assert (Hs : fst (getUserSession 4000 (server without_ash))
               = Ok (Some (mkUserSession "player" 1000 3601000)))
    by (vm_compute; reflexivity).
  assert (Hd : In (mkCharacterDocument ash_id "player" (JsString "Ash") 2 "HUmar"
                     (JsString "pc_000_000") 1 0 2000 (Some 3000))
                  (characters_docs without_ash))
    by (rewrite Hdocs; now left).
  assert (H201 : characters_status
                   (fst (characters_POST accept_all 4000 4000 "65a000000000000000000002"
                           (Ok ash_body) unindexed_without_ash)) = 201)
    by (vm_compute; reflexivity).
  split; [exact without_ash_index|]. split; [exact Hdocs|]. split; [|exact H201].
  refine (slot_reuse_blocked accept_all 4000 4000 "65a000000000000000000002" _ without_ash
            (mkUserSession "player" 1000 3601000) _ without_ash_index Hs Hd eq_refl _).
  reflexivity.
Defined.
